(** * The persistence and reconciliation engine of the sidebar notes

    A shallow embedding of [StorageService] (both variants found in the
    sources), of [MigrationService] and of the configuration record they
    read, with the properties of the engine stated over it.

    Conventions of the embedding:
    - JavaScript numbers are integers ([Z]); [NaN] is [None] in [option Z].
    - The JavaScript runtime services the engine calls ([JSON.parse],
      [JSON.stringify], [new Date(s).getTime()], [toISOString]) are the
      fields of the class [Runtime]; every definition and theorem is
      generic in it.  [refRuntime], at the end of the definitions, is an
      instance on which the model runs.
    - Asynchronous code is run to completion in program order; a promise
      that rejects is a [Throw]. *)

From Stdlib Require Import ZArith String Ascii List Lia Bool.
From stdpp Require Import base decidable option list sorting gmap strings.

Local Set Warnings "-register-all".
Local Open Scope string_scope.
Local Open Scope list_scope.
Local Open Scope Z_scope.

(** ** Values read from and written to disk *)

(** What [JSON.parse] returns.  An object keeps its properties in order;
    [JSON.parse] never yields the same key twice. *)
Inductive json : Type :=
  | JNull
  | JBool (b : bool)
  | JNum (n : Z)
  | JStr (s : string)
  | JArr (items : list json)
  | JObj (fields : list (string * json)).

Class Runtime := {
  (** the text of a file *)
  text : Type;
  (** [JSON.parse(data)]; [None] when it throws a [SyntaxError] *)
  JSON_parse : text -> option json;
  (** [JSON.stringify(value, null, 2)] *)
  JSON_stringify : json -> text;
  (** [new Date(s).getTime()]; [None] is [NaN] *)
  Date_getTime : string -> option Z;
  (** [new Date(ms).toISOString()] *)
  toISOString : Z -> string
}.

(** ** Data model (interfaces [NotesData], [LegacyNotesData]) *)

Inductive UIState := editor | render.
Inductive SyncStatus := synced | pending | conflict.

Record Metadata := {
  totalPages : Z;
  createdAt : string;
  syncStatus : option SyncStatus;
  fileModTime : option Z
}.

Record NotesData := {
  version : Z;
  lastModified : string;
  deviceId : string;
  state : UIState;
  currentPage : Z;
  pages : list string;
  bookmarks : option (list bool);
  metadata : Metadata
}.

Record LegacyNotesData := {
  legacy_state : UIState;
  legacy_currentPage : Z;
  legacy_pages : list string;
  legacy_version : option Z
}.

Definition set_bookmarks (d : NotesData) (b : option (list bool)) : NotesData :=
  {| version := version d; lastModified := lastModified d; deviceId := deviceId d;
     state := state d; currentPage := currentPage d; pages := pages d;
     bookmarks := b; metadata := metadata d |}.

(** The invariant of the data model: the bookmark flags exist and there is
    one per page. *)
Definition bookmarksMatchPages (d : NotesData) : Prop :=
  exists bs, bookmarks d = Some bs /\ length bs = length (pages d).

(** ** JavaScript containers used by the engine *)

(** [new Set(iterable)]: a set remembers insertion order, and [add] of a
    value already present changes nothing.  [Array.from(set)] lists the
    elements in insertion order. *)
Definition Set_add (s : list string) (x : string) : list string :=
  if decide (x ∈ s) then s else s ++ [x].

Definition Set_new (xs : list string) : list string := foldl Set_add [] xs.

Definition Array_from_Set (s : list string) : list string := s.

(** [new Map(entries)]: a later entry for a key replaces the earlier one. *)
Definition Map_new (entries : list (string * nat)) : gmap string nat :=
  foldl (fun m e => <[e.1 := e.2]> m) ∅ entries.

(** [a[i] = v] on an array: inside the array the slot is replaced, past its
    end the array grows (the slots in between are holes, read as [hole]). *)
Definition Array_set {A} (hole : A) (a : list A) (i : nat) (v : A) : list A :=
  if decide (i < length a)%nat then <[i := v]> a
  else a ++ replicate (i - length a) hole ++ [v].

(** [new Array(n).fill(false)] *)
Definition Array_fill_false (n : nat) : list bool := replicate n false.

(** [a > b] on numbers: false as soon as one side is [NaN]. *)
Definition js_gt (a b : option Z) : bool :=
  match a, b with
  | Some x, Some y => bool_decide (y < x)
  | _, _ => false
  end.

(** ** Configuration ([getConfig()]) *)

Inductive ConflictResolution := timestamp | manual.

Record BackupConfig := { enabled : bool; maxBackups : Z }.
Record SyncConfig := { conflictResolution : ConflictResolution }.

(** The storage location only selects the folder; the model has one
    storage folder, so that part of the configuration is left out. *)
Record Config := { backup : BackupConfig; sync : SyncConfig }.

(** What an operation reads but never changes: the configuration, the
    device id of the service ([this.deviceId]) and the clock.  Every
    [new Date()] of one operation reads the same instant [now]. *)
Record Env := { config : Config; this_deviceId : string; now : Z }.

(** ** [StorageService.mergeNotes] *)

(** One of the two [forEach] loops that carry bookmarks over: for the page at
    [idx] of the source, when the source flags it, the flag of the same page
    text in the merged list is set. *)
Definition carryBookmarks (pageIndexMap : gmap string nat)
    (srcPages : list string) (srcBookmarks : list bool)
    (merged : list bool) : list bool :=
  foldl (fun acc e =>
           match pageIndexMap !! e.2 with
           | Some newIdx =>
               if default false (srcBookmarks !! e.1)
               then Array_set false acc newIdx true
               else acc
           | None => acc
           end)
        merged (imap (fun idx page => (idx, page)) srcPages).

Section Merge.
Context `{R : Runtime}.
Variable env : Env.

Definition allPagesOf (localData remoteData : NotesData) : list string :=
  Array_from_Set (Set_new (pages localData ++ pages remoteData)).

Definition newerDataOf (localData remoteData : NotesData) : NotesData :=
  let localTime := Date_getTime (lastModified localData) in
  let remoteTime := Date_getTime (lastModified remoteData) in
  if js_gt localTime remoteTime then localData else remoteData.

Definition mergeNotes (localData remoteData : NotesData) : NotesData :=
  let allPages := allPagesOf localData remoteData in
  let newerData := newerDataOf localData remoteData in
  let fresh := Array_fill_false (length allPages) in
  let pageIndexMap := Map_new (imap (fun idx page => (page, idx)) allPages) in
  let afterLocal :=
    match bookmarks localData with
    | Some bs => carryBookmarks pageIndexMap (pages localData) bs fresh
    | None => fresh
    end in
  let afterRemote :=
    match bookmarks remoteData with
    | Some bs => carryBookmarks pageIndexMap (pages remoteData) bs afterLocal
    | None => afterLocal
    end in
  {| version := Z.max (version localData) (version remoteData);
     lastModified := toISOString (now env);
     deviceId := this_deviceId env;
     state := state newerData;
     currentPage := Z.min (currentPage newerData) (Z.of_nat (length allPages) - 1);
     pages := allPages;
     bookmarks := Some afterRemote;
     metadata :=
       {| totalPages := Z.of_nat (length allPages);
          createdAt :=
            (if decide (createdAt (metadata localData) = "")
             then createdAt (metadata remoteData)
             else createdAt (metadata localData));
          syncStatus := Some synced;
          fileModTime := None |} |}.
End Merge.

(** The page union in the words of the specification: walk the pages in
    encounter order and keep a page exactly when its text has not been met
    earlier. *)
Fixpoint firstOccurrences (earlier : list string) (xs : list string) : list string :=
  match xs with
  | [] => []
  | x :: rest =>
      if decide (x ∈ earlier) then firstOccurrences earlier rest
      else x :: firstOccurrences (x :: earlier) rest
  end.

(** ** JavaScript views of a parsed value *)

Fixpoint assoc (k : string) (fields : list (string * json)) : option json :=
  match fields with
  | [] => None
  | (k', v) :: rest => if decide (k' = k) then Some v else assoc k rest
  end.

(** [v.k] for the property names the engine reads; [None] is [undefined].
    (Reading a property of [null] throws; the callers below test for it.) *)
Definition prop (v : json) (k : string) : option json :=
  match v with
  | JObj fields => assoc k fields
  | _ => None
  end.

Inductive jstype := t_undefined | t_object | t_boolean | t_number | t_string.

Definition typeof (v : option json) : jstype :=
  match v with
  | None => t_undefined
  | Some JNull => t_object
  | Some (JBool _) => t_boolean
  | Some (JNum _) => t_number
  | Some (JStr _) => t_string
  | Some (JArr _) => t_object
  | Some (JObj _) => t_object
  end.

Definition jstype_eqb (a b : jstype) : bool :=
  match a, b with
  | t_undefined, t_undefined | t_object, t_object | t_boolean, t_boolean
  | t_number, t_number | t_string, t_string => true
  | _, _ => false
  end.

(** Truthiness, as [!v] and [if (v)] see it. *)
Definition truthy (v : option json) : bool :=
  match v with
  | None => false
  | Some JNull => false
  | Some (JBool b) => b
  | Some (JNum n) => negb (n =? 0)
  | Some (JStr s) => negb (String.eqb s "")
  | Some (JArr _) => true
  | Some (JObj _) => true
  end.

Definition isArray (v : option json) : bool :=
  match v with Some (JArr _) => true | _ => false end.

Definition strictEqStr (v : option json) (s : string) : bool :=
  match v with Some (JStr s') => String.eqb s' s | _ => false end.

Definition strictEqNum (v : option json) (n : Z) : bool :=
  match v with Some (JNum n') => n' =? n | _ => false end.

(** Errors a promise can reject with. *)
Inductive Err :=
  | ENOENT                      (** a file-system error whose [code] is ['ENOENT'] *)
  | SyntaxError                 (** thrown by [JSON.parse] *)
  | TypeError                   (** a property read on [undefined] or [null] *)
  | Error (message : string).   (** [new Error(message)] *)

(** [StorageService.isValidNotesData].  The conjunction is evaluated left to
    right and stops at the first false operand; reading a property of [null]
    throws. *)
Definition isValidNotesData (data : json) : Err + bool :=
  if negb (jstype_eqb (typeof (Some data)) t_object) then inr false
  else match data with
  | JNull => inl TypeError
  | _ =>
    if negb (jstype_eqb (typeof (prop data "version")) t_number) then inr false
    else if negb (jstype_eqb (typeof (prop data "lastModified")) t_string) then inr false
    else if negb (jstype_eqb (typeof (prop data "deviceId")) t_string) then inr false
    else if negb (strictEqStr (prop data "state") "editor"
                  || strictEqStr (prop data "state") "render") then inr false
    else if negb (jstype_eqb (typeof (prop data "currentPage")) t_number) then inr false
    else if negb (isArray (prop data "pages")) then inr false
    else if negb (jstype_eqb (typeof (prop data "metadata")) t_object) then inr false
    else match prop data "metadata" with
    | Some JNull => inl TypeError
    | Some md =>
      if negb (jstype_eqb (typeof (prop md "totalPages")) t_number) then inr false
      else inr (jstype_eqb (typeof (prop md "createdAt")) t_string)
    | None => inr false
    end
  end.

(** ** The casts [parsed as NotesData] and [parsed as LegacyNotesData]

    TypeScript does not check a cast.  The embedding works with typed
    records, so a parsed value is read into a record only when every
    property has the type the interface declares; otherwise the run leaves
    the model (the outcome [Halt IllTyped] below).  Properties outside the
    interface and the order of properties are not tracked. *)

Definition asNum (v : json) : option Z :=
  match v with JNum n => Some n | _ => None end.
Definition asStr (v : json) : option string :=
  match v with JStr s => Some s | _ => None end.
Definition asBool (v : json) : option bool :=
  match v with JBool b => Some b | _ => None end.

Definition asUIState (v : json) : option UIState :=
  match v with
  | JStr s => if String.eqb s "editor" then Some editor
              else if String.eqb s "render" then Some render else None
  | _ => None
  end.

Definition asSyncStatus (v : json) : option SyncStatus :=
  match v with
  | JStr s => if String.eqb s "synced" then Some synced
              else if String.eqb s "pending" then Some pending
              else if String.eqb s "conflict" then Some conflict else None
  | _ => None
  end.

Definition asStrings (v : json) : option (list string) :=
  match v with JArr items => mapM asStr items | _ => None end.
Definition asBools (v : json) : option (list bool) :=
  match v with JArr items => mapM asBool items | _ => None end.

(** An optional property: absent, or of the declared type. *)
Definition optional {A} (read : json -> option A) (v : option json) : option (option A) :=
  match v with
  | None => Some None
  | Some x => Some <$> read x
  end.

Definition asMetadata (v : json) : option Metadata :=
  match v with
  | JObj _ =>
      tp ← prop v "totalPages" ≫= asNum;
      ca ← prop v "createdAt" ≫= asStr;
      ss ← optional asSyncStatus (prop v "syncStatus");
      fm ← optional asNum (prop v "fileModTime");
      Some {| totalPages := tp; createdAt := ca; syncStatus := ss; fileModTime := fm |}
  | _ => None
  end.

Definition asNotesData (data : json) : option NotesData :=
  match data with
  | JObj _ =>
      v ← prop data "version" ≫= asNum;
      lm ← prop data "lastModified" ≫= asStr;
      dev ← prop data "deviceId" ≫= asStr;
      st ← prop data "state" ≫= asUIState;
      cp ← prop data "currentPage" ≫= asNum;
      pg ← prop data "pages" ≫= asStrings;
      bm ← optional asBools (prop data "bookmarks");
      md ← prop data "metadata" ≫= asMetadata;
      Some {| version := v; lastModified := lm; deviceId := dev; state := st;
              currentPage := cp; pages := pg; bookmarks := bm; metadata := md |}
  | _ => None
  end.

Definition asLegacyNotesData (data : json) : option LegacyNotesData :=
  match data with
  | JObj _ =>
      st ← prop data "state" ≫= asUIState;
      cp ← prop data "currentPage" ≫= asNum;
      pg ← prop data "pages" ≫= asStrings;
      ver ← optional asNum (prop data "version");
      Some {| legacy_state := st; legacy_currentPage := cp; legacy_pages := pg;
              legacy_version := ver |}
  | _ => None
  end.

(** The value [JSON.stringify] walks for a typed document: the properties in
    the order of the interface, an absent optional property left out. *)
Definition UIState_json (s : UIState) : json :=
  JStr (match s with editor => "editor" | render => "render" end).

Definition SyncStatus_json (s : SyncStatus) : json :=
  JStr (match s with synced => "synced" | pending => "pending" | conflict => "conflict" end).

Definition optField {A} (k : string) (f : A -> json) (v : option A) : list (string * json) :=
  match v with Some x => [(k, f x)] | None => [] end.

Definition Metadata_json (m : Metadata) : json :=
  JObj ([("totalPages", JNum (totalPages m)); ("createdAt", JStr (createdAt m))]
        ++ optField "syncStatus" SyncStatus_json (syncStatus m)
        ++ optField "fileModTime" JNum (fileModTime m)).

Definition toJson (d : NotesData) : json :=
  JObj ([("version", JNum (version d));
         ("lastModified", JStr (lastModified d));
         ("deviceId", JStr (deviceId d));
         ("state", UIState_json (state d));
         ("currentPage", JNum (currentPage d));
         ("pages", JArr (JStr <$> pages d))]
        ++ optField "bookmarks" (fun bs => JArr (JBool <$> bs)) (bookmarks d)
        ++ [("metadata", Metadata_json (metadata d))]).

(** ** String helpers *)

(** [s.replace(/[:.]/g, '-')] *)
Fixpoint replaceColonDot (s : string) : string :=
  match s with
  | EmptyString => EmptyString
  | String c rest =>
      String (if (Ascii.eqb c ":" || Ascii.eqb c ".")%char then "-"%char else c)
             (replaceColonDot rest)
  end.

(** [s.slice(0, n)] *)
Definition sliceTo (n : nat) (s : string) : string := String.substring 0 n s.

Definition startsWith (s pre : string) : bool := String.prefix pre s.

Definition endsWith (s suf : string) : bool :=
  (String.length suf <=? String.length s)%nat
  && String.eqb (String.substring (String.length s - String.length suf)
                                  (String.length suf) s) suf.

(** The test of [cleanupOldBackups] and [getBackupList] on a directory entry. *)
Definition isBackupName (file : string) : bool :=
  startsWith file "backup-" && endsWith file ".json".

(** ** JavaScript arrays: [sort] and [slice] *)

(** [a.sort(compare)]: the sort is stable, an element moves in front of
    another only when [compare] puts it strictly first. *)
Fixpoint Array_sort_insert {A} (compare : A -> A -> Z) (x : A) (sorted : list A) : list A :=
  match sorted with
  | [] => [x]
  | y :: rest =>
      if compare x y <=? 0 then x :: y :: rest
      else y :: Array_sort_insert compare x rest
  end.

Definition Array_sort {A} (compare : A -> A -> Z) (a : list A) : list A :=
  foldr (Array_sort_insert compare) [] a.

(** [a.slice(start)]: a negative [start] counts from the end. *)
Definition Array_slice {A} (start : Z) (a : list A) : list A :=
  let len := Z.of_nat (length a) in
  let k := if start <? 0 then Z.max (len + start) 0 else Z.min start len in
  drop (Z.to_nat k) a.

(** ** The disk and the state of the service *)

Record file `{Runtime} := { content : text; mtime : Z }.

(** The storage folder: whether it exists, the notes file
    [sidebar-notes.json] and the folder [sidebar-notes-backups] with its
    entries by name ([None]: the folder does not exist). *)
Record Disk `{Runtime} := {
  storageDir : bool;
  notesFile : option file;
  backupDir : option (gmap string file)
}.

(** The disk together with the mutable fields of the service and the
    migration flag kept in the global state of the extension. *)
Record World `{Runtime} := {
  disk : Disk;
  lastKnownModTime : Z;
  suppressFileWatcherEvents : bool;
  migrationCompleted : bool
}.

(** Why a run leaves the model. *)
Inductive Stuck := OutOfFuel | IllTyped.

Inductive Outcome (A : Type) :=
  | Return (a : A)
  | Throw (e : Err)
  | Halt (s : Stuck).
Arguments Return {A} a.
Arguments Throw {A} e.
Arguments Halt {A} s.

Section Engine.
Context `{R : Runtime}.

(** An asynchronous operation of the service: it runs on a world and
    resolves, rejects or leaves the model, in a new world. *)
Definition M (A : Type) : Type := World -> Outcome A * World.

Definition ret {A} (a : A) : M A := fun w => (Return a, w).

Definition bind {A B} (c : M A) (k : A -> M B) : M B :=
  fun w =>
    match c w with
    | (Return a, w') => k a w'
    | (Throw e, w') => (Throw e, w')
    | (Halt s, w') => (Halt s, w')
    end.

Definition throw {A} (e : Err) : M A := fun w => (Throw e, w).
Definition halt {A} (s : Stuck) : M A := fun w => (Halt s, w).

(** [try { c } catch (error) { handler(error) }]: what [c] did to the
    world before it threw stays done. *)
Definition try_catch {A} (c : M A) (handler : Err -> M A) : M A :=
  fun w =>
    match c w with
    | (Throw e, w') => handler e w'
    | r => r
    end.

Definition getWorld : M World := fun w => (Return w, w).
Definition putDisk (d : Disk) : M unit :=
  fun w => (Return tt,
            {| disk := d; lastKnownModTime := lastKnownModTime w;
               suppressFileWatcherEvents := suppressFileWatcherEvents w;
               migrationCompleted := migrationCompleted w |}).
Definition set_lastKnownModTime (t : Z) : M unit :=
  fun w => (Return tt,
            {| disk := disk w; lastKnownModTime := t;
               suppressFileWatcherEvents := suppressFileWatcherEvents w;
               migrationCompleted := migrationCompleted w |}).
Definition setSuppressFileWatcher (suppress : bool) : M unit :=
  fun w => (Return tt,
            {| disk := disk w; lastKnownModTime := lastKnownModTime w;
               suppressFileWatcherEvents := suppress;
               migrationCompleted := migrationCompleted w |}).
Definition set_migrationCompleted (b : bool) : M unit :=
  fun w => (Return tt,
            {| disk := disk w; lastKnownModTime := lastKnownModTime w;
               suppressFileWatcherEvents := suppressFileWatcherEvents w;
               migrationCompleted := b |}).
End Engine.

Notation "x <- c ;; k" := (bind c (fun x => k))
  (at level 100, c at next level, right associativity).
Notation "c ;;; k" := (bind c (fun _ => k))
  (at level 100, right associativity).

Section FileSystem.
Context `{R : Runtime}.

(** *** [fs.promises] on the paths the engine uses *)

(** [readFile(notesPath, 'utf8')] *)
Definition readFile_notes : M text :=
  w <- getWorld ;;
  match notesFile (disk w) with
  | Some f => ret (content f)
  | None => throw ENOENT
  end.

(** [stat(notesPath)], of which only [mtimeMs] is read *)
Definition stat_notes : M Z :=
  w <- getWorld ;;
  match notesFile (disk w) with
  | Some f => ret (mtime f)
  | None => throw ENOENT
  end.

(** [access(notesPath)] *)
Definition access_notes : M unit :=
  w <- getWorld ;;
  match notesFile (disk w) with
  | Some _ => ret tt
  | None => throw ENOENT
  end.

(** [writeFile(notesPath, data, 'utf8')] at the instant [t] *)
Definition writeFile_notes (t : Z) (data : text) : M unit :=
  w <- getWorld ;;
  if storageDir (disk w)
  then putDisk {| storageDir := true;
                  notesFile := Some {| content := data; mtime := t |};
                  backupDir := backupDir (disk w) |}
  else throw ENOENT.

(** [mkdir(dir, { recursive: true })] after a failed [access(dir)] *)
Definition ensureStorageDirectory : M unit :=
  w <- getWorld ;;
  if storageDir (disk w) then ret tt
  else putDisk {| storageDir := true; notesFile := notesFile (disk w);
                  backupDir := backupDir (disk w) |}.

Definition ensureBackupDirectory : M unit :=
  w <- getWorld ;;
  match backupDir (disk w) with
  | Some _ => ret tt
  | None => putDisk {| storageDir := true; notesFile := notesFile (disk w);
                       backupDir := Some ∅ |}
  end.

(** [copyFile(notesPath, path.join(backupDir, name))] at the instant [t]:
    the copy carries the bytes of the notes file and is stamped with the
    time of the copy. *)
Definition copyFile_notes_to_backup (t : Z) (name : string) : M unit :=
  w <- getWorld ;;
  match notesFile (disk w), backupDir (disk w) with
  | Some f, Some dir =>
      putDisk {| storageDir := storageDir (disk w); notesFile := notesFile (disk w);
                 backupDir := Some (<[name := {| content := content f; mtime := t |}]> dir) |}
  | _, _ => throw ENOENT
  end.

(** [readdir(backupDir)] *)
Definition readdir_backup : M (list string) :=
  w <- getWorld ;;
  match backupDir (disk w) with
  | Some dir => ret ((map_to_list dir).*1)
  | None => throw ENOENT
  end.

(** [statSync(path.join(backupDir, name))], of which only [mtime] is read *)
Definition stat_backup (name : string) : M Z :=
  w <- getWorld ;;
  match backupDir (disk w) ≫= (fun dir => dir !! name) with
  | Some f => ret (mtime f)
  | None => throw ENOENT
  end.

(** [unlink(path.join(backupDir, name))] *)
Definition unlink_backup (name : string) : M unit :=
  w <- getWorld ;;
  match backupDir (disk w) with
  | Some dir =>
      match dir !! name with
      | Some _ => putDisk {| storageDir := storageDir (disk w);
                             notesFile := notesFile (disk w);
                             backupDir := Some (delete name dir) |}
      | None => throw ENOENT
      end
  | None => throw ENOENT
  end.

(** [readFile(path.join(backupDir, name), 'utf8')] *)
Definition readFile_backup (name : string) : M text :=
  w <- getWorld ;;
  match backupDir (disk w) ≫= (fun dir => dir !! name) with
  | Some f => ret (content f)
  | None => throw ENOENT
  end.

(** [for (const x of xs) { await f(x) }] and [xs.map(f)] with effects *)
Fixpoint forEachM {A} (f : A -> M unit) (xs : list A) : M unit :=
  match xs with
  | [] => ret tt
  | x :: rest => f x ;;; forEachM f rest
  end.

Fixpoint mapArrayM {A B} (f : A -> M B) (xs : list A) : M (list B) :=
  match xs with
  | [] => ret []
  | x :: rest => y <- f x ;; ys <- mapArrayM f rest ;; ret (y :: ys)
  end.
End FileSystem.

(** ** [StorageService] (the variant with conflict detection) *)

Section Storage.
Context `{R : Runtime}.
Variable env : Env.

(** [`backup-${new Date().toISOString().replace(/[:.]/g, '-').slice(0, 19)}.json`] *)
Definition backupFileName : string :=
  "backup-" +:+ sliceTo 19 (replaceColonDot (toISOString (now env))) +:+ ".json".

(** [`pre-migration-${new Date().toISOString().replace(/[:.]/g, '-')}.json`] *)
Definition preMigrationFileName : string :=
  "pre-migration-" +:+ replaceColonDot (toISOString (now env)) +:+ ".json".

(** The comparison of [cleanupOldBackups]: newest first. *)
Definition newestFirst (a b : string * Z) : Z := b.2 - a.2.

(** [cleanupOldBackups]: whatever goes wrong is logged and swallowed. *)
Definition cleanupOldBackups : M unit :=
  try_catch
    (files <- readdir_backup ;;
     backupFiles <- mapArrayM (fun file => t <- stat_backup file ;; ret (file, t))
                              (filter (fun file => isBackupName file = true) files) ;;
     let sorted := Array_sort newestFirst backupFiles in
     let filesToDelete := Array_slice (maxBackups (backup (config env))) sorted in
     forEachM (fun file => unlink_backup file.1) filesToDelete)
    (fun _ => ret tt).

(** [createBackup]: the name of the backup written, [None] for [null]. *)
Definition createBackup : M (option string) :=
  if negb (enabled (backup (config env))) then ret None
  else
    try_catch
      (access_notes ;;;
       ensureBackupDirectory ;;;
       copyFile_notes_to_backup (now env) backupFileName ;;;
       cleanupOldBackups ;;;
       ret (Some backupFileName))
      (fun error =>
         match error with
         | ENOENT => ret None
         | _ => throw error
         end).

(** [convertLegacyData] *)
Definition convertLegacyData (legacyData : LegacyNotesData) : NotesData :=
  let now_iso := toISOString (now env) in
  {| version := 2;
     lastModified := now_iso;
     deviceId := this_deviceId env;
     state := legacy_state legacyData;
     currentPage := legacy_currentPage legacyData;
     pages := legacy_pages legacyData;
     bookmarks := Some (Array_fill_false (length (legacy_pages legacyData)));
     metadata := {| totalPages := Z.of_nat (length (legacy_pages legacyData));
                    createdAt := now_iso;
                    syncStatus := Some pending;
                    fileModTime := None |} |}.

(** [convertLegacyData(parsed as LegacyNotesData)] on a parsed value:
    [legacyData.pages.length] throws when [pages] is missing or [null]. *)
Definition convertLegacyParsed (parsed : json) : M NotesData :=
  match prop parsed "pages" with
  | None | Some JNull => throw TypeError
  | Some _ =>
      match asLegacyNotesData parsed with
      | Some legacyData => ret (convertLegacyData legacyData)
      | None => halt IllTyped
      end
  end.

(** The test for the legacy format in [loadNotes]:
    [parsed && typeof parsed === 'object' && (!parsed.version || parsed.version === 1)] *)
Definition looksLegacy (parsed : json) : bool :=
  truthy (Some parsed)
  && jstype_eqb (typeof (Some parsed)) t_object
  && (negb (truthy (prop parsed "version")) || strictEqNum (prop parsed "version") 1).

(** [!notesData.bookmarks || notesData.bookmarks.length !== notesData.pages.length] *)
Definition bookmarksNeedInit (notesData : NotesData) : bool :=
  match bookmarks notesData with
  | None => true
  | Some bs => negb (length bs =? length (pages notesData))%nat
  end.

Definition initBookmarks (notesData : NotesData) : NotesData :=
  set_bookmarks notesData (Some (Array_fill_false (length (pages notesData)))).

Definition set_fileModTime (d : NotesData) (t : Z) : NotesData :=
  {| version := version d; lastModified := lastModified d; deviceId := deviceId d;
     state := state d; currentPage := currentPage d; pages := pages d;
     bookmarks := bookmarks d;
     metadata := {| totalPages := totalPages (metadata d);
                    createdAt := createdAt (metadata d);
                    syncStatus := syncStatus (metadata d);
                    fileModTime := Some t |} |}.

(** [!notesData.metadata.fileModTime] *)
Definition fileModTimeMissing (d : NotesData) : bool :=
  match fileModTime (metadata d) with
  | None => true
  | Some t => t =? 0
  end.

(** The three assignments of [saveNotes] before it serialises. *)
Definition stamp (d : NotesData) : NotesData :=
  {| version := version d;
     lastModified := toISOString (now env);
     deviceId := this_deviceId env;
     state := state d; currentPage := currentPage d; pages := pages d;
     bookmarks := bookmarks d;
     metadata := {| totalPages := Z.of_nat (length (pages d));
                    createdAt := createdAt (metadata d);
                    syncStatus := syncStatus (metadata d);
                    fileModTime := fileModTime (metadata d) |} |}.

Definition liftValid (r : Err + bool) : M bool :=
  match r with
  | inl e => throw e
  | inr b => ret b
  end.

(** [loadNotes], with the [saveNotes] it calls as a parameter.  [saveNotes]
    changes the object it is given; here it returns the changed object,
    which is the one the caller goes on with. *)
Definition loadNotes_body (save : NotesData -> M NotesData) : M (option NotesData) :=
  try_catch
    (data <- readFile_notes ;;
     stat_mtimeMs <- stat_notes ;;
     match JSON_parse data with
     | None => throw SyntaxError
     | Some parsed =>
         migrated <-
           (if looksLegacy parsed then
              try_catch
                (ensureBackupDirectory ;;;
                 copyFile_notes_to_backup (now env) preMigrationFileName ;;;
                 migrated <- convertLegacyParsed parsed ;;
                 writeFile_notes (now env) (JSON_stringify (toJson migrated)) ;;;
                 ret (Some migrated))
                (fun _ => ret None)
            else ret None) ;;
         match migrated with
         | Some m => ret (Some m)
         | None =>
             valid <- liftValid (isValidNotesData parsed) ;;
             if negb valid then throw (Error "Invalid notes data format")
             else
               match asNotesData parsed with
               | None => halt IllTyped
               | Some notesData =>
                   set_lastKnownModTime stat_mtimeMs ;;;
                   let notesData :=
                     if fileModTimeMissing notesData
                     then set_fileModTime notesData stat_mtimeMs else notesData in
                   if bookmarksNeedInit notesData then
                     saved <- save (initBookmarks notesData) ;;
                     ret (Some saved)
                   else ret (Some notesData)
               end
         end
     end)
    (fun error =>
       match error with
       | ENOENT => ret None
       | _ => throw error
       end).

(** [saveNotes], with the [loadNotes] it calls as a parameter. *)
Definition saveNotes_body (load : M (option NotesData))
    (notesData : NotesData) (skipConflictCheck : bool) : M NotesData :=
  ensureStorageDirectory ;;;
  w <- getWorld ;;
  (if negb skipConflictCheck && (0 <? lastKnownModTime w) then
     try_catch
       (stat_mtimeMs <- stat_notes ;;
        w <- getWorld ;;
        if lastKnownModTime w <? stat_mtimeMs then
          match conflictResolution (sync (config env)) with
          | timestamp =>
              externalData <- load ;;
              match externalData with
              | Some ext =>
                  let externalTime := Date_getTime (lastModified ext) in
                  let localTime := Date_getTime (lastModified notesData) in
                  if js_gt externalTime localTime
                  then throw (Error "CONFLICT_EXTERNAL_NEWER")
                  else ret tt
              | None => ret tt
              end
          | manual => throw (Error "CONFLICT_DETECTED")
          end
        else ret tt)
       (fun error =>
          match error with
          | ENOENT => ret tt
          | _ => throw error
          end)
   else ret tt) ;;;
  createBackup ;;;
  let stamped := stamp notesData in
  writeFile_notes (now env) (JSON_stringify (toJson stamped)) ;;;
  stat_mtimeMs <- stat_notes ;;
  set_lastKnownModTime stat_mtimeMs ;;;
  ret (set_fileModTime stamped stat_mtimeMs).

(** [saveNotes] and [loadNotes] call each other.  [fuel] bounds how deep
    the calls nest; a call that would nest deeper halts with
    [OutOfFuel]. *)
Fixpoint saveNotes (fuel : nat) : NotesData -> bool -> M NotesData :=
  saveNotes_body
    (loadNotes_body
       (fun d => match fuel with
                 | O => halt OutOfFuel
                 | S n => saveNotes n d false
                 end)).

Definition loadNotes (fuel : nat) : M (option NotesData) :=
  loadNotes_body (fun d => saveNotes fuel d false).

(** [restoreFromBackup], on the name of a file of the backup folder *)
Definition restoreFromBackup (fuel : nat) (backupName : string) : M NotesData :=
  data <- readFile_backup backupName ;;
  match JSON_parse data with
  | None => throw SyntaxError
  | Some parsed =>
      valid <- liftValid (isValidNotesData parsed) ;;
      if negb valid then throw (Error "Invalid backup data format")
      else
        match asNotesData parsed with
        | None => halt IllTyped
        | Some notesData => saveNotes fuel notesData false
        end
  end.

(** [pageIndex < 0 || pageIndex >= notesData.pages.length] *)
Definition invalidIndex (notesData : NotesData) (pageIndex : Z) : bool :=
  (pageIndex <? 0) || (Z.of_nat (length (pages notesData)) <=? pageIndex).

(** [toggleBookmark]; [value = None] is the omitted argument. *)
Definition toggleBookmark (fuel : nat) (pageIndex : Z) (value : option bool)
    : M (option NotesData) :=
  loaded <- loadNotes fuel ;;
  match loaded with
  | None => ret None
  | Some notesData =>
      let notesData :=
        if bookmarksNeedInit notesData then initBookmarks notesData else notesData in
      if invalidIndex notesData pageIndex then ret None
      else
        let bs := default [] (bookmarks notesData) in
        let i := Z.to_nat pageIndex in
        let v := match value with
                 | Some v => v
                 | None => negb (default false (bs !! i))
                 end in
        saved <- saveNotes fuel
                   (set_bookmarks notesData (Some (Array_set false bs i v))) false ;;
        ret (Some saved)
  end.

(** [setBookmarks] *)
Definition setBookmarks (fuel : nat) (indices : list Z) (value : bool)
    : M (option NotesData) :=
  loaded <- loadNotes fuel ;;
  match loaded with
  | None => ret None
  | Some notesData =>
      let notesData :=
        if bookmarksNeedInit notesData then initBookmarks notesData else notesData in
      let bs :=
        foldl (fun bs idx =>
                 if (0 <=? idx) && (idx <? Z.of_nat (length (pages notesData)))
                 then Array_set false bs (Z.to_nat idx) value
                 else bs)
              (default [] (bookmarks notesData)) indices in
      saved <- saveNotes fuel (set_bookmarks notesData (Some bs)) false ;;
      ret (Some saved)
  end.
(** [getBackupList]: the backups, newest first, each with its name and the
    time of its last modification. *)
Definition getBackupList : M (list (string * Z)) :=
  try_catch
    (files <- readdir_backup ;;
     backupFiles <- mapArrayM (fun file => t <- stat_backup file ;; ret (file, t))
                              (filter (fun file => isBackupName file = true) files) ;;
     ret (Array_sort newestFirst backupFiles))
    (fun error =>
       match error with
       | ENOENT => ret []
       | _ => throw error
       end).
End Storage.

(** ** [StorageService], the variant without conflict detection *)

Module Older.
Section Storage.
Context `{R : Runtime}.
Variable env : Env.

(** [createBackup] and [cleanupOldBackups] read the same in both variants. *)
Definition createBackup : M (option string) :=
  if negb (enabled (backup (config env))) then ret None
  else
    try_catch
      (access_notes ;;;
       ensureBackupDirectory ;;;
       copyFile_notes_to_backup (now env) (backupFileName env) ;;;
       cleanupOldBackups env ;;;
       ret (Some (backupFileName env)))
      (fun error =>
         match error with
         | ENOENT => ret None
         | _ => throw error
         end).

Definition saveNotes (notesData : NotesData) : M NotesData :=
  ensureStorageDirectory ;;;
  createBackup ;;;
  let stamped := stamp env notesData in
  writeFile_notes (now env) (JSON_stringify (toJson stamped)) ;;;
  ret stamped.
End Storage.
End Older.

(** ** [MigrationService] *)

Section Migration.
Context `{R : Runtime}.
Variable env : Env.

(** [createDefaultNotes]: the object literal has no [bookmarks]. *)
Definition createDefaultNotes : NotesData :=
  let now_iso := toISOString (now env) in
  {| version := 2;
     lastModified := now_iso;
     deviceId := "";
     state := editor;
     currentPage := 0;
     pages := [""];
     bookmarks := None;
     metadata := {| totalPages := 1; createdAt := now_iso;
                    syncStatus := Some synced; fileModTime := None |} |}.

(** [migrateLegacyData]; the notifications shown to the user and the timer
    that lifts the suppression of the file watcher half a second later are
    outside the model. *)
Definition migrateLegacyData (fuel : nat) (legacyData : option LegacyNotesData)
    : M NotesData :=
  try_catch
    (existingData <- loadNotes env fuel ;;
     match existingData with
     | Some existing =>
         set_migrationCompleted true ;;;
         ret existing
     | None =>
         let notesToMigrate :=
           match legacyData with
           | Some l => convertLegacyData env l
           | None => createDefaultNotes
           end in
         setSuppressFileWatcher true ;;;
         saved <- saveNotes env fuel notesToMigrate false ;;
         set_migrationCompleted true ;;;
         ret saved
     end)
    (fun _ => ret createDefaultNotes).

(** [checkAndMigrate] *)
Definition checkAndMigrate (fuel : nat) : M NotesData :=
  w <- getWorld ;;
  existingData <- (if migrationCompleted w then loadNotes env fuel else ret None) ;;
  match existingData with
  | Some existing => ret existing
  | None => migrateLegacyData fuel None
  end.
End Migration.

(** ** What the backup rotation leaves, as a function of the folder *)

(** The world [w] with the backup folder replaced by [dir]. *)
Definition withBackupDir `{R : Runtime} (w : World) (dir : gmap string file) : World :=
  {| disk := {| storageDir := storageDir (disk w);
                notesFile := notesFile (disk w);
                backupDir := Some dir |};
     lastKnownModTime := lastKnownModTime w;
     suppressFileWatcherEvents := suppressFileWatcherEvents w;
     migrationCompleted := migrationCompleted w |}.

(** The time of the last modification of an entry of the folder. *)
Definition mtimeOf `{R : Runtime} (dir : gmap string file) (name : string) : Z :=
  from_option mtime 0 (dir !! name).

(** The backups of the folder, as [cleanupOldBackups] lists them before it
    sorts them. *)
Definition backupEntries `{R : Runtime} (dir : gmap string file) : list (string * Z) :=
  map (fun name => (name, mtimeOf dir name))
      (filter (fun file => isBackupName file = true) (map_to_list dir).*1).

(** The entries [cleanupOldBackups] unlinks, and the folder without them. *)
Definition filesToDelete `{R : Runtime} (max : Z) (dir : gmap string file)
    : list (string * Z) :=
  Array_slice max (Array_sort newestFirst (backupEntries dir)).

Definition pruneBackups `{R : Runtime} (max : Z) (dir : gmap string file)
    : gmap string file :=
  foldl (fun d file => delete file.1 d) dir (filesToDelete max dir).


(** [a] is at least as new as [b]. *)
Definition notOlder (a b : string * Z) : Prop := b.2 <= a.2.

(** The world after [createBackup] has copied the notes file [f]. *)
Definition afterBackup `{R : Runtime} (env : Env) (w : World) (f : file) : World :=
  {| disk := {| storageDir := match backupDir (disk w) with
                              | Some _ => storageDir (disk w)
                              | None => true
                              end;
                notesFile := notesFile (disk w);
                backupDir :=
                  Some (pruneBackups (maxBackups (backup (config env)))
                          (<[backupFileName env :=
                               {| content := content f; mtime := now env |}]>
                             (default ∅ (backupDir (disk w))))) |};
     lastKnownModTime := lastKnownModTime w;
     suppressFileWatcherEvents := suppressFileWatcherEvents w;
     migrationCompleted := migrationCompleted w |}.

(** The world [w] with the watermark moved to [t]. *)
Definition withWatermark `{R : Runtime} (w : World) (t : Z) : World :=
  {| disk := disk w; lastKnownModTime := t;
     suppressFileWatcherEvents := suppressFileWatcherEvents w;
     migrationCompleted := migrationCompleted w |}.

(** ** A runtime to run the model on

    File texts are JSON texts, identified with the value they parse to, or
    plain text that [JSON.parse] rejects.  Timestamps are written as
    ECMAScript's [toISOString] writes them, and read back from that format
    only. *)

Inductive refText :=
  | JsonText (v : json)
  | PlainText (s : string).

Definition digitChar (n : Z) : ascii := ascii_of_nat (48 + Z.to_nat (n mod 10)).

(** [n] in decimal on [width] digits *)
Fixpoint padded (width : nat) (n : Z) : string :=
  match width with
  | O => EmptyString
  | S w => padded w (n / 10) +:+ String (digitChar n) EmptyString
  end.

(** The proleptic Gregorian date of a day counted from 1970-01-01. *)
Definition civil_from_days (days : Z) : Z * Z * Z :=
  let z := days + 719468 in
  let era := z / 146097 in
  let doe := z - era * 146097 in
  let yoe := (doe - doe / 1460 + doe / 36524 - doe / 146096) / 365 in
  let doy := doe - (365 * yoe + yoe / 4 - yoe / 100) in
  let mp := (5 * doy + 2) / 153 in
  let d := doy - (153 * mp + 2) / 5 + 1 in
  let m := if mp <? 10 then mp + 3 else mp - 9 in
  let y := yoe + era * 400 + (if m <=? 2 then 1 else 0) in
  (y, m, d).

Definition days_from_civil (y m d : Z) : Z :=
  let y' := if m <=? 2 then y - 1 else y in
  let era := y' / 400 in
  let yoe := y' - era * 400 in
  let doy := (153 * (if 2 <? m then m - 3 else m + 9) + 2) / 5 + d - 1 in
  let doe := yoe * 365 + yoe / 4 - yoe / 100 + doy in
  era * 146097 + doe - 719468.

Definition ref_toISOString (ms : Z) : string :=
  let days := ms / 86400000 in
  let rest := ms mod 86400000 in
  let '(y, m, d) := civil_from_days days in
  let year := if (0 <=? y) && (y <=? 9999) then padded 4 y
              else (if y <? 0 then "-" else "+") +:+ padded 6 (Z.abs y) in
  year +:+ "-" +:+ padded 2 m +:+ "-" +:+ padded 2 d +:+ "T"
  +:+ padded 2 (rest / 3600000) +:+ ":" +:+ padded 2 (rest / 60000 mod 60) +:+ ":"
  +:+ padded 2 (rest / 1000 mod 60) +:+ "." +:+ padded 3 (rest mod 1000) +:+ "Z".

Fixpoint digits (s : string) (acc : Z) : Z :=
  match s with
  | EmptyString => acc
  | String c rest => digits rest (10 * acc + (Z.of_nat (nat_of_ascii c) - 48))
  end.

Definition field (s : string) (pos len : nat) : Z := digits (String.substring pos len s) 0.

(** Reads [YYYY-MM-DDTHH:mm:ss.sssZ]; a string that [ref_toISOString] does
    not write is not a date. *)
Definition ref_Date_getTime (s : string) : option Z :=
  let ms := days_from_civil (field s 0 4) (field s 5 2) (field s 8 2) * 86400000
            + field s 11 2 * 3600000 + field s 14 2 * 60000
            + field s 17 2 * 1000 + field s 20 3 in
  if String.eqb (ref_toISOString ms) s then Some ms else None.

#[export] Instance refRuntime : Runtime := {|
  text := refText;
  JSON_parse := fun t => match t with JsonText v => Some v | PlainText _ => None end;
  JSON_stringify := JsonText;
  Date_getTime := ref_Date_getTime;
  toISOString := ref_toISOString
|}.


(** What the merged document [m] takes from [src]: the view state as it is,
    and the current page capped at the last merged page, which is an index
    of the merged pages when there are pages and the page of [src] is not
    negative. *)
Definition takenFrom (m src : NotesData) : Prop :=
  state m = state src
  /\ currentPage m = Z.min (currentPage src) (Z.of_nat (length (pages m)) - 1)
  /\ (pages m <> [] -> 0 <= currentPage src ->
      0 <= currentPage m <= Z.of_nat (length (pages m)) - 1).

(** ** Sample data *)

Definition sampleEnv (policy : ConflictResolution) (max : Z) (t : Z) : Env :=
  {| config := {| backup := {| enabled := true; maxBackups := max |};
                  sync := {| conflictResolution := policy |} |};
     this_deviceId := "device-1";
     now := t |}.

Definition sampleDoc (st : UIState) (modified : string) (cp : Z)
    (pgs : list string) (bms : option (list bool)) : NotesData :=
  {| version := 2; lastModified := modified; deviceId := "device-2";
     state := st; currentPage := cp; pages := pgs; bookmarks := bms;
     metadata := {| totalPages := Z.of_nat (length pgs);
                    createdAt := "2025-01-01T00:00:00.000Z";
                    syncStatus := Some synced; fileModTime := None |} |}.

(** 2025-11-05T09:54:56.789Z and one hour later *)
Definition T1 : Z := 1762336496789.
Definition T2 : Z := 1762340096789.

(** A world of the reference runtime: the storage folder with or without a
    notes file (its text and modification time), no backup folder yet, and
    the watermark of the service. *)
Definition sampleWorld (notes : option (refText * Z)) (watermark : Z) : World :=
  {| disk := {| storageDir := true;
                notesFile := option_map (fun p : refText * Z =>
                                           @Build_file refRuntime p.1 p.2) notes;
                backupDir := None |};
     lastKnownModTime := watermark;
     suppressFileWatcherEvents := false;
     migrationCompleted := false |}.

(** The same with a backup folder holding the given files. *)
Definition withBackups (w : World) (files : list (string * (refText * Z))) : World :=
  {| disk := {| storageDir := storageDir (disk w);
                notesFile := notesFile (disk w);
                backupDir :=
                  Some (list_to_map
                          (map (fun e : string * (refText * Z) =>
                                  (e.1, @Build_file refRuntime e.2.1 e.2.2))
                               files)) |};
     lastKnownModTime := lastKnownModTime w;
     suppressFileWatcherEvents := suppressFileWatcherEvents w;
     migrationCompleted := migrationCompleted w |}.

(** The text of a notes file holding [d]. *)
Definition canonicalFile (d : NotesData) : refText := JsonText (toJson d).

(** Three [createBackup] in a row, at the instants [t1], [t2] and [t3], with
    at most two backups configured, on a storage folder that holds a notes
    file and no backup yet. *)
Definition threeBackups (t1 t2 t3 : Z) : World :=
  let doc := sampleDoc editor (ref_toISOString 0) 0 ["A"] (Some [false]) in
  let w0 := sampleWorld (Some (canonicalFile doc, 0)) 0 in
  let w1 := (createBackup (sampleEnv manual 2 t1) w0).2 in
  let w2 := (createBackup (sampleEnv manual 2 t2) w1).2 in
  (createBackup (sampleEnv manual 2 t3) w2).2.


(** A notes file in the legacy format: one page, version 1. *)
Definition legacyFile : refText :=
  JsonText (JObj [("pages", JArr [JStr "hello"]); ("state", JStr "editor");
                  ("currentPage", JNum 0); ("version", JNum 1)]).

(** The world a save leaves when no conflict stops it: the storage folder
    exists, the previous notes file has gone through [createBackup], the
    notes file holds the stamped document and the watermark is the time of
    the write. *)
Definition afterSave `{R : Runtime} (env : Env) (d : NotesData) (w : World) : World :=
  let backedUp := (createBackup env (ensureStorageDirectory w).2).2 in
  {| disk := {| storageDir := true;
                notesFile := Some {| content := JSON_stringify (toJson (stamp env d));
                                     mtime := now env |};
                backupDir := backupDir (disk backedUp) |};
     lastKnownModTime := now env;
     suppressFileWatcherEvents := suppressFileWatcherEvents w;
     migrationCompleted := migrationCompleted w |}.

(** No external change is visible from world [w]: the watermark is unset,
    there is no notes file, or the notes file is not newer than the
    watermark. *)
Definition noExternalChange `{R : Runtime} (w : World) : Prop :=
  lastKnownModTime w <= 0
  \/ match notesFile (disk w) with
     | Some f => mtime f <= lastKnownModTime w
     | None => True
     end.

(** The document [loadNotes] hands out for a stored canonical document [d]
    read from a file modified at [t]. *)
Definition asLoaded (d : NotesData) (t : Z) : NotesData :=
  if fileModTimeMissing d then set_fileModTime d t else d.

(** The flag [toggleBookmark] writes at [i]: the explicit value, or the
    negation of the flag that is there. *)
Definition toggled (bs : list bool) (i : nat) (value : option bool) : bool :=
  match value with
  | Some v => v
  | None => negb (default false (bs !! i))
  end.

(** A notes file [f] holds the canonical document [d], bookmark flags [bs]
    included, one per page. *)
Definition holds `{R : Runtime} (f : file) (d : NotesData) (bs : list bool) : Prop :=
  exists parsed,
    JSON_parse (content f) = Some parsed
    /\ looksLegacy parsed = false
    /\ isValidNotesData parsed = inr true
    /\ asNotesData parsed = Some d
    /\ bookmarks d = Some bs
    /\ length bs = length (pages d).

(** ** The file watcher of [setupFileWatcher]

    Each handler answers whether it called [onExternalChange]. *)

Section Watcher.
Context `{R : Runtime}.

Definition onDidChange : M bool :=
  w <- getWorld ;;
  if suppressFileWatcherEvents w then ret false
  else
    try_catch
      (stat_mtimeMs <- stat_notes ;;
       w <- getWorld ;;
       if lastKnownModTime w <? stat_mtimeMs then
         set_lastKnownModTime stat_mtimeMs ;;;
         ret true
       else ret false)
      (fun _ => ret false).

Definition onDidCreate : M bool :=
  w <- getWorld ;;
  if suppressFileWatcherEvents w then ret false else ret true.

Definition onDidDelete : M bool :=
  w <- getWorld ;;
  if suppressFileWatcherEvents w then ret false else ret true.
End Watcher.

(** ** [StorageService.checkForConflicts] *)

(** The answer of [checkForConflicts]; its field [localData] is [undefined]
    in every answer the code gives. *)
Record ConflictCheck := {
  hasConflict : bool;
  remoteData : option NotesData
}.

Section Conflicts.
Context `{R : Runtime}.
Variable env : Env.

Definition checkForConflicts (fuel : nat) : M ConflictCheck :=
  localData <- loadNotes env fuel ;;
  match localData with
  | None => ret {| hasConflict := false; remoteData := None |}
  | Some localData =>
      if negb (String.eqb (deviceId localData) (this_deviceId env))
      then ret {| hasConflict := true; remoteData := Some localData |}
      else ret {| hasConflict := false; remoteData := None |}
  end.
End Conflicts.

(** ** [MigrationService]: forcing and resetting the migration *)

Section MigrationControl.
Context `{R : Runtime}.
Variable env : Env.

Definition forceMigration (fuel : nat) (legacyData : LegacyNotesData) : M NotesData :=
  set_migrationCompleted false ;;;
  migrateLegacyData env fuel (Some legacyData).

Definition resetMigration : M unit := set_migrationCompleted false.
End MigrationControl.

(** ** Backups of the legacy data ([MigrationService], global state)

    The value of the key ['pre-migration-backups'] of the global state is
    passed explicitly: [createPreMigrationBackup] maps the value before the
    call to the value after it. *)

(** [{ ...legacyData, backupType, backupDate }] *)
Record PreMigrationBackup := {
  backup_legacyData : LegacyNotesData;
  backupType : string;
  backupDate : string
}.

Section PreMigration.
Context `{R : Runtime}.
Variable env : Env.

Definition createPreMigrationBackup (legacyData : LegacyNotesData)
    (existingBackups : list PreMigrationBackup) : list PreMigrationBackup :=
  let backupData := {| backup_legacyData := legacyData;
                       backupType := "pre-migration";
                       backupDate := toISOString (now env) |} in
  let existingBackups := existingBackups ++ [backupData] in
  Array_slice (-5) existingBackups.
End PreMigration.

(** [restoreFromPreMigrationBackup]; reading the fields of [undefined]
    throws, which no index that passes the test reaches. *)
Definition restoreFromPreMigrationBackup (backupIndex : Z)
    (backups : list PreMigrationBackup) : Err + LegacyNotesData :=
  if (backupIndex <? 0) || (Z.of_nat (length backups) <=? backupIndex)
  then inl (Error "Invalid backup index")
  else
    match backups !! Z.to_nat backupIndex with
    | Some backup => inr (backup_legacyData backup)
    | None => inl TypeError
    end.

(** ** [captureBalancedJson] (the import service)

    A text is the list of its characters. *)

(** [text.substring(from, to)] for [0 <= from <= to] *)
Definition substring (text : list ascii) (from to : nat) : list ascii :=
  take (to - from) (drop from text).

(** The loop of [captureBalancedJson] from the index [i] on, [rest] being
    the text from [i]: the index after the closing character, if the depth
    comes back to zero. *)
Fixpoint captureLoop (openChar closeChar : ascii) (depth : Z)
    (inString isEscaped : bool) (rest : list ascii) (i : nat) : option nat :=
  match rest with
  | [] => None
  | char :: rest' =>
      if inString then
        if isEscaped then
          captureLoop openChar closeChar depth true false rest' (S i)
        else if Ascii.eqb char "\"%char then
          captureLoop openChar closeChar depth true true rest' (S i)
        else if Ascii.eqb char "034"%char then
          captureLoop openChar closeChar depth false isEscaped rest' (S i)
        else
          captureLoop openChar closeChar depth true isEscaped rest' (S i)
      else
        let inString' := Ascii.eqb char "034"%char in
        let depth' :=
          if Ascii.eqb char "034"%char then depth
          else if Ascii.eqb char openChar then depth + 1
          else if Ascii.eqb char closeChar then depth - 1
          else depth in
        if depth' =? 0 then Some (S i)
        else captureLoop openChar closeChar depth' inString' isEscaped rest' (S i)
  end.

(** [captureBalancedJson(text, start)]; [None] is [null]. *)
Definition captureBalancedJson (text : list ascii) (start : Z) : option (list ascii) :=
  match (if start <? 0 then None else text !! Z.to_nat start) with
  | None => None
  | Some openChar =>
      if negb (Ascii.eqb openChar "{"%char) && negb (Ascii.eqb openChar "["%char)
      then None
      else
        let closeChar := if Ascii.eqb openChar "{"%char then "}"%char else "]"%char in
        match captureLoop openChar closeChar 1 false false
                (drop (S (Z.to_nat start)) text) (S (Z.to_nat start)) with
        | Some stop => Some (substring text (Z.to_nat start) stop)
        | None => None
        end
  end.

(** * Properties *)

(** ** The page union *)

Lemma Set_add_elem (s : list string) (x y : string) :
  y ∈ Set_add s x <-> y ∈ s \/ y = x.
Proof.
  unfold Set_add. destruct (decide (x ∈ s)) as [Hin | Hnin].
  - split; [tauto | intros [? | ->]; assumption].
  - rewrite elem_of_app, list_elem_of_singleton. tauto.
Qed.

Lemma Set_new_from (acc earlier xs : list string) :
  (forall y, y ∈ acc <-> y ∈ earlier) ->
  foldl Set_add acc xs = acc ++ firstOccurrences earlier xs.
Proof.
  revert acc earlier. induction xs as [| x xs IH]; intros acc earlier Hsame; simpl.
  - now rewrite app_nil_r.
  - unfold Set_add at 2.
    destruct (decide (x ∈ acc)) as [Hin | Hnin];
      destruct (decide (x ∈ earlier)) as [Hin' | Hnin'];
      try (apply Hsame in Hin; contradiction);
      try (apply Hsame in Hin'; contradiction).
    + now apply IH.
    + rewrite (IH (acc ++ [x]) (x :: earlier)).
      * now rewrite <- app_assoc.
      * intros y. rewrite elem_of_app, list_elem_of_singleton, elem_of_cons, Hsame. tauto.
Qed.

Lemma Set_new_firstOccurrences (xs : list string) :
  Set_new xs = firstOccurrences [] xs.
Proof. unfold Set_new. now rewrite (Set_new_from [] [] xs). Qed.

Lemma firstOccurrences_elem (earlier xs : list string) (y : string) :
  y ∈ firstOccurrences earlier xs <-> y ∈ xs /\ y ∉ earlier.
Proof.
  revert earlier. induction xs as [| x xs IH]; intros earlier; simpl.
  - split; [intros Hy; inversion Hy | intros [Hy _]; inversion Hy].
  - destruct (decide (x ∈ earlier)) as [Hin | Hnin].
    + rewrite IH, elem_of_cons. split; [tauto |].
      intros [[-> | Hy] Hn]; [contradiction | tauto].
    + rewrite !elem_of_cons, IH, elem_of_cons.
      destruct (decide (y = x)) as [-> | Hne]; tauto.
Qed.

Lemma firstOccurrences_NoDup (earlier xs : list string) :
  NoDup (firstOccurrences earlier xs).
Proof.
  revert earlier. induction xs as [| x xs IH]; intros earlier; simpl.
  - constructor.
  - destruct (decide (x ∈ earlier)); [apply IH |].
    constructor; [| apply IH].
    rewrite firstOccurrences_elem, elem_of_cons. tauto.
Qed.

(** The pages kept stand in the order in which the input lists them. *)
Lemma firstOccurrences_sublist (earlier xs : list string) :
  sublist (firstOccurrences earlier xs) xs.
Proof.
  revert earlier. induction xs as [| x xs IH]; intros earlier; simpl.
  - constructor.
  - destruct (decide (x ∈ earlier)).
    + apply sublist_cons, IH.
    + apply sublist_skip, IH.
Qed.

Lemma firstOccurrences_length (earlier xs : list string) :
  (length (firstOccurrences earlier xs) <= length xs)%nat.
Proof. apply sublist_length, firstOccurrences_sublist. Qed.

(** A list without repetition is its own page union. *)
Lemma firstOccurrences_NoDup_id (earlier xs : list string) :
  NoDup xs -> (forall x, x ∈ xs -> x ∉ earlier) ->
  firstOccurrences earlier xs = xs.
Proof.
  revert earlier. induction xs as [| x xs IH]; intros earlier Hnd Hfresh; simpl; [easy |].
  inversion Hnd as [| ? ? Hx Hnd']; subst.
  destruct (decide (x ∈ earlier)) as [Hin | _].
  - exfalso. apply (Hfresh x); [left | assumption].
  - f_equal. apply IH; [assumption |].
    intros y Hy. rewrite elem_of_cons. intros [-> | Hy'].
    + contradiction.
    + apply (Hfresh y); [now right | assumption].
Qed.

Lemma Set_new_elem (xs : list string) (y : string) : y ∈ Set_new xs <-> y ∈ xs.
Proof.
  rewrite Set_new_firstOccurrences, firstOccurrences_elem.
  split; [tauto | intros Hy; split; [assumption | intros Hn; inversion Hn]].
Qed.

Lemma Set_new_NoDup (xs : list string) : NoDup (Set_new xs).
Proof. rewrite Set_new_firstOccurrences. apply firstOccurrences_NoDup. Qed.

(** A list without repetition whose pages all occur in [xs] is no longer
    than the page union of [xs]. *)
Lemma Set_new_covers (ys xs : list string) :
  NoDup ys -> (forall y, y ∈ ys -> y ∈ xs) ->
  (length ys <= length (Set_new xs))%nat.
Proof.
  intros Hnd Hsub. apply submseteq_length, NoDup_submseteq; [assumption |].
  intros y Hy. apply Set_new_elem, Hsub, Hy.
Qed.

(** ** [mergeNotes]: pages *)

(** C8.  The pages of a merge are the pages of [local] followed by those of
    [remote] with only the first occurrence of each page text kept, in the
    order met; merging [A, B] with [B, C] gives [A, B, C]. *)
Theorem mergeNotes_pages_first_occurrences :
  (forall (R : Runtime) (env : Env) (l r : NotesData),
      pages (mergeNotes env l r) = firstOccurrences [] (pages l ++ pages r))
  /\ (forall (R : Runtime) (env : Env) (l r : NotesData),
         pages l = ["A"; "B"] -> pages r = ["B"; "C"] ->
         pages (mergeNotes env l r) = ["A"; "B"; "C"]).
Proof.
  assert (Hgen : forall (R : Runtime) (env : Env) (l r : NotesData),
             pages (mergeNotes env l r) = firstOccurrences [] (pages l ++ pages r)).
  { intros R env l r. simpl. unfold allPagesOf, Array_from_Set.
    apply Set_new_firstOccurrences. }
  split; [exact Hgen |].
  intros R env l r Hl Hr. rewrite Hgen, Hl, Hr. reflexivity.
Qed.

Lemma mergeNotes_pages_first_occurrences_witness :
  let l := sampleDoc editor (ref_toISOString T1) 0 ["A"; "B"] None in
  let r := sampleDoc render (ref_toISOString T2) 1 ["B"; "C"] None in
  pages l = ["A"; "B"] /\ pages r = ["B"; "C"]
  /\ pages (mergeNotes (sampleEnv manual 2 T2) l r) = ["A"; "B"; "C"].
Proof.
  intros l r. split; [reflexivity |]. split; [reflexivity |].
  apply (proj2 mergeNotes_pages_first_occurrences refRuntime); reflexivity.
Defined.

(** C3, as the specification has it, fails: a list that repeats a page
    shrinks.  Two blank pages merged with nothing leave one page. *)
Lemma mergeNotes_repeated_page_shrinks :
  let l := sampleDoc editor (ref_toISOString T1) 0 [""; ""] None in
  let r := sampleDoc editor (ref_toISOString T2) 0 [] None in
  ~ (Nat.max (length (pages l)) (length (pages r))
     <= length (pages (mergeNotes (sampleEnv manual 2 T2) l r)))%nat.
Proof. vm_compute. lia. Qed.

(** C3, amended.  A merge has at most as many pages as its two inputs
    together and at least as many as the input with the larger number of
    distinct pages; so at least as many as the longer input when neither
    input repeats a page. *)
Theorem mergeNotes_pages_length_bounds (R : Runtime) (env : Env) (l r : NotesData) :
  let merged := pages (mergeNotes env l r) in
  (length merged <= length (pages l) + length (pages r))%nat
  /\ (Nat.max (length (Set_new (pages l))) (length (Set_new (pages r)))
      <= length merged)%nat
  /\ (NoDup (pages l) -> NoDup (pages r) ->
      (Nat.max (length (pages l)) (length (pages r)) <= length merged)%nat).
Proof.
  simpl. unfold allPagesOf, Array_from_Set.
  assert (Hl : forall ys, NoDup ys -> (forall y, y ∈ ys -> y ∈ pages l) ->
                 (length ys <= length (Set_new (pages l ++ pages r)))%nat).
  { intros ys Hnd Hsub. apply Set_new_covers; [assumption |].
    intros y Hy. apply elem_of_app. left. now apply Hsub. }
  assert (Hr : forall ys, NoDup ys -> (forall y, y ∈ ys -> y ∈ pages r) ->
                 (length ys <= length (Set_new (pages l ++ pages r)))%nat).
  { intros ys Hnd Hsub. apply Set_new_covers; [assumption |].
    intros y Hy. apply elem_of_app. right. now apply Hsub. }
  split; [| split].
  - rewrite Set_new_firstOccurrences, <- length_app. apply firstOccurrences_length.
  - apply Nat.max_lub.
    + apply Hl; [apply Set_new_NoDup | intros y; apply Set_new_elem].
    + apply Hr; [apply Set_new_NoDup | intros y; apply Set_new_elem].
  - intros Hndl Hndr. apply Nat.max_lub; [apply Hl | apply Hr]; auto.
Qed.

Lemma mergeNotes_pages_length_bounds_witness :
  let l := sampleDoc editor (ref_toISOString T1) 0 ["A"; "B"] None in
  let r := sampleDoc render (ref_toISOString T2) 1 ["B"; "C"] None in
  NoDup (pages l) /\ NoDup (pages r)
  /\ (Nat.max (length (pages l)) (length (pages r))
      <= length (pages (mergeNotes (sampleEnv manual 2 T2) l r)))%nat.
Proof.
  intros l r.
  assert (Hl : NoDup (pages l)) by (refine (bool_decide_unpack _ _); vm_compute; exact I).
  assert (Hr : NoDup (pages r)) by (refine (bool_decide_unpack _ _); vm_compute; exact I).
  split; [exact Hl |]. split; [exact Hr |].
  exact (proj2 (proj2 (mergeNotes_pages_length_bounds refRuntime (sampleEnv manual 2 T2) l r))
           Hl Hr).
Defined.

(** ** [mergeNotes]: the newer side *)

Lemma mergeNotes_takenFrom_newer (R : Runtime) (env : Env) (l r : NotesData) :
  takenFrom (mergeNotes env l r) (newerDataOf l r).
Proof.
  unfold takenFrom. simpl. split; [reflexivity |]. split; [reflexivity |].
  intros Hne Hcp.
  assert (0 < Z.of_nat (length (allPagesOf l r))).
  { destruct (allPagesOf l r); [contradiction | simpl; lia]. }
  lia.
Qed.

(** C4.  The claim asks for the current page 0 when the merged page list
    is empty.  [mergeNotes] caps the current page of the newer side at
    [allPages.length - 1] and nothing lifts it to 0: two documents without
    pages, each with current page 0 as the webview leaves them once the last
    note is deleted, merge into a document whose view state is the newer
    one's, as claimed, and whose current page is -1. *)
Lemma mergeNotes_empty_pages_currentPage :
  let l := sampleDoc editor (ref_toISOString T1) 0 [] (Some []) in
  let r := sampleDoc render (ref_toISOString T2) 0 [] (Some []) in
  let m := mergeNotes (sampleEnv manual 2 T2) l r in
  pages m = [] /\ state m = state r /\ currentPage m = -1 /\ currentPage m <> 0.
Proof. vm_compute. repeat split; discriminate. Qed.

(** The merge takes the view state and the current page from [local] when
    [local.lastModified] is strictly later than [remote.lastModified], and
    from [remote] otherwise (also when a timestamp cannot be read).  The
    current page is capped at the last merged page, whatever the pages:
    with merged pages and a source index that is not negative it lies in
    [0, len(mergedPages) - 1]. *)
Theorem mergeNotes_takes_newer (R : Runtime) (env : Env) (l r : NotesData) :
  let m := mergeNotes env l r in
  (forall a b, Date_getTime (lastModified l) = Some a ->
               Date_getTime (lastModified r) = Some b ->
               b < a -> takenFrom m l)
  /\ (forall a b, Date_getTime (lastModified l) = Some a ->
                  Date_getTime (lastModified r) = Some b ->
                  a <= b -> takenFrom m r)
  /\ (Date_getTime (lastModified l) = None \/ Date_getTime (lastModified r) = None ->
      takenFrom m r).
Proof.
  intros m. pose proof (mergeNotes_takenFrom_newer R env l r) as Hnewer.
  fold m in Hnewer. unfold newerDataOf in Hnewer.
  split; [| split].
  - intros a b Ha Hb Hlt. rewrite Ha, Hb in Hnewer. simpl in Hnewer.
    rewrite bool_decide_eq_true_2 in Hnewer by assumption. exact Hnewer.
  - intros a b Ha Hb Hle. rewrite Ha, Hb in Hnewer. simpl in Hnewer.
    rewrite bool_decide_eq_false_2 in Hnewer by lia. exact Hnewer.
  - intros [Hn | Hn]; rewrite Hn in Hnewer.
    + exact Hnewer.
    + destruct (Date_getTime (lastModified l)); exact Hnewer.
Qed.

Lemma mergeNotes_takes_newer_witness :
  let l := sampleDoc editor (ref_toISOString T2) 0 ["A"; "B"] None in
  let r := sampleDoc render (ref_toISOString T1) 1 ["B"; "C"] None in
  Date_getTime (lastModified l) = Some T2
  /\ Date_getTime (lastModified r) = Some T1
  /\ T1 < T2
  /\ takenFrom (mergeNotes (sampleEnv manual 2 T2) l r) l.
Proof.
  intros l r.
  assert (Hl : Date_getTime (lastModified l) = Some T2) by (vm_compute; reflexivity).
  assert (Hr : Date_getTime (lastModified r) = Some T1) by (vm_compute; reflexivity).
  assert (Hlt : T1 < T2) by (vm_compute; reflexivity).
  split; [exact Hl |]. split; [exact Hr |]. split; [exact Hlt |].
  exact (proj1 (mergeNotes_takes_newer refRuntime (sampleEnv manual 2 T2) l r)
           T2 T1 Hl Hr Hlt).
Defined.

(** C9.  When both timestamps denote the same instant the merge takes the
    view state and the current page from [remote]; the current page goes
    through the cap of the merge, and is [remote]'s own whenever that is an
    index of the merged pages. *)
Theorem mergeNotes_tie_takes_remote (R : Runtime) (env : Env) (l r : NotesData) (t : Z) :
  Date_getTime (lastModified l) = Some t ->
  Date_getTime (lastModified r) = Some t ->
  let m := mergeNotes env l r in
  state m = state r
  /\ currentPage m = Z.min (currentPage r) (Z.of_nat (length (pages m)) - 1)
  /\ (currentPage r < Z.of_nat (length (pages m)) -> currentPage m = currentPage r).
Proof.
  intros Hl Hr. simpl. unfold newerDataOf. rewrite Hl, Hr. simpl.
  rewrite bool_decide_eq_false_2 by lia.
  repeat split; try reflexivity. intros Hlt. lia.
Qed.

Lemma mergeNotes_tie_takes_remote_witness :
  let l := sampleDoc editor (ref_toISOString T1) 0 ["A"; "B"] None in
  let r := sampleDoc render (ref_toISOString T1) 2 ["B"; "C"] None in
  let m := mergeNotes (sampleEnv manual 2 T2) l r in
  Date_getTime (lastModified l) = Some T1
  /\ Date_getTime (lastModified r) = Some T1
  /\ state m = render /\ currentPage m = 2.
Proof.
  intros l r m.
  assert (Hl : Date_getTime (lastModified l) = Some T1) by (vm_compute; reflexivity).
  assert (Hr : Date_getTime (lastModified r) = Some T1) by (vm_compute; reflexivity).
  split; [exact Hl |]. split; [exact Hr |].
  pose proof (mergeNotes_tie_takes_remote refRuntime (sampleEnv manual 2 T2) l r T1 Hl Hr)
    as (Hst & _ & Hcp).
  split; [exact Hst |]. apply Hcp. vm_compute. reflexivity.
Defined.

(** ** [mergeNotes]: bookmarks *)

Lemma Array_set_length_inside {A} (hole : A) (a : list A) (i : nat) (v : A) :
  (i < length a)%nat -> length (Array_set hole a i v) = length a.
Proof.
  intros Hi. unfold Array_set. destruct (decide (i < length a)%nat); [| lia].
  apply length_insert.
Qed.

Lemma Map_new_values (P : nat -> Prop) (entries : list (string * nat))
    (m0 : gmap string nat) :
  (forall k v, m0 !! k = Some v -> P v) ->
  (forall e, e ∈ entries -> P e.2) ->
  forall k v, foldl (fun m e => <[e.1 := e.2]> m) m0 entries !! k = Some v -> P v.
Proof.
  revert m0. induction entries as [| e entries IH]; intros m0 Hm0 Hes k v; simpl.
  - apply Hm0.
  - apply IH.
    + intros k' v'. destruct (decide (e.1 = k')) as [-> | Hne].
      * rewrite lookup_insert_eq. intros [= <-]. apply Hes. left.
      * rewrite lookup_insert_ne by assumption. apply Hm0.
    + intros e' He'. apply Hes. now right.
Qed.

(** Every index the page map hands out is an index of the merged pages, so
    the assignments of the bookmark loops never grow the array. *)
Lemma pageIndexMap_bound (allPages : list string) (page : string) (idx : nat) :
  Map_new (imap (fun idx page => (page, idx)) allPages) !! page = Some idx ->
  (idx < length allPages)%nat.
Proof.
  unfold Map_new.
  apply (Map_new_values (fun i => (i < length allPages)%nat)).
  - intros k v Hk. rewrite lookup_empty in Hk. discriminate.
  - intros e He. apply elem_of_lookup_imap in He as (i & y & -> & Hy). simpl.
    eapply lookup_lt_Some, Hy.
Qed.

Lemma carryBookmarks_length (pageIndexMap : gmap string nat) (n : nat)
    (srcPages : list string) (srcBookmarks merged : list bool) :
  (forall page idx, pageIndexMap !! page = Some idx -> (idx < n)%nat) ->
  length merged = n ->
  length (carryBookmarks pageIndexMap srcPages srcBookmarks merged) = n.
Proof.
  intros Hmap. unfold carryBookmarks.
  generalize (imap (fun (idx : nat) (page : string) => (idx, page)) srcPages).
  intros es. revert merged. induction es as [| e es IH]; intros merged Hlen; simpl.
  - exact Hlen.
  - apply IH. destruct (pageIndexMap !! e.2) as [newIdx |] eqn:Hlook; [| exact Hlen].
    destruct (default false (srcBookmarks !! e.1)); [| exact Hlen].
    rewrite Array_set_length_inside; [exact Hlen |].
    rewrite Hlen. eapply Hmap, Hlook.
Qed.

Lemma mergeNotes_bookmarksMatchPages (R : Runtime) (env : Env) (l r : NotesData) :
  bookmarksMatchPages (mergeNotes env l r).
Proof.
  unfold bookmarksMatchPages. simpl. eexists. split; [reflexivity |].
  set (allPages := allPagesOf l r).
  assert (Hmap : forall page idx,
             Map_new (imap (fun idx page => (page, idx)) allPages) !! page = Some idx ->
             (idx < length allPages)%nat) by apply pageIndexMap_bound.
  assert (Hfresh : length (Array_fill_false (length allPages)) = length allPages)
    by apply length_replicate.
  assert (Hlocal : length (match bookmarks l with
                           | Some bs => carryBookmarks
                                          (Map_new (imap (fun idx page => (page, idx)) allPages))
                                          (pages l) bs (Array_fill_false (length allPages))
                           | None => Array_fill_false (length allPages)
                           end) = length allPages).
  { destruct (bookmarks l); [| exact Hfresh].
    now apply carryBookmarks_length. }
  destruct (bookmarks r); [| exact Hlocal].
  now apply carryBookmarks_length.
Qed.

(** ** Reasoning about runs *)

Section Runs.
Context `{R : Runtime}.

Lemma bind_Return {A B} (c : M A) (k : A -> M B) w b w2 :
  bind c k w = (Return b, w2) ->
  exists a w1, c w = (Return a, w1) /\ k a w1 = (Return b, w2).
Proof.
  unfold bind. destruct (c w) as [[a | e | s] w1]; intros H; try discriminate.
  exists a, w1. split; [reflexivity | exact H].
Qed.

Lemma try_catch_Return {A} (c : M A) (h : Err -> M A) w b w2 :
  try_catch c h w = (Return b, w2) ->
  c w = (Return b, w2) \/ exists e w1, c w = (Throw e, w1) /\ h e w1 = (Return b, w2).
Proof.
  unfold try_catch. destruct (c w) as [[a | e | s] w1]; intros H; try discriminate.
  - left. exact H.
  - right. exists e, w1. split; [reflexivity | exact H].
Qed.

Lemma ret_Return {A} (a b : A) (w w' : World) :
  ret a w = (Return b, w') -> a = b /\ w = w'.
Proof. unfold ret. intros [= -> ->]. split; reflexivity. Qed.

Lemma getWorld_Return (w a w' : World) :
  getWorld w = (Return a, w') -> a = w /\ w' = w.
Proof. unfold getWorld. intros [= -> ->]. split; reflexivity. Qed.
End Runs.

Ltac minv :=
  repeat match goal with
  | H : bind _ _ _ = (Return _, _) |- _ =>
      let a := fresh "a" in let w := fresh "w" in let Hc := fresh "Hc" in
      apply bind_Return in H as (a & w & Hc & H)
  | H : ret _ _ = (Return _, _) |- _ => apply ret_Return in H as [? ?]; subst
  | H : getWorld _ = (Return _, _) |- _ => apply getWorld_Return in H as [? ?]; subst
  | H : throw _ _ = (Return _, _) |- _ => discriminate H
  | H : halt _ _ = (Return _, _) |- _ => discriminate H
  | H : try_catch _ _ _ = (Return _, _) |- _ =>
      let e := fresh "e" in let w := fresh "w" in let Hc := fresh "Hc" in
      apply try_catch_Return in H as [H | (e & w & Hc & H)]
  | H : (if ?b then _ else _) _ = (Return _, _) |- _ => destruct b eqn:?
  | H : (match ?x with _ => _ end) _ = (Return _, _) |- _ => destruct x eqn:?
  end.

Lemma saveNotes_unfold `{R : Runtime} (env : Env) (fuel : nat) :
  saveNotes env fuel =
  saveNotes_body env
    (loadNotes_body env
       (fun d => match fuel with O => halt OutOfFuel | S n => saveNotes env n d false end)).
Proof. destruct fuel; reflexivity. Qed.

Lemma saveNotes_body_Return `{R : Runtime} (env : Env) load d skip w d' w' :
  saveNotes_body env load d skip w = (Return d', w') ->
  pages d' = pages d /\ bookmarks d' = bookmarks d.
Proof.
  unfold saveNotes_body. intros H.
  apply bind_Return in H as (? & ? & _ & H).
  apply bind_Return in H as (? & ? & _ & H).
  apply bind_Return in H as (? & ? & _ & H).
  apply bind_Return in H as (? & ? & _ & H).
  apply bind_Return in H as (? & ? & _ & H).
  apply bind_Return in H as (? & ? & _ & H).
  apply bind_Return in H as (? & ? & _ & H).
  apply ret_Return in H as [<- _]. split; reflexivity.
Qed.

Lemma saveNotes_Return `{R : Runtime} (env : Env) fuel d skip w d' w' :
  saveNotes env fuel d skip w = (Return d', w') ->
  pages d' = pages d /\ bookmarks d' = bookmarks d.
Proof. rewrite saveNotes_unfold. apply saveNotes_body_Return. Qed.

Lemma bookmarksMatchPages_init `{R : Runtime} (d : NotesData) :
  bookmarksMatchPages (initBookmarks d).
Proof. eexists. split; [reflexivity |]. apply length_replicate. Qed.

Lemma bookmarksMatchPages_checked `{R : Runtime} (d : NotesData) :
  bookmarksNeedInit d = false -> bookmarksMatchPages d.
Proof.
  unfold bookmarksNeedInit, bookmarksMatchPages. destruct (bookmarks d) as [bs |]; [| discriminate].
  intros Hlen. exists bs. split; [reflexivity |].
  apply negb_false_iff, Nat.eqb_eq in Hlen. exact Hlen.
Qed.

Lemma bookmarksMatchPages_same (d d' : NotesData) :
  pages d' = pages d -> bookmarks d' = bookmarks d ->
  bookmarksMatchPages d -> bookmarksMatchPages d'.
Proof. unfold bookmarksMatchPages. intros -> ->. auto. Qed.


Lemma convertLegacyData_bookmarks `{R : Runtime} (env : Env) (l : LegacyNotesData) :
  bookmarksMatchPages (convertLegacyData env l).
Proof. eexists. split; [reflexivity |]. apply length_replicate. Qed.

Lemma convertLegacyParsed_Return `{R : Runtime} (env : Env) parsed w d w' :
  convertLegacyParsed env parsed w = (Return d, w') ->
  w' = w /\ exists l, asLegacyNotesData parsed = Some l /\ d = convertLegacyData env l.
Proof.
  unfold convertLegacyParsed. intros H. minv; eauto.
Qed.

Lemma loadNotes_body_bookmarks `{R : Runtime} (env : Env) save w d w' :
  (forall d0 w0 d1 w1, save d0 w0 = (Return d1, w1) ->
                       pages d1 = pages d0 /\ bookmarks d1 = bookmarks d0) ->
  loadNotes_body env save w = (Return (Some d), w') ->
  bookmarksMatchPages d.
Proof.
  intros Hsave. unfold loadNotes_body. intros H. minv; simplify_eq.
  all: try match goal with
       | Hc : convertLegacyParsed _ _ _ = (Return _, _) |- _ =>
           apply convertLegacyParsed_Return in Hc as (_ & l & _ & ->);
           apply convertLegacyData_bookmarks
       | Hc : _ = (Return _, _) |- _ =>
           destruct (Hsave _ _ _ _ Hc) as [Hp Hb];
           eapply bookmarksMatchPages_same; [exact Hp | exact Hb |];
           apply bookmarksMatchPages_init
       end.
  all: now apply bookmarksMatchPages_checked.
Qed.

Lemma loadNotes_bookmarks `{R : Runtime} (env : Env) fuel w d w' :
  loadNotes env fuel w = (Return (Some d), w') -> bookmarksMatchPages d.
Proof.
  apply loadNotes_body_bookmarks. intros d0 w0 d1 w1. apply saveNotes_Return.
Qed.

Lemma Array_set_bookmarks `{R : Runtime} (d : NotesData) (bs : list bool) (i : nat) (v : bool) :
  bookmarks d = Some bs -> length bs = length (pages d) -> (i < length (pages d))%nat ->
  bookmarksMatchPages (set_bookmarks d (Some (Array_set false bs i v))).
Proof.
  intros Hb Hlen Hi. eexists. split; [reflexivity |]. simpl.
  rewrite Array_set_length_inside; [exact Hlen | lia].
Qed.

Lemma healed_bookmarks `{R : Runtime} (d : NotesData) :
  bookmarksMatchPages (if bookmarksNeedInit d then initBookmarks d else d).
Proof.
  destruct (bookmarksNeedInit d) eqn:Hneed.
  - apply bookmarksMatchPages_init.
  - now apply bookmarksMatchPages_checked.
Qed.


Lemma invalidIndex_false (d : NotesData) (i : Z) :
  invalidIndex d i = false -> (Z.to_nat i < length (pages d))%nat.
Proof.
  unfold invalidIndex. intros H. apply orb_false_iff in H as [H1 H2].
  apply Z.ltb_ge in H1. apply Z.leb_gt in H2. lia.
Qed.

Lemma toggleBookmark_bookmarks `{R : Runtime} (env : Env) fuel i v w d w' :
  toggleBookmark env fuel i v w = (Return (Some d), w') -> bookmarksMatchPages d.
Proof.
  unfold toggleBookmark. intros H. minv; simplify_eq.
  match goal with Hs : saveNotes _ _ _ _ _ = _ |- _ =>
    apply saveNotes_Return in Hs as [Hp Hb] end.
  eapply bookmarksMatchPages_same; [exact Hp | exact Hb |].
  match goal with Hi : invalidIndex ?h _ = false |- _ =>
    destruct (healed_bookmarks n) as (bs & Hbs & Hlen);
    apply invalidIndex_false in Hi; rewrite Hbs end.
  simpl. now apply Array_set_bookmarks.
Qed.

Lemma setBookmarks_loop_length (n : nat) (value : bool) (indices : list Z) (bs : list bool) :
  length bs = n ->
  length (foldl (fun bs idx =>
                   if (0 <=? idx) && (idx <? Z.of_nat n)
                   then Array_set false bs (Z.to_nat idx) value
                   else bs) bs indices) = n.
Proof.
  revert bs. induction indices as [| idx indices IH]; intros bs Hlen; simpl; [exact Hlen |].
  apply IH. destruct ((0 <=? idx) && (idx <? Z.of_nat n)) eqn:Hin; [| exact Hlen].
  apply andb_true_iff in Hin as [H0 H1]. apply Z.leb_le in H0. apply Z.ltb_lt in H1.
  rewrite Array_set_length_inside; [exact Hlen | lia].
Qed.

Lemma setBookmarks_bookmarks `{R : Runtime} (env : Env) fuel indices value w d w' :
  setBookmarks env fuel indices value w = (Return (Some d), w') -> bookmarksMatchPages d.
Proof.
  unfold setBookmarks. intros H. minv; simplify_eq.
  match goal with Hs : saveNotes _ _ _ _ _ = _ |- _ =>
    apply saveNotes_Return in Hs as [Hp Hb] end.
  eapply bookmarksMatchPages_same; [exact Hp | exact Hb |].
  destruct (healed_bookmarks n) as (bs & Hbs & Hlen).
  eexists. split; [reflexivity |]. simpl.
  rewrite Hbs. simpl. apply setBookmarks_loop_length. 
  destruct (bookmarksNeedInit n); exact Hlen.
Qed.

(** ** The bookmark flags of the documents handed out *)

(** [restoreFromBackup] hands out the pages and the bookmark flags of the
    backup as they are. *)
Lemma restoreFromBackup_Return (R : Runtime) (env : Env) (fuel : nat) (name : string)
    (w : World) (d : NotesData) (w' : World) :
  restoreFromBackup env fuel name w = (Return d, w') ->
  exists data parsed d0,
    readFile_backup name w = (Return data, w)
    /\ JSON_parse data = Some parsed
    /\ asNotesData parsed = Some d0
    /\ pages d = pages d0 /\ bookmarks d = bookmarks d0.
Proof.
  unfold restoreFromBackup. intros H. minv.
  match goal with Hs : saveNotes _ _ _ _ _ = _ |- _ =>
    apply saveNotes_Return in Hs as [Hp Hb] end.
  match goal with Hr : readFile_backup _ _ = (Return ?t, ?w1) |- _ =>
    assert (w1 = w) as ->
      by (unfold readFile_backup in Hr; minv; reflexivity);
    exists t end.
  match goal with Hl : liftValid _ ?w1 = (Return _, ?w2) |- _ =>
    assert (w2 = w1) as -> by (unfold liftValid in Hl; minv; reflexivity) end.
  eauto 10.
Qed.

(** C1, as the specification has it, fails: the default document of the
    migration has no bookmark flags at all.  Here the notes file cannot be
    parsed, the migration falls back to the default document and hands it
    out. *)
Lemma migration_fallback_without_bookmarks :
  let env := sampleEnv manual 2 T2 in
  let w := sampleWorld (Some (PlainText "not json", T1)) 0 in
  (migrateLegacyData env 1 None w).1 = Return (createDefaultNotes env)
  /\ bookmarks (createDefaultNotes env) = None
  /\ ~ bookmarksMatchPages (createDefaultNotes env).
Proof.
  intros env w. split; [vm_compute; reflexivity |]. split; [reflexivity |].
  intros (bs & Hbs & _). discriminate Hbs.
Qed.

(** Nor does [restoreFromBackup] repair the flags: a backup written before
    bookmarks existed is handed out without them. *)
Lemma restoreFromBackup_without_bookmarks :
  let env := sampleEnv manual 2 T2 in
  let old := sampleDoc editor (ref_toISOString T1) 0 ["A"; "B"] None in
  let w := withBackups (sampleWorld None 0)
             [("backup-2025-11-05T09-54-56.json", (canonicalFile old, T1))] in
  (restoreFromBackup env 1 "backup-2025-11-05T09-54-56.json" w).1
  = Return (set_fileModTime (stamp env old) T2)
  /\ bookmarks (set_fileModTime (stamp env old) T2) = None.
Proof. intros env old w. split; vm_compute; reflexivity. Qed.

(** C1, amended.  The documents handed out by [loadNotes],
    [toggleBookmark], [setBookmarks] and [mergeNotes] carry bookmark flags,
    one per page; [saveNotes] leaves the pages and the flags of the document
    it is given as they are, and [restoreFromBackup] hands out those of the
    backup. *)
Theorem bookmarks_match_pages (R : Runtime) (env : Env) (fuel : nat) :
  (forall w d w',
      loadNotes env fuel w = (Return (Some d), w') -> bookmarksMatchPages d)
  /\ (forall pageIndex value w d w',
         toggleBookmark env fuel pageIndex value w = (Return (Some d), w') ->
         bookmarksMatchPages d)
  /\ (forall indices value w d w',
         setBookmarks env fuel indices value w = (Return (Some d), w') ->
         bookmarksMatchPages d)
  /\ (forall l r, bookmarksMatchPages (mergeNotes env l r))
  /\ (forall d0 skip w d w',
         saveNotes env fuel d0 skip w = (Return d, w') ->
         pages d = pages d0 /\ bookmarks d = bookmarks d0)
  /\ (forall name w d w',
         restoreFromBackup env fuel name w = (Return d, w') ->
         exists data parsed d0,
           readFile_backup name w = (Return data, w)
           /\ JSON_parse data = Some parsed
           /\ asNotesData parsed = Some d0
           /\ pages d = pages d0 /\ bookmarks d = bookmarks d0).
Proof.
  repeat split.
  - intros w d w'. apply loadNotes_bookmarks.
  - intros pageIndex value w d w'. apply toggleBookmark_bookmarks.
  - intros indices value w d w'. apply setBookmarks_bookmarks.
  - apply mergeNotes_bookmarksMatchPages.
  - eapply saveNotes_Return; eassumption.
  - eapply saveNotes_Return; eassumption.
  - intros name w d w'. apply restoreFromBackup_Return.
Qed.

Lemma bookmarks_match_pages_witness :
  let env := sampleEnv manual 2 T2 in
  let stored := sampleDoc editor (ref_toISOString T1) 0 ["A"; "B"] None in
  let w := sampleWorld (Some (canonicalFile stored, T1)) 0 in
  let d := set_fileModTime (stamp env (initBookmarks (set_fileModTime stored T1))) T2 in
  loadNotes env 1 w = (Return (Some d), (loadNotes env 1 w).2)
  /\ bookmarksMatchPages d.
Proof.
  intros env stored w d.
  assert (Hout : (loadNotes env 1 w).1 = Return (Some d)) by (vm_compute; reflexivity).
  assert (Hrun : loadNotes env 1 w = (Return (Some d), (loadNotes env 1 w).2))
    by (rewrite <- Hout; apply surjective_pairing).
  split; [exact Hrun |].
  exact (proj1 (bookmarks_match_pages refRuntime env 1) w d _ Hrun).
Defined.

(** ** Sorting and slicing *)

Lemma Array_sort_insert_Permutation {A} (compare : A -> A -> Z) (x : A) (l : list A) :
  Array_sort_insert compare x l ≡ₚ x :: l.
Proof.
  induction l as [| y l IH]; simpl; [reflexivity |].
  destruct (compare x y <=? 0); [reflexivity |].
  rewrite IH. apply Permutation_swap.
Qed.

Lemma Array_sort_Permutation {A} (compare : A -> A -> Z) (l : list A) :
  Array_sort compare l ≡ₚ l.
Proof.
  induction l as [| x l IH]; simpl; [reflexivity |].
  rewrite Array_sort_insert_Permutation. now rewrite IH.
Qed.

Lemma newestFirst_insert_sorted `{R : Runtime} (x : string * Z) (l : list (string * Z)) :
  StronglySorted notOlder l ->
  StronglySorted notOlder (Array_sort_insert newestFirst x l).
Proof.
  induction 1 as [| y l Hsorted IH Hall]; simpl.
  - repeat constructor.
  - destruct (newestFirst x y <=? 0) eqn:Hcmp.
    + apply Z.leb_le in Hcmp. unfold newestFirst in Hcmp.
      constructor; [constructor; assumption |].
      constructor; [unfold notOlder; lia |].
      eapply Forall_impl; [exact Hall |]. unfold notOlder. intros z Hz. lia.
    + apply Z.leb_gt in Hcmp. unfold newestFirst in Hcmp.
      constructor; [exact IH |].
      rewrite Array_sort_insert_Permutation. constructor; [unfold notOlder; lia | exact Hall].
Qed.

Lemma newestFirst_sorted `{R : Runtime} (l : list (string * Z)) :
  StronglySorted notOlder (Array_sort newestFirst l).
Proof.
  induction l as [| x l IH]; simpl; [constructor |].
  now apply newestFirst_insert_sorted.
Qed.

(** With a count that is not negative, [slice] drops that many elements. *)
Lemma Array_slice_drop {A} (start : Z) (a : list A) :
  0 <= start -> Array_slice start a = drop (Z.to_nat start) a.
Proof.
  intros H0. unfold Array_slice.
  destruct (start <? 0) eqn:Hneg; [apply Z.ltb_lt in Hneg; lia |].
  destruct (Z.le_gt_cases start (Z.of_nat (length a))) as [Hle | Hgt].
  - now rewrite Z.min_l by assumption.
  - rewrite Z.min_r by lia. rewrite Nat2Z.id.
    rewrite !drop_ge; [reflexivity | lia | lia].
Qed.

Lemma Array_slice_suffix {A} (start : Z) (a : list A) :
  exists kept, a = kept ++ Array_slice start a.
Proof.
  unfold Array_slice. eexists. symmetry. apply take_drop.
Qed.

(** ** The backup rotation *)

Section RotationRun.
Context `{R : Runtime}.

Lemma withBackupDir_id (w : World) (dir : gmap string file) :
  backupDir (disk w) = Some dir -> withBackupDir w dir = w.
Proof.
  destruct w as [[sd nf bd] lk sup mig]. simpl. intros ->. reflexivity.
Qed.

Lemma run_bind {A B} (c : M A) (k : A -> M B) (w w1 : World) (a : A) :
  c w = (Return a, w1) -> bind c k w = k a w1.
Proof. unfold bind. now intros ->. Qed.

Lemma run_bind_throw {A B} (c : M A) (k : A -> M B) (w w1 : World) (e : Err) :
  c w = (Throw e, w1) -> bind c k w = (Throw e, w1).
Proof. unfold bind. now intros ->. Qed.

Lemma run_try {A} (c : M A) (h : Err -> M A) (w w1 : World) (a : A) :
  c w = (Return a, w1) -> try_catch c h w = (Return a, w1).
Proof. unfold try_catch. now intros ->. Qed.

Lemma run_catch {A} (c : M A) (h : Err -> M A) (w w1 : World) (e : Err) :
  c w = (Throw e, w1) -> try_catch c h w = h e w1.
Proof. unfold try_catch. now intros ->. Qed.

Lemma stat_backup_run (w : World) (dir : gmap string file) (name : string) (f : file) :
  backupDir (disk w) = Some dir -> dir !! name = Some f ->
  stat_backup name w = (Return (mtime f), w).
Proof.
  intros Hdir Hf. unfold stat_backup, bind, getWorld. rewrite Hdir. simpl. now rewrite Hf.
Qed.

Lemma unlink_backup_run (w : World) (dir : gmap string file) (name : string) (f : file) :
  backupDir (disk w) = Some dir -> dir !! name = Some f ->
  unlink_backup name w = (Return tt, withBackupDir w (delete name dir)).
Proof.
  intros Hdir Hf. unfold unlink_backup, bind, getWorld. rewrite Hdir, Hf. reflexivity.
Qed.

Lemma readdir_backup_run (w : World) :
  readdir_backup w =
  match backupDir (disk w) with
  | Some dir => (Return (map_to_list dir).*1, w)
  | None => (Throw ENOENT, w)
  end.
Proof. unfold readdir_backup, bind, getWorld. now destruct (backupDir (disk w)). Qed.

Lemma stat_all (w : World) (dir : gmap string file) (names : list string) :
  backupDir (disk w) = Some dir ->
  (forall name, name ∈ names -> is_Some (dir !! name)) ->
  mapArrayM (fun file => t <- stat_backup file ;; ret (file, t)) names w
  = (Return (map (fun name => (name, mtimeOf dir name)) names), w).
Proof.
  intros Hdir. induction names as [| name names IH]; intros Hin; simpl; [reflexivity |].
  destruct (Hin name) as [f Hf]; [left |].
  erewrite run_bind; cycle 1.
  { erewrite run_bind by (eapply stat_backup_run; eassumption). reflexivity. }
  erewrite run_bind by (apply IH; intros n Hn; apply Hin; now right).
  unfold ret, mtimeOf. now rewrite Hf.
Qed.

Lemma unlink_all (w : World) (dir : gmap string file) (files : list (string * Z)) :
  backupDir (disk w) = Some dir ->
  NoDup files.*1 ->
  (forall file, file ∈ files -> is_Some (dir !! file.1)) ->
  forEachM (fun file => unlink_backup file.1) files w
  = (Return tt, withBackupDir w (foldl (fun d file => delete file.1 d) dir files)).
Proof.
  revert w dir. induction files as [| file files IH]; intros w dir Hdir Hnd Hin; simpl.
  - unfold ret. now rewrite withBackupDir_id.
  - destruct (Hin file) as [f Hf]; [left |].
    inversion Hnd as [| ? ? Hfresh Hnd']; subst.
    erewrite run_bind by (eapply unlink_backup_run; eassumption).
    rewrite (IH (withBackupDir w (delete file.1 dir)) (delete file.1 dir)).
    + reflexivity.
    + reflexivity.
    + exact Hnd'.
    + intros file' Hfile'. rewrite lookup_delete_ne.
      * apply Hin. now right.
      * intros Heq. apply Hfresh. rewrite Heq. apply list_elem_of_fmap. eauto.
Qed.

Lemma backupEntries_names (dir : gmap string file) :
  (backupEntries dir).*1 = filter (fun file => isBackupName file = true) (map_to_list dir).*1.
Proof.
  unfold backupEntries. rewrite <- list_fmap_compose.
  rewrite <- (list_fmap_id (filter _ _)) at 2. reflexivity.
Qed.

Lemma backupEntries_NoDup (dir : gmap string file) : NoDup (backupEntries dir).*1.
Proof. rewrite backupEntries_names. apply NoDup_filter, NoDup_fst_map_to_list. Qed.

Lemma elem_of_backupEntries (dir : gmap string file) (e : string * Z) :
  e ∈ backupEntries dir <->
  isBackupName e.1 = true /\ exists f, dir !! e.1 = Some f /\ e.2 = mtime f.
Proof.
  unfold backupEntries. rewrite list_elem_of_fmap. split.
  - intros (name & -> & Hname). apply list_elem_of_filter in Hname as [Hb Hname].
    apply list_elem_of_fmap in Hname as ([k f] & -> & Hkf).
    apply elem_of_map_to_list in Hkf. simpl. split; [exact Hb |].
    exists f. unfold mtimeOf. rewrite Hkf. split; reflexivity.
  - intros (Hb & f & Hf & Hm). exists e.1. split.
    + destruct e as [k m]. simpl in *. unfold mtimeOf. rewrite Hf. simpl. now rewrite Hm.
    + apply list_elem_of_filter. split; [exact Hb |].
      apply list_elem_of_fmap. exists (e.1, f). split; [reflexivity |].
      now apply elem_of_map_to_list.
Qed.

Lemma filesToDelete_sub (max : Z) (dir : gmap string file) (e : string * Z) :
  e ∈ filesToDelete max dir -> e ∈ backupEntries dir.
Proof.
  unfold filesToDelete. intros He.
  destruct (Array_slice_suffix max (Array_sort newestFirst (backupEntries dir))) as [kept Hk].
  rewrite <- (Array_sort_Permutation newestFirst), Hk. apply elem_of_app. now right.
Qed.

Lemma filesToDelete_NoDup (max : Z) (dir : gmap string file) :
  NoDup (filesToDelete max dir).*1.
Proof.
  unfold filesToDelete.
  destruct (Array_slice_suffix max (Array_sort newestFirst (backupEntries dir))) as [kept Hk].
  pose proof (backupEntries_NoDup dir) as Hnd.
  rewrite <- (Array_sort_Permutation newestFirst), Hk, fmap_app in Hnd.
  apply NoDup_app in Hnd. tauto.
Qed.

(** [cleanupOldBackups] always resolves; a folder that exists is left
    without the entries past the configured count. *)
Lemma cleanupOldBackups_run (env : Env) (w : World) :
  cleanupOldBackups env w =
  (Return tt,
   match backupDir (disk w) with
   | Some dir => withBackupDir w (pruneBackups (maxBackups (backup (config env))) dir)
   | None => w
   end).
Proof.
  unfold cleanupOldBackups.
  destruct (backupDir (disk w)) as [dir |] eqn:Hdir.
  - apply run_try.
    erewrite run_bind by (rewrite readdir_backup_run, Hdir; reflexivity).
    erewrite run_bind; cycle 1.
    { apply (stat_all w dir); [exact Hdir |].
      intros name Hname. apply list_elem_of_filter in Hname as [_ Hname].
      apply list_elem_of_fmap in Hname as ([k f] & -> & Hkf).
      apply elem_of_map_to_list in Hkf. eauto. }
    fold (backupEntries dir). fold (filesToDelete (maxBackups (backup (config env))) dir).
    rewrite (unlink_all w dir); [reflexivity | exact Hdir | apply filesToDelete_NoDup |].
    intros file Hfile. apply filesToDelete_sub, elem_of_backupEntries in Hfile
      as (_ & f & Hf & _). eauto.
  - erewrite run_catch; [reflexivity |].
    erewrite run_bind_throw; [reflexivity |].
    rewrite readdir_backup_run, Hdir. reflexivity.
Qed.
End RotationRun.

Section RotationProperties.
Context `{R : Runtime}.

Lemma createBackup_run (env : Env) (w : World) :
  createBackup env w =
  if enabled (backup (config env)) then
    match notesFile (disk w) with
    | Some f => (Return (Some (backupFileName env)), afterBackup env w f)
    | None => (Return None, w)
    end
  else (Return None, w).
Proof.
  unfold createBackup. destruct (enabled (backup (config env))); [| reflexivity]. simpl.
  destruct w as [[sd nf bd] lk sup mig]. 
  destruct nf as [f |]; [| reflexivity].
  apply run_try.
  erewrite run_bind by reflexivity.
  destruct bd as [dir |].
  - erewrite run_bind by reflexivity.
    erewrite run_bind by reflexivity.
    erewrite run_bind by apply cleanupOldBackups_run.
    reflexivity.
  - erewrite run_bind by reflexivity.
    erewrite run_bind by reflexivity.
    erewrite run_bind by apply cleanupOldBackups_run.
    reflexivity.
Qed.

Lemma lookup_delete_all {A} (names : list string) (dir : gmap string A) (name : string) :
  foldl (fun d n => delete n d) dir names !! name
  = if decide (name ∈ names) then None else dir !! name.
Proof.
  revert dir. induction names as [| n names IH]; intros dir; simpl.
  - destruct (decide (name ∈ [])) as [Hin | _]; [inversion Hin | reflexivity].
  - rewrite IH. destruct (decide (name ∈ names)) as [Hin | Hnin].
    + rewrite decide_True by (now right). reflexivity.
    + destruct (decide (n = name)) as [-> | Hne].
      * rewrite lookup_delete_eq. rewrite decide_True by left. reflexivity.
      * rewrite lookup_delete_ne by assumption.
        rewrite decide_False; [reflexivity |].
        rewrite elem_of_cons. intros [-> | ?]; contradiction.
Qed.

Lemma lookup_pruneBackups (max : Z) (dir : gmap string file) (name : string) :
  pruneBackups max dir !! name
  = if decide (name ∈ (filesToDelete max dir).*1) then None else dir !! name.
Proof.
  unfold pruneBackups. rewrite <- lookup_delete_all.
  generalize (filesToDelete max dir). intros files. revert dir.
  induction files as [| file files IH]; intros dir; simpl; [reflexivity | apply IH].
Qed.

(** The rotation only removes backups: every other file stays, and a file
    that stays is untouched. *)
Lemma pruneBackups_other (max : Z) (dir : gmap string file) (name : string) :
  isBackupName name = false -> pruneBackups max dir !! name = dir !! name.
Proof.
  intros Hname. rewrite lookup_pruneBackups.
  destruct (decide (name ∈ (filesToDelete max dir).*1)) as [Hin | _]; [| reflexivity].
  apply list_elem_of_fmap in Hin as (e & -> & He).
  apply filesToDelete_sub, elem_of_backupEntries in He as [Hb _]. congruence.
Qed.

Lemma pruneBackups_kept (max : Z) (dir : gmap string file) (name : string) (f : file) :
  pruneBackups max dir !! name = Some f -> dir !! name = Some f.
Proof.
  rewrite lookup_pruneBackups. now destruct (decide (name ∈ (filesToDelete max dir).*1)).
Qed.

(** The sorted backups split into those kept and those deleted. *)
Lemma sorted_split (max : Z) (dir : gmap string file) :
  0 <= max ->
  exists kept,
    Array_sort newestFirst (backupEntries dir) = kept ++ filesToDelete max dir
    /\ (Z.of_nat (length kept) <= max).
Proof.
  intros Hmax. unfold filesToDelete. rewrite Array_slice_drop by assumption.
  exists (take (Z.to_nat max) (Array_sort newestFirst (backupEntries dir))).
  split; [symmetry; apply take_drop |].
  rewrite length_take. lia.
Qed.

Lemma kept_entry (max : Z) (dir : gmap string file) (kept : list (string * Z))
    (name : string) (f : file) :
  Array_sort newestFirst (backupEntries dir) = kept ++ filesToDelete max dir ->
  isBackupName name = true ->
  pruneBackups max dir !! name = Some f ->
  (name, mtime f) ∈ kept.
Proof.
  intros Hsplit Hname Hlook.
  pose proof (pruneBackups_kept _ _ _ _ Hlook) as Hdir.
  assert (Hin : (name, mtime f) ∈ Array_sort newestFirst (backupEntries dir)).
  { rewrite Array_sort_Permutation. apply elem_of_backupEntries. simpl. eauto. }
  rewrite Hsplit in Hin. apply elem_of_app in Hin as [Hin | Hin]; [exact Hin |].
  rewrite lookup_pruneBackups in Hlook.
  rewrite decide_True in Hlook; [discriminate |].
  apply list_elem_of_fmap. exists (name, mtime f). split; [reflexivity | exact Hin].
Qed.

(** At most [max] backups are left. *)
Lemma pruneBackups_count (max : Z) (dir : gmap string file) :
  0 <= max ->
  Z.of_nat (length (backupEntries (pruneBackups max dir))) <= max.
Proof.
  intros Hmax. destruct (sorted_split max dir Hmax) as (kept & Hsplit & Hlen).
  etransitivity; [| exact Hlen]. apply inj_le.
  rewrite <- (length_fmap fst (backupEntries _)), <- (length_fmap fst kept).
  apply submseteq_length, NoDup_submseteq; [apply backupEntries_NoDup |].
  intros name Hname. apply list_elem_of_fmap in Hname as (e & -> & He).
  apply elem_of_backupEntries in He as (Hb & f & Hf & Hm).
  apply list_elem_of_fmap. exists (e.1, mtime f). split; [reflexivity |].
  eapply kept_entry; eassumption.
Qed.


End RotationProperties.

(** ** [createBackup] *)





(** ** [saveNotes]: conflicts *)

(** C2.  With a watermark [t0] set, a notes file modified at [t1 > t0] and
    the policy [manual], [saveNotes] without [skipConflictCheck] rejects with
    [CONFLICT_DETECTED]; the notes file, the backup folder and the watermark
    are as before the call. *)
Theorem saveNotes_manual_conflict (R : Runtime) (env : Env) (fuel : nat)
    (notesData : NotesData) (w : World) (f : file) (t0 : Z) :
  conflictResolution (sync (config env)) = manual ->
  lastKnownModTime w = t0 -> 0 < t0 ->
  notesFile (disk w) = Some f -> t0 < mtime f ->
  exists w',
    saveNotes env fuel notesData false w = (Throw (Error "CONFLICT_DETECTED"), w')
    /\ notesFile (disk w') = Some f
    /\ backupDir (disk w') = backupDir (disk w)
    /\ lastKnownModTime w' = t0.
Proof.
  intros Hpolicy Hmark Hset Hfile Hnewer. rewrite saveNotes_unfold.
  destruct w as [[sd nf bd] lk sup mig]. simpl in *. subst nf lk.
  assert (Hset' : (0 <? t0) = true) by now apply Z.ltb_lt.
  assert (Hnewer' : (t0 <? mtime f) = true) by now apply Z.ltb_lt.
  destruct sd; (eexists; split;
    [ cbv [saveNotes_body bind ret throw try_catch getWorld putDisk ensureStorageDirectory
           stat_notes disk storageDir notesFile lastKnownModTime negb andb];
      rewrite Hset', Hnewer', Hpolicy; reflexivity
    | repeat split; reflexivity ]).
Qed.

Lemma saveNotes_manual_conflict_witness :
  let env := sampleEnv manual 2 T2 in
  let d := sampleDoc editor (ref_toISOString T1) 0 ["A"; "B"] (Some [false; false]) in
  let f := {| content := canonicalFile d; mtime := T1 + 5 |} in
  let w := sampleWorld (Some (canonicalFile d, T1 + 5)) T1 in
  conflictResolution (sync (config env)) = manual
  /\ lastKnownModTime w = T1 /\ 0 < T1
  /\ notesFile (disk w) = Some f /\ T1 < mtime f
  /\ exists w',
       saveNotes env 1 d false w = (Throw (Error "CONFLICT_DETECTED"), w')
       /\ notesFile (disk w') = Some f
       /\ backupDir (disk w') = backupDir (disk w)
       /\ lastKnownModTime w' = T1.
Proof.
  intros env d f w.
  assert (H1 : conflictResolution (sync (config env)) = manual) by reflexivity.
  assert (H2 : lastKnownModTime w = T1) by reflexivity.
  assert (H3 : 0 < T1) by (unfold T1; lia).
  assert (H4 : notesFile (disk w) = Some f) by reflexivity.
  assert (H5 : T1 < mtime f) by (simpl; lia).
  repeat (split; [assumption |]).
  exact (saveNotes_manual_conflict refRuntime env 1 d w f T1 H1 H2 H3 H4 H5).
Defined.

(** ** [loadNotes]: the legacy format *)

Lemma asLegacyNotesData_shape (parsed : json) (legacy : LegacyNotesData) :
  asLegacyNotesData parsed = Some legacy ->
  exists fields items,
    parsed = JObj fields /\ prop parsed "pages" = Some (JArr items).
Proof.
  unfold asLegacyNotesData. destruct parsed as [| | | | | fields]; try discriminate.
  intros H. exists fields.
  apply bind_Some in H as (st & _ & H). apply bind_Some in H as (cp & _ & H).
  apply bind_Some in H as (pg & Hpg & _). apply bind_Some in Hpg as (v & Hv & Hread).
  destruct v; try discriminate. eauto.
Qed.

Lemma looksLegacy_version (parsed : json) (legacy : LegacyNotesData) :
  asLegacyNotesData parsed = Some legacy ->
  prop parsed "version" = None \/ prop parsed "version" = Some (JNum 1) ->
  looksLegacy parsed = true.
Proof.
  intros Hleg Hver. destruct (asLegacyNotesData_shape _ _ Hleg) as (fields & items & -> & _).
  unfold looksLegacy. destruct Hver as [-> | ->]; reflexivity.
Qed.

(** [replace(/[:.]/g, '-')] keeps the length and every character but the
    colons and the dots, which become dashes. *)
Lemma replaceColonDot_length (s : string) :
  String.length (replaceColonDot s) = String.length s.
Proof. induction s as [| c s IH]; simpl; [reflexivity | now rewrite IH]. Qed.

Lemma replaceColonDot_get (s : string) (i : nat) (c : ascii) :
  String.get i s = Some c ->
  String.get i (replaceColonDot s)
  = Some (if decide (c = ":"%char \/ c = "."%char) then "-"%char else c).
Proof.
  revert i. induction s as [| c0 s IH]; intros i; simpl; [discriminate |].
  destruct i as [| i]; [| apply IH].
  intros [= ->]. f_equal.
  destruct (Ascii.eqb_spec c ":"%char) as [-> | Hc]; [reflexivity |].
  destruct (Ascii.eqb_spec c "."%char) as [-> | Hd]; [reflexivity |].
  simpl. rewrite decide_False; [reflexivity | tauto].
Qed.

(** C5.  A notes file whose JSON has the legacy shape, without a version or
    with version 1, is loaded as the migrated document: version 2, the
    legacy view state, current page and pages as they are, bookmark flags all
    false and one per page, [totalPages] the number of pages, created and
    last modified now by this device, not yet synced.  The backup folder then
    holds [pre-migration-<timestamp>.json], where the timestamp is the
    ISO time of the load with a dash for every colon and dot, with the text
    the notes file had, and the notes file holds the migrated document. *)
Theorem loadNotes_migrates_legacy (R : Runtime) (env : Env) (fuel : nat) (w : World)
    (f : file) (parsed : json) (legacy : LegacyNotesData) :
  storageDir (disk w) = true ->
  notesFile (disk w) = Some f ->
  JSON_parse (content f) = Some parsed ->
  prop parsed "version" = None \/ prop parsed "version" = Some (JNum 1) ->
  asLegacyNotesData parsed = Some legacy ->
  let timestamp := replaceColonDot (toISOString (now env)) in
  exists migrated w' dir',
    loadNotes env fuel w = (Return (Some migrated), w')
    /\ version migrated = 2
    /\ state migrated = legacy_state legacy
    /\ currentPage migrated = legacy_currentPage legacy
    /\ pages migrated = legacy_pages legacy
    /\ bookmarks migrated = Some (replicate (length (legacy_pages legacy)) false)
    /\ totalPages (metadata migrated) = Z.of_nat (length (legacy_pages legacy))
    /\ createdAt (metadata migrated) = toISOString (now env)
    /\ syncStatus (metadata migrated) = Some pending
    /\ deviceId migrated = this_deviceId env
    /\ lastModified migrated = toISOString (now env)
    /\ String.length timestamp = String.length (toISOString (now env))
    /\ (forall i c, String.get i (toISOString (now env)) = Some c ->
                    String.get i timestamp
                    = Some (if decide (c = ":"%char \/ c = "."%char) then "-"%char else c))
    /\ backupDir (disk w') = Some dir'
    /\ dir' !! ("pre-migration-" +:+ timestamp +:+ ".json")
       = Some {| content := content f; mtime := now env |}
    /\ notesFile (disk w')
       = Some {| content := JSON_stringify (toJson migrated); mtime := now env |}.
Proof.
  intros Hdir Hfile Hparse Hver Hleg timestamp. subst timestamp.
  pose proof (looksLegacy_version _ _ Hleg Hver) as Hlooks.
  destruct (asLegacyNotesData_shape _ _ Hleg) as (fields & items & Hobj & Hpages).
  destruct w as [[sd nf bd] lk sup mig]. simpl in Hdir, Hfile. subst sd nf.
  exists (convertLegacyData env legacy).
  destruct bd as [dir |];
    (do 2 eexists; split;
    [ cbv [loadNotes loadNotes_body bind ret throw try_catch getWorld putDisk
           readFile_notes stat_notes ensureBackupDirectory copyFile_notes_to_backup
           convertLegacyParsed writeFile_notes
           disk storageDir notesFile backupDir lastKnownModTime];
      rewrite Hparse, Hlooks, Hpages, Hleg; reflexivity
    | simpl; repeat split; try reflexivity;
      [ apply replaceColonDot_length
      | apply replaceColonDot_get
      | apply lookup_insert_eq ] ]).
Qed.

Lemma loadNotes_migrates_legacy_witness :
  let env := sampleEnv manual 2 T2 in
  let w := sampleWorld (Some (legacyFile, T1)) 0 in
  let f := {| content := legacyFile; mtime := T1 |} in
  let parsed := JObj [("pages", JArr [JStr "hello"]); ("state", JStr "editor");
                      ("currentPage", JNum 0); ("version", JNum 1)] in
  let legacy := {| legacy_state := editor; legacy_currentPage := 0;
                   legacy_pages := ["hello"]; legacy_version := Some 1 |} in
  storageDir (disk w) = true
  /\ notesFile (disk w) = Some f
  /\ JSON_parse (content f) = Some parsed
  /\ (prop parsed "version" = None \/ prop parsed "version" = Some (JNum 1))
  /\ asLegacyNotesData parsed = Some legacy
  /\ toISOString (now env) = "2025-11-05T10:54:56.789Z"
  /\ replaceColonDot (toISOString (now env)) = "2025-11-05T10-54-56-789Z"
  /\ let timestamp := replaceColonDot (toISOString (now env)) in
     exists migrated w' dir',
       loadNotes env 1 w = (Return (Some migrated), w')
       /\ version migrated = 2
       /\ state migrated = editor
       /\ currentPage migrated = 0
       /\ pages migrated = ["hello"]
       /\ bookmarks migrated = Some [false]
       /\ totalPages (metadata migrated) = 1
       /\ createdAt (metadata migrated) = toISOString (now env)
       /\ syncStatus (metadata migrated) = Some pending
       /\ deviceId migrated = "device-1"
       /\ lastModified migrated = toISOString (now env)
       /\ String.length timestamp = String.length (toISOString (now env))
       /\ (forall i c, String.get i (toISOString (now env)) = Some c ->
                       String.get i timestamp
                       = Some (if decide (c = ":"%char \/ c = "."%char)
                               then "-"%char else c))
       /\ backupDir (disk w') = Some dir'
       /\ dir' !! ("pre-migration-" +:+ timestamp +:+ ".json")
          = Some {| content := legacyFile; mtime := T2 |}
       /\ notesFile (disk w')
          = Some {| content := JSON_stringify (toJson migrated); mtime := T2 |}.
Proof.
  intros env w f parsed legacy.
  assert (H1 : storageDir (disk w) = true) by reflexivity.
  assert (H2 : notesFile (disk w) = Some f) by reflexivity.
  assert (H3 : JSON_parse (content f) = Some parsed) by reflexivity.
  assert (H4 : prop parsed "version" = None \/ prop parsed "version" = Some (JNum 1))
    by (right; reflexivity).
  assert (H5 : asLegacyNotesData parsed = Some legacy) by reflexivity.
  assert (H6 : toISOString (now env) = "2025-11-05T10:54:56.789Z")
    by (vm_compute; reflexivity).
  assert (H7 : replaceColonDot (toISOString (now env)) = "2025-11-05T10-54-56-789Z")
    by (vm_compute; reflexivity).
  repeat (split; [assumption |]).
  exact (loadNotes_migrates_legacy refRuntime env 1 w f parsed legacy H1 H2 H3 H4 H5).
Defined.

(** ** [toggleBookmark] *)

(** Loading a canonical document whose bookmark flags match its pages
    writes nothing: it moves the watermark to the modification time of the
    file and fills in [fileModTime] when the file has none. *)
Lemma loadNotes_canonical (R : Runtime) (env : Env) (fuel : nat) (w : World)
    (f : file) (parsed : json) (d : NotesData) :
  notesFile (disk w) = Some f ->
  JSON_parse (content f) = Some parsed ->
  looksLegacy parsed = false ->
  isValidNotesData parsed = inr true ->
  asNotesData parsed = Some d ->
  bookmarksNeedInit d = false ->
  loadNotes env fuel w
  = (Return (Some (if fileModTimeMissing d then set_fileModTime d (mtime f) else d)),
     withWatermark w (mtime f)).
Proof.
  intros Hfile Hparse Hlooks Hvalid Hcast Hbm.
  destruct w as [[sd nf bd] lk sup mig]. simpl in Hfile. subst nf.
  cbv [loadNotes loadNotes_body bind ret throw try_catch getWorld putDisk
       readFile_notes stat_notes liftValid set_lastKnownModTime negb
       disk storageDir notesFile backupDir lastKnownModTime].
  rewrite Hparse, Hlooks, Hvalid, Hcast.
  destruct (fileModTimeMissing d).
  - change (bookmarksNeedInit (set_fileModTime d (mtime f))) with (bookmarksNeedInit d).
    rewrite Hbm. reflexivity.
  - rewrite Hbm. reflexivity.
Qed.

Lemma toggleBookmark_after_load (R : Runtime) (env : Env) (fuel : nat)
    (pageIndex : Z) (value : option bool) (w : World) (d : NotesData) (w' : World) :
  loadNotes env fuel w = (Return (Some d), w') ->
  pageIndex < 0 \/ Z.of_nat (length (pages d)) <= pageIndex ->
  toggleBookmark env fuel pageIndex value w = (Return None, w').
Proof.
  intros Hload Hout. unfold toggleBookmark. erewrite run_bind by exact Hload.
  assert (Hinv : invalidIndex (if bookmarksNeedInit d then initBookmarks d else d) pageIndex
                 = true).
  { unfold invalidIndex.
    replace (pages (if bookmarksNeedInit d then initBookmarks d else d)) with (pages d)
      by (destruct (bookmarksNeedInit d); reflexivity).
    apply orb_true_iff. destruct Hout as [Hneg | Hbig].
    - left. now apply Z.ltb_lt.
    - right. now apply Z.leb_le. }
  cbv beta iota zeta. rewrite Hinv. reflexivity.
Qed.

(** C6, as the specification has it, fails: for an index out of range
    [toggleBookmark] answers [null], not the document. *)
Lemma toggleBookmark_out_of_range_null :
  let env := sampleEnv manual 2 T2 in
  let d := sampleDoc editor (ref_toISOString T1) 0 ["p0"; "p1"] (Some [false; false]) in
  let w := sampleWorld (Some (canonicalFile d, T1)) T1 in
  (loadNotes env 1 w).1 = Return (Some (set_fileModTime d T1))
  /\ (toggleBookmark env 1 5 None w).1 = Return None
  /\ (toggleBookmark env 1 5 None w).1 <> Return (Some (set_fileModTime d T1)).
Proof.
  intros env d w.
  assert (Hnull : (toggleBookmark env 1 5 None w).1 = Return None)
    by (vm_compute; reflexivity).
  split; [vm_compute; reflexivity |]. split; [exact Hnull |].
  rewrite Hnull. discriminate.
Qed.

(** C6, amended.  For an index outside [0, len(pages)) and a stored document
    that loads, [toggleBookmark] saves nothing of its own and answers
    [null]: the world is the one the load leaves.  When the stored document
    is canonical and its bookmark flags match its pages, the load writes
    nothing either, so the disk is as before the call. *)
Theorem toggleBookmark_invalid_index (R : Runtime) (env : Env) (fuel : nat)
    (pageIndex : Z) (value : option bool) (w : World) :
  (forall d w',
      loadNotes env fuel w = (Return (Some d), w') ->
      pageIndex < 0 \/ Z.of_nat (length (pages d)) <= pageIndex ->
      toggleBookmark env fuel pageIndex value w = (Return None, w'))
  /\ (forall f parsed d,
         notesFile (disk w) = Some f ->
         JSON_parse (content f) = Some parsed ->
         looksLegacy parsed = false ->
         isValidNotesData parsed = inr true ->
         asNotesData parsed = Some d ->
         bookmarksNeedInit d = false ->
         pageIndex < 0 \/ Z.of_nat (length (pages d)) <= pageIndex ->
         exists w',
           toggleBookmark env fuel pageIndex value w = (Return None, w')
           /\ disk w' = disk w).
Proof.
  split.
  - intros d w'. apply toggleBookmark_after_load.
  - intros f parsed d Hfile Hparse Hlooks Hvalid Hcast Hbm Hout.
    pose proof (loadNotes_canonical R env fuel w f parsed d
                  Hfile Hparse Hlooks Hvalid Hcast Hbm) as Hload.
    eexists. split.
    + eapply toggleBookmark_after_load; [exact Hload |].
      destruct (fileModTimeMissing d); exact Hout.
    + reflexivity.
Qed.

Lemma toggleBookmark_invalid_index_witness :
  let env := sampleEnv manual 2 T2 in
  let d := sampleDoc editor (ref_toISOString T1) 0 ["p0"; "p1"] (Some [false; false]) in
  let w := sampleWorld (Some (canonicalFile d, T1)) T1 in
  let f := {| content := canonicalFile d; mtime := T1 |} in
  notesFile (disk w) = Some f
  /\ JSON_parse (content f) = Some (toJson d)
  /\ looksLegacy (toJson d) = false
  /\ isValidNotesData (toJson d) = inr true
  /\ asNotesData (toJson d) = Some d
  /\ bookmarksNeedInit d = false
  /\ (5 < 0 \/ Z.of_nat (length (pages d)) <= 5)
  /\ exists w', toggleBookmark env 1 5 None w = (Return None, w') /\ disk w' = disk w.
Proof.
  intros env d w f.
  assert (H1 : notesFile (disk w) = Some f) by reflexivity.
  assert (H2 : JSON_parse (content f) = Some (toJson d)) by reflexivity.
  assert (H3 : looksLegacy (toJson d) = false) by reflexivity.
  assert (H4 : isValidNotesData (toJson d) = inr true) by reflexivity.
  assert (H5 : asNotesData (toJson d) = Some d) by reflexivity.
  assert (H6 : bookmarksNeedInit d = false) by reflexivity.
  assert (H7 : 5 < 0 \/ Z.of_nat (length (pages d)) <= 5) by (right; simpl; lia).
  repeat (split; [assumption |]).
  exact (proj2 (toggleBookmark_invalid_index refRuntime env 1 5 None w)
           f (toJson d) d H1 H2 H3 H4 H5 H6 H7).
Defined.

(** ** The two variants of [saveNotes] *)

Lemma Older_createBackup_same (R : Runtime) (env : Env) :
  Older.createBackup env = createBackup env.
Proof. reflexivity. Qed.

(** [createBackup] always resolves; it leaves the notes file alone and the
    storage folder in place. *)
Lemma createBackup_resolves (R : Runtime) (env : Env) (w : World) :
  exists r w',
    createBackup env w = (Return r, w')
    /\ notesFile (disk w') = notesFile (disk w)
    /\ (storageDir (disk w) = true -> storageDir (disk w') = true)
    /\ lastKnownModTime w' = lastKnownModTime w.
Proof.
  rewrite createBackup_run.
  destruct (enabled (backup (config env))); [| eauto 10].
  destruct (notesFile (disk w)) as [f |] eqn:Hf; [| eauto 10].
  do 2 eexists. split; [reflexivity |]. simpl.
  repeat split; [exact Hf |]. now destruct (backupDir (disk w)).
Qed.

(** C10.  On the same document, with the same device id and clock, the
    older [saveNotes] and the newer one called with [skipConflictCheck = true]
    leave the same disk: the same text in the notes file (the stamped
    document, serialised) and the same backup folder.  The newer one also
    moves the watermark and records [fileModTime] in the object, after the
    write. *)
Theorem saveNotes_variants_same_disk (R : Runtime) (env : Env) (fuel : nat)
    (notesData : NotesData) (w : World) :
  exists w_old w_new,
    Older.saveNotes env notesData w = (Return (stamp env notesData), w_old)
    /\ saveNotes env fuel notesData true w
       = (Return (set_fileModTime (stamp env notesData) (now env)), w_new)
    /\ disk w_old = disk w_new
    /\ notesFile (disk w_old)
       = Some {| content := JSON_stringify (toJson (stamp env notesData));
                 mtime := now env |}
    /\ lastKnownModTime w_old = lastKnownModTime w
    /\ lastKnownModTime w_new = now env.
Proof.
  rewrite saveNotes_unfold.
  unfold Older.saveNotes, saveNotes_body. rewrite Older_createBackup_same.
  destruct (ensureStorageDirectory w) as [o w1] eqn:Hensure.
  assert (Hw1 : o = Return tt /\ storageDir (disk w1) = true
                /\ lastKnownModTime w1 = lastKnownModTime w).
  { unfold ensureStorageDirectory, bind, getWorld, ret, putDisk in Hensure.
    destruct (storageDir (disk w)) eqn:Hsd; injection Hensure as <- <-; auto. }
  destruct Hw1 as (-> & Hsd1 & Hlk1).
  destruct (createBackup_resolves R env w1) as (r & w2 & Hbackup & _ & Hsd2 & Hlk2).
  specialize (Hsd2 Hsd1).
  destruct w2 as [[sd2 nf2 bd2] lk2 sup2 mig2]. simpl in Hsd2, Hlk2. subst sd2.
  do 2 eexists. split; [| split].
  - erewrite run_bind by exact Hensure. erewrite run_bind by exact Hbackup.
    reflexivity.
  - erewrite run_bind by exact Hensure. erewrite run_bind by reflexivity.
    simpl negb. simpl andb. cbv iota.
    erewrite run_bind by reflexivity. erewrite run_bind by exact Hbackup.
    reflexivity.
  - simpl. repeat split; congruence.
Qed.

(** * Further properties of the engine *)

(** ** [saveNotes] without a conflict *)

Section Saving.
Context `{R : Runtime}.

Lemma ensureStorageDirectory_run (w : World) :
  exists w1, ensureStorageDirectory w = (Return tt, w1)
             /\ storageDir (disk w1) = true
             /\ notesFile (disk w1) = notesFile (disk w)
             /\ backupDir (disk w1) = backupDir (disk w)
             /\ lastKnownModTime w1 = lastKnownModTime w
             /\ suppressFileWatcherEvents w1 = suppressFileWatcherEvents w
             /\ migrationCompleted w1 = migrationCompleted w.
Proof.
  destruct w as [[sd nf bd] lk sup mig].
  destruct sd; eexists; (split; [reflexivity | repeat split]).
Qed.

Lemma createBackup_keeps (env : Env) (w : World) :
  exists r w',
    createBackup env w = (Return r, w')
    /\ notesFile (disk w') = notesFile (disk w)
    /\ (storageDir (disk w) = true -> storageDir (disk w') = true)
    /\ lastKnownModTime w' = lastKnownModTime w
    /\ suppressFileWatcherEvents w' = suppressFileWatcherEvents w
    /\ migrationCompleted w' = migrationCompleted w.
Proof.
  rewrite createBackup_run.
  destruct (enabled (backup (config env))); [| eauto 10].
  destruct (notesFile (disk w)) as [f |] eqn:Hf; [| eauto 10].
  do 2 eexists. split; [reflexivity |]. simpl.
  repeat split; [exact Hf |]. now destruct (backupDir (disk w)).
Qed.

(** The part of [saveNotes] after the conflict check. *)
Lemma saveNotes_write (env : Env) (load : M (option NotesData)) (d : NotesData)
    (w : World) :
  saveNotes_body env load d true w
  = (Return (set_fileModTime (stamp env d) (now env)), afterSave env d w).
Proof.
  unfold saveNotes_body, afterSave.
  destruct (ensureStorageDirectory_run w) as (w1 & Hensure & Hsd1 & _ & _ & _ & Hsup1 & Hmig1).
  rewrite Hensure. simpl snd.
  destruct (createBackup_keeps env w1) as (r & w2 & Hbackup & _ & Hsd2 & _ & Hsup2 & Hmig2).
  rewrite Hbackup. simpl snd. specialize (Hsd2 Hsd1).
  erewrite run_bind by exact Hensure. erewrite run_bind by reflexivity.
  simpl negb. simpl andb. cbv iota.
  erewrite run_bind by reflexivity. erewrite run_bind by exact Hbackup.
  destruct w2 as [[sd2 nf2 bd2] lk2 sup2 mig2]. simpl in *. subst sd2 sup2 mig2.
  rewrite Hsup1, Hmig1. reflexivity.
Qed.

(** Without a visible external change the conflict check lets the save
    through, whatever the policy. *)
Lemma saveNotes_run (env : Env) (fuel : nat) (d : NotesData) (skip : bool) (w : World) :
  skip = true \/ noExternalChange w ->
  saveNotes env fuel d skip w
  = (Return (set_fileModTime (stamp env d) (now env)), afterSave env d w).
Proof.
  intros Hquiet. rewrite saveNotes_unfold.
  destruct skip; [apply saveNotes_write |].
  destruct Hquiet as [Hskip | Hquiet]; [discriminate |].
  rewrite <- (saveNotes_write env
                (loadNotes_body env
                   (fun d0 => match fuel with
                              | O => halt OutOfFuel
                              | S n => saveNotes env n d0 false
                              end)) d w).
  unfold saveNotes_body.
  destruct (ensureStorageDirectory_run w) as (w1 & Hensure & _ & Hnf1 & _ & Hlk1 & _ & _).
  erewrite !(run_bind ensureStorageDirectory) by exact Hensure.
  erewrite !(run_bind getWorld) by reflexivity.
  simpl negb. simpl andb. cbv iota.
  assert (Hcheck : forall k : M unit,
             (if 0 <? lastKnownModTime w1
              then try_catch
                     (stat_mtimeMs <- stat_notes ;;
                      w0 <- getWorld ;;
                      if lastKnownModTime w0 <? stat_mtimeMs then k else ret tt)
                     (fun error => match error with ENOENT => ret tt | _ => throw error end)
              else ret tt) w1 = (Return tt, w1)).
  { intros k. destruct (0 <? lastKnownModTime w1) eqn:Hset; [| reflexivity].
    apply Z.ltb_lt in Hset. rewrite Hlk1 in Hset.
    destruct Hquiet as [Hunset | Hold]; [lia |].
    rewrite <- Hnf1, <- Hlk1 in Hold.
    destruct w1 as [[sd1 nf1 bd1] lk1 sup1 mig1]. simpl in *.
    destruct nf1 as [f |]; [| reflexivity].
    cbv [try_catch bind ret getWorld stat_notes disk notesFile lastKnownModTime].
    assert (Hnot : (lk1 <? mtime f) = false) by (apply Z.ltb_ge; lia).
    rewrite Hnot. reflexivity. }
  erewrite run_bind by apply Hcheck. reflexivity.
Qed.
End Saving.

(** ** What is written reads back *)

Lemma assoc_cons (k k' : string) (v : json) (rest : list (string * json)) :
  assoc k ((k', v) :: rest) = if String.eqb k' k then Some v else assoc k rest.
Proof.
  simpl. destruct (decide (k' = k)) as [-> | Hne].
  - now rewrite String.eqb_refl.
  - apply String.eqb_neq in Hne. now rewrite Hne.
Qed.

Lemma assoc_nil (k : string) : assoc k [] = None.
Proof. reflexivity. Qed.

Ltac lookup_names := unfold prop; rewrite ?assoc_cons, ?assoc_nil; reflexivity.

Lemma asStrings_pages (l : list string) : asStrings (JArr (JStr <$> l)) = Some l.
Proof.
  unfold asStrings. apply mapM_Some.
  induction l as [| x l IH]; constructor; [reflexivity | exact IH].
Qed.

Lemma asBools_flags (l : list bool) : asBools (JArr (JBool <$> l)) = Some l.
Proof.
  unfold asBools. apply mapM_Some.
  induction l as [| x l IH]; constructor; [reflexivity | exact IH].
Qed.

Lemma asUIState_json (s : UIState) : asUIState (UIState_json s) = Some s.
Proof. now destruct s. Qed.

Lemma asSyncStatus_json (s : SyncStatus) : asSyncStatus (SyncStatus_json s) = Some s.
Proof. now destruct s. Qed.

Lemma asMetadata_json (m : Metadata) : asMetadata (Metadata_json m) = Some m.
Proof.
  destruct m as [tp ca ss fm].
  assert (H1 : prop (Metadata_json (Build_Metadata tp ca ss fm)) "totalPages"
               = Some (JNum tp)) by lookup_names.
  assert (H2 : prop (Metadata_json (Build_Metadata tp ca ss fm)) "createdAt"
               = Some (JStr ca)) by lookup_names.
  assert (H3 : prop (Metadata_json (Build_Metadata tp ca ss fm)) "syncStatus"
               = SyncStatus_json <$> ss)
    by (destruct ss, fm; unfold Metadata_json, optField; simpl app; lookup_names).
  assert (H4 : prop (Metadata_json (Build_Metadata tp ca ss fm)) "fileModTime"
               = JNum <$> fm)
    by (destruct ss, fm; unfold Metadata_json, optField; simpl app; lookup_names).
  unfold asMetadata. rewrite H1, H2, H3, H4.
  destruct ss as [[| |] |], fm as [t |]; reflexivity.
Qed.

Section ReadBack.
Variable d : NotesData.

Lemma toJson_JObj : exists fields, toJson d = JObj fields.
Proof. unfold toJson. eauto. Qed.

Lemma prop_version : prop (toJson d) "version" = Some (JNum (version d)).
Proof. unfold toJson. lookup_names. Qed.

Lemma prop_lastModified : prop (toJson d) "lastModified" = Some (JStr (lastModified d)).
Proof. unfold toJson. lookup_names. Qed.

Lemma prop_deviceId : prop (toJson d) "deviceId" = Some (JStr (deviceId d)).
Proof. unfold toJson. lookup_names. Qed.

Lemma prop_state : prop (toJson d) "state" = Some (UIState_json (state d)).
Proof. unfold toJson. lookup_names. Qed.

Lemma prop_currentPage : prop (toJson d) "currentPage" = Some (JNum (currentPage d)).
Proof. unfold toJson. lookup_names. Qed.

Lemma prop_pages : prop (toJson d) "pages" = Some (JArr (JStr <$> pages d)).
Proof. unfold toJson. lookup_names. Qed.

Lemma prop_bookmarks :
  prop (toJson d) "bookmarks" = (fun bs => JArr (JBool <$> bs)) <$> bookmarks d.
Proof. unfold toJson, optField. destruct (bookmarks d); simpl app; lookup_names. Qed.

Lemma prop_metadata : prop (toJson d) "metadata" = Some (Metadata_json (metadata d)).
Proof. unfold toJson, optField. destruct (bookmarks d); simpl app; lookup_names. Qed.

Lemma asNotesData_toJson : asNotesData (toJson d) = Some d.
Proof.
  destruct toJson_JObj as [fields Hobj]. unfold asNotesData.
  rewrite prop_version, prop_lastModified, prop_deviceId, prop_state, prop_currentPage,
    prop_pages, prop_bookmarks, prop_metadata.
  rewrite Hobj. cbn [mbind option_bind asNum asStr].
  rewrite asUIState_json. cbn [mbind option_bind]. rewrite asStrings_pages.
  cbn [mbind option_bind]. rewrite asMetadata_json.
  destruct d as [v lm dev st cp pg [bs |] md]; cbn [bookmarks fmap option_fmap option_map optional];
    rewrite ?asBools_flags; reflexivity.
Qed.

Lemma isValidNotesData_toJson : isValidNotesData (toJson d) = inr true.
Proof.
  destruct toJson_JObj as [fields Hobj]. unfold isValidNotesData.
  rewrite prop_version, prop_lastModified, prop_deviceId, prop_state, prop_currentPage,
    prop_pages, prop_metadata.
  rewrite Hobj. destruct (metadata d) as [tp ca ss fm].
  assert (H1 : prop (Metadata_json (Build_Metadata tp ca ss fm)) "totalPages"
               = Some (JNum tp)) by lookup_names.
  assert (H2 : prop (Metadata_json (Build_Metadata tp ca ss fm)) "createdAt"
               = Some (JStr ca)) by lookup_names.
  rewrite H1, H2. destruct (state d); reflexivity.
Qed.

(** It is taken for the legacy format exactly when its version is 0 or 1. *)
Lemma looksLegacy_toJson :
  looksLegacy (toJson d) = (version d =? 0) || (version d =? 1).
Proof.
  destruct toJson_JObj as [fields Hobj]. unfold looksLegacy.
  rewrite prop_version. rewrite Hobj. simpl. destruct (version d =? 0); reflexivity.
Qed.
End ReadBack.

(** X1.  The serialised form of a document passes [isValidNotesData] and casts
    back to the same document; [loadNotes] takes it for a legacy file
    exactly when its version is 0 or 1. *)
Theorem toJson_reads_back (d : NotesData) :
  isValidNotesData (toJson d) = inr true
  /\ asNotesData (toJson d) = Some d
  /\ looksLegacy (toJson d) = (version d =? 0) || (version d =? 1).
Proof.
  split; [apply isValidNotesData_toJson |].
  split; [apply asNotesData_toJson | apply looksLegacy_toJson].
Qed.

(** ** Saving, then loading *)

(** What a load makes of a stored document: [fileModTime] is filled in from
    the file when the document has none. *)

Section SaveLoad.
Context `{R : Runtime}.

Lemma bookmarksNeedInit_false (d : NotesData) :
  bookmarksMatchPages d -> bookmarksNeedInit d = false.
Proof.
  intros (bs & Hbs & Hlen). unfold bookmarksNeedInit. rewrite Hbs.
  apply negb_false_iff, Nat.eqb_eq, Hlen.
Qed.

(** X2.  A document that was just saved loads back without another write: the
    load hands out what was saved, with the stamps of the save. *)
Theorem save_then_load (env env' : Env) (fuel fuel' : nat) (d : NotesData)
    (skip : bool) (w : World) :
  JSON_parse (JSON_stringify (toJson (stamp env d))) = Some (toJson (stamp env d)) ->
  version d <> 0 -> version d <> 1 ->
  bookmarksMatchPages d ->
  skip = true \/ noExternalChange w ->
  exists saved loaded w',
    saveNotes env fuel d skip w = (Return saved, w')
    /\ loadNotes env' fuel' w' = (Return (Some loaded), w')
    /\ version loaded = version d /\ state loaded = state d
    /\ currentPage loaded = currentPage d
    /\ pages loaded = pages d /\ bookmarks loaded = bookmarks d
    /\ createdAt (metadata loaded) = createdAt (metadata d)
    /\ syncStatus (metadata loaded) = syncStatus (metadata d)
    /\ lastModified loaded = toISOString (now env)
    /\ deviceId loaded = this_deviceId env
    /\ totalPages (metadata loaded) = Z.of_nat (length (pages d)).
Proof.
  intros Hparse Hv0 Hv1 Hbm Hquiet.
  exists (set_fileModTime (stamp env d) (now env)), (asLoaded (stamp env d) (now env)),
    (afterSave env d w).
  split; [now apply saveNotes_run |]. split.
  - rewrite (loadNotes_canonical R env' fuel' (afterSave env d w)
               {| content := JSON_stringify (toJson (stamp env d)); mtime := now env |}
               (toJson (stamp env d)) (stamp env d)).
    + reflexivity.
    + reflexivity.
    + exact Hparse.
    + rewrite looksLegacy_toJson.
      apply orb_false_iff. split; now apply Z.eqb_neq.
    + apply isValidNotesData_toJson.
    + apply asNotesData_toJson.
    + apply bookmarksNeedInit_false. destruct Hbm as (bs & Hbs & Hlen). now exists bs.
  - unfold asLoaded. destruct (fileModTimeMissing (stamp env d)); repeat split.
Qed.
End SaveLoad.

Lemma save_then_load_witness :
  let env := sampleEnv manual 2 T2 in
  let d := sampleDoc render (ref_toISOString T1) 1 ["A"; "B"] (Some [true; false]) in
  let w := sampleWorld None 0 in
  JSON_parse (JSON_stringify (toJson (stamp env d))) = Some (toJson (stamp env d))
  /\ version d <> 0 /\ version d <> 1
  /\ bookmarksMatchPages d
  /\ noExternalChange w
  /\ exists saved loaded w',
       saveNotes env 1 d false w = (Return saved, w')
       /\ loadNotes env 1 w' = (Return (Some loaded), w')
       /\ version loaded = version d /\ state loaded = state d
       /\ currentPage loaded = currentPage d
       /\ pages loaded = pages d /\ bookmarks loaded = bookmarks d
       /\ createdAt (metadata loaded) = createdAt (metadata d)
       /\ syncStatus (metadata loaded) = syncStatus (metadata d)
       /\ lastModified loaded = toISOString (now env)
       /\ deviceId loaded = this_deviceId env
       /\ totalPages (metadata loaded) = Z.of_nat (length (pages d)).
Proof.
  intros env d w.
  assert (H1 : JSON_parse (JSON_stringify (toJson (stamp env d)))
               = Some (toJson (stamp env d))) by reflexivity.
  assert (H2 : version d <> 0) by discriminate.
  assert (H3 : version d <> 1) by discriminate.
  assert (H4 : bookmarksMatchPages d) by (exists [true; false]; split; reflexivity).
  assert (H5 : noExternalChange w) by (left; simpl; lia).
  repeat (split; [assumption |]).
  exact (save_then_load env env 1 1 d false w H1 H2 H3 H4 (or_intror H5)).
Defined.

(** ** [toggleBookmark] and [setBookmarks] on a valid index *)


Section Bookmarks.
Context `{R : Runtime}.

Lemma Array_set_inside {A} (hole : A) (a : list A) (i : nat) (v : A) :
  (i < length a)%nat -> Array_set hole a i v = <[i := v]> a.
Proof. intros Hi. unfold Array_set. now rewrite decide_True. Qed.

Lemma noExternalChange_loaded (w : World) (f : file) :
  notesFile (disk w) = Some f -> noExternalChange (withWatermark w (mtime f)).
Proof. intros Hf. right. simpl. rewrite Hf. simpl. lia. Qed.

Lemma loadNotes_holds (env : Env) (fuel : nat) (w : World) (f : file)
    (d : NotesData) (bs : list bool) :
  notesFile (disk w) = Some f -> holds f d bs ->
  loadNotes env fuel w = (Return (Some (asLoaded d (mtime f))), withWatermark w (mtime f)).
Proof.
  intros Hf (parsed & Hparse & Hlooks & Hvalid & Hcast & Hbs & Hlen).
  apply (loadNotes_canonical R env fuel w f parsed d); try assumption.
  unfold bookmarksNeedInit. rewrite Hbs. apply negb_false_iff, Nat.eqb_eq, Hlen.
Qed.

Lemma asLoaded_pages (d : NotesData) (t : Z) : pages (asLoaded d t) = pages d.
Proof. unfold asLoaded. now destruct (fileModTimeMissing d). Qed.

Lemma asLoaded_bookmarks (d : NotesData) (t : Z) : bookmarks (asLoaded d t) = bookmarks d.
Proof. unfold asLoaded. now destruct (fileModTimeMissing d). Qed.

(** The run of [toggleBookmark] on a stored canonical document and an index
    of a page. *)
Lemma toggleBookmark_run (env : Env) (fuel : nat) (pageIndex : Z)
    (value : option bool) (w : World) (f : file) (d : NotesData) (bs : list bool) :
  notesFile (disk w) = Some f -> holds f d bs ->
  0 <= pageIndex < Z.of_nat (length (pages d)) ->
  let i := Z.to_nat pageIndex in
  let updated := set_bookmarks (asLoaded d (mtime f)) (Some (<[i := toggled bs i value]> bs)) in
  toggleBookmark env fuel pageIndex value w
  = (Return (Some (set_fileModTime (stamp env updated) (now env))),
     afterSave env updated (withWatermark w (mtime f))).
Proof.
  intros Hf Hholds Hrange i updated.
  pose proof (loadNotes_holds env fuel w f d bs Hf Hholds) as Hload.
  destruct Hholds as (parsed & _ & _ & _ & _ & Hbs & Hlen).
  assert (Hi : (i < length bs)%nat) by (unfold i; lia).
  unfold toggleBookmark. erewrite run_bind by exact Hload. cbv beta iota zeta.
  assert (Hneed : bookmarksNeedInit (asLoaded d (mtime f)) = false).
  { unfold bookmarksNeedInit. rewrite asLoaded_bookmarks, asLoaded_pages, Hbs.
    apply negb_false_iff, Nat.eqb_eq, Hlen. }
  rewrite Hneed.
  assert (Hvalid : invalidIndex (asLoaded d (mtime f)) pageIndex = false).
  { unfold invalidIndex. rewrite asLoaded_pages. apply orb_false_iff. split.
    - apply Z.ltb_ge. lia.
    - apply Z.leb_gt. lia. }
  rewrite Hvalid. rewrite asLoaded_bookmarks, Hbs. simpl default.
  rewrite Array_set_inside by exact Hi.
  erewrite run_bind; [reflexivity |].
  apply saveNotes_run. right. now apply noExternalChange_loaded.
Qed.

(** X3.  On a stored document that [loadNotes] takes as it is (valid, not
    in the legacy format, one bookmark flag per page) and an index of a
    page, [toggleBookmark] sets the flag at that index, to the value given
    or to the negation of the flag stored, leaves every other flag and the
    pages alone, and saves: the notes file then holds the updated document
    and the watermark is the time of the write. *)
Theorem toggleBookmark_sets_flag (env : Env) (fuel : nat) (pageIndex : Z)
    (value : option bool) (w : World) (f : file) (d : NotesData) (bs : list bool) :
  notesFile (disk w) = Some f -> holds f d bs ->
  0 <= pageIndex < Z.of_nat (length (pages d)) ->
  let i := Z.to_nat pageIndex in
  let updated := set_bookmarks (asLoaded d (mtime f)) (Some (<[i := toggled bs i value]> bs)) in
  exists d' w',
    toggleBookmark env fuel pageIndex value w = (Return (Some d'), w')
    /\ pages d' = pages d
    /\ bookmarks d' = Some (<[i := toggled bs i value]> bs)
    /\ notesFile (disk w')
       = Some {| content := JSON_stringify (toJson (stamp env updated)); mtime := now env |}
    /\ lastKnownModTime w' = now env.
Proof.
  intros Hf Hholds Hrange i updated.
  exists (set_fileModTime (stamp env updated) (now env)),
    (afterSave env updated (withWatermark w (mtime f))).
  split; [now apply toggleBookmark_run |].
  repeat split; simpl; now rewrite ?asLoaded_pages.
Qed.

(** X4.  On a stored document that [loadNotes] takes as it is (valid,
    version other than 0 and 1, one bookmark flag per page), in a runtime
    whose [JSON.parse] reads back what [JSON.stringify] writes, toggling the
    same page twice gives the bookmark flags back as they were: the second
    call reads what the first one wrote. *)
Theorem toggleBookmark_twice (env1 env2 : Env) (fuel : nat) (pageIndex : Z)
    (w : World) (f : file) (d : NotesData) (bs : list bool) :
  (forall v, JSON_parse (JSON_stringify v) = Some v) ->
  notesFile (disk w) = Some f -> holds f d bs ->
  0 <= pageIndex < Z.of_nat (length (pages d)) ->
  version d <> 0 -> version d <> 1 ->
  exists d1 w1 d2 w2 flag,
    bs !! Z.to_nat pageIndex = Some flag
    /\ toggleBookmark env1 fuel pageIndex None w = (Return (Some d1), w1)
    /\ bookmarks d1 = Some (<[Z.to_nat pageIndex := negb flag]> bs)
    /\ toggleBookmark env2 fuel pageIndex None w1 = (Return (Some d2), w2)
    /\ bookmarks d2 = Some bs
    /\ pages d2 = pages d.
Proof.
  intros Hlaw Hf Hholds Hrange Hv0 Hv1.
  set (i := Z.to_nat pageIndex).
  pose proof Hholds as (parsed & _ & _ & _ & _ & Hbs & Hlen).
  assert (Hi : (i < length bs)%nat) by (unfold i; lia).
  destruct (lookup_lt_is_Some_2 bs i Hi) as [flag Hflag].
  pose proof (toggleBookmark_run env1 fuel pageIndex None w f d bs Hf Hholds Hrange)
    as Hrun1.
  cbv zeta in Hrun1. fold i in Hrun1. unfold toggled in Hrun1. rewrite Hflag in Hrun1.
  simpl default in Hrun1.
  set (updated := set_bookmarks (asLoaded d (mtime f)) (Some (<[i := negb flag]> bs)))
    in Hrun1.
  set (w1 := afterSave env1 updated (withWatermark w (mtime f))) in Hrun1.
  assert (Hfile1 : notesFile (disk w1)
                   = Some {| content := JSON_stringify (toJson (stamp env1 updated));
                             mtime := now env1 |}) by reflexivity.
  assert (Hholds1 : holds {| content := JSON_stringify (toJson (stamp env1 updated));
                             mtime := now env1 |}
                      (stamp env1 updated) (<[i := negb flag]> bs)).
  { exists (toJson (stamp env1 updated)). simpl content.
    split; [apply Hlaw |]. split.
    - rewrite looksLegacy_toJson. simpl version. unfold asLoaded.
      apply orb_false_iff.
      destruct (fileModTimeMissing d); split; now apply Z.eqb_neq.
    - split; [apply isValidNotesData_toJson |]. split; [apply asNotesData_toJson |].
      split; [reflexivity |]. simpl pages. rewrite asLoaded_pages, length_insert. exact Hlen. }
  assert (Hrange1 : 0 <= pageIndex < Z.of_nat (length (pages (stamp env1 updated)))).
  { simpl pages. now rewrite asLoaded_pages. }
  pose proof (toggleBookmark_run env2 fuel pageIndex None w1 _ _ _
                Hfile1 Hholds1 Hrange1) as Hrun2.
  cbv zeta in Hrun2. fold i in Hrun2. unfold toggled in Hrun2.
  rewrite list_lookup_insert_eq in Hrun2 by exact Hi. simpl default in Hrun2.
  rewrite negb_involutive, list_insert_insert_eq in Hrun2.
  rewrite (list_insert_id bs i flag Hflag) in Hrun2.
  do 4 eexists. exists flag.
  split; [exact Hflag |]. split; [exact Hrun1 |]. split; [reflexivity |].
  split; [exact Hrun2 |]. split; [reflexivity |].
  simpl pages. rewrite asLoaded_pages. subst updated. simpl pages. apply asLoaded_pages.
Qed.

Lemma setBookmarks_loop_lookup (n : nat) (value : bool) (indices : list Z)
    (bs : list bool) (j : nat) (b : bool) :
  length bs = n -> bs !! j = Some b ->
  foldl (fun bs idx =>
           if (0 <=? idx) && (idx <? Z.of_nat n)
           then Array_set false bs (Z.to_nat idx) value
           else bs) bs indices !! j
  = Some (if decide (Z.of_nat j ∈ indices) then value else b).
Proof.
  revert bs b. induction indices as [| idx indices IH]; intros bs b Hlen Hj.
  - simpl foldl. destruct (decide (Z.of_nat j ∈ [])) as [Hin | _]; [inversion Hin | exact Hj].
  - simpl foldl. pose proof (lookup_lt_Some _ _ _ Hj) as Hlt.
    destruct ((0 <=? idx) && (idx <? Z.of_nat n)) eqn:Hin.
    + apply andb_true_iff in Hin as [H0 H1]. apply Z.leb_le in H0. apply Z.ltb_lt in H1.
      rewrite Array_set_inside by lia.
      destruct (decide (Z.to_nat idx = j)) as [Heq | Hne].
      * rewrite (IH _ value); [| now rewrite length_insert
                               | rewrite Heq; apply list_lookup_insert_eq; lia].
        destruct (decide (Z.of_nat j ∈ indices)), (decide (Z.of_nat j ∈ idx :: indices))
          as [| Hnot]; try reflexivity.
        -- exfalso. apply Hnot. now right.
        -- exfalso. apply Hnot, elem_of_cons. left. lia.
      * rewrite (IH _ b); [| now rewrite length_insert
                           | now rewrite list_lookup_insert_ne].
        destruct (decide (Z.of_nat j ∈ indices)) as [Hyes | Hno],
                 (decide (Z.of_nat j ∈ idx :: indices)) as [Hyes' | Hno'];
          try reflexivity.
        -- exfalso. apply Hno'. now right.
        -- exfalso. apply elem_of_cons in Hyes' as [Heq | ?]; [lia | contradiction].
    + rewrite (IH _ b Hlen Hj).
      destruct (decide (Z.of_nat j ∈ indices)) as [Hyes | Hno],
               (decide (Z.of_nat j ∈ idx :: indices)) as [Hyes' | Hno'];
        try reflexivity.
      * exfalso. apply Hno'. now right.
      * exfalso. apply elem_of_cons in Hyes' as [Heq | ?]; [| contradiction].
        apply andb_false_iff in Hin as [H0 | H1].
        -- apply Z.leb_gt in H0. lia.
        -- apply Z.ltb_ge in H1. lia.
Qed.

(** X5.  On a stored document that [loadNotes] takes as it is (valid, not
    in the legacy format, one bookmark flag per page), [setBookmarks] gives
    every page whose index is listed the value, leaves the flags of the
    other pages alone, and ignores the indices that are no page; it saves
    the result. *)
Theorem setBookmarks_sets_flags (env : Env) (fuel : nat) (indices : list Z)
    (value : bool) (w : World) (f : file) (d : NotesData) (bs : list bool) :
  notesFile (disk w) = Some f -> holds f d bs ->
  exists d' bs' w',
    setBookmarks env fuel indices value w = (Return (Some d'), w')
    /\ pages d' = pages d
    /\ bookmarks d' = Some bs'
    /\ length bs' = length bs
    /\ (forall j b, bs !! j = Some b ->
                    bs' !! j = Some (if decide (Z.of_nat j ∈ indices) then value else b))
    /\ notesFile (disk w')
       = Some {| content :=
                   JSON_stringify
                     (toJson (stamp env (set_bookmarks (asLoaded d (mtime f)) (Some bs'))));
                 mtime := now env |}.
Proof.
  intros Hf Hholds.
  pose proof (loadNotes_holds env fuel w f d bs Hf Hholds) as Hload.
  destruct Hholds as (parsed & _ & _ & _ & _ & Hbs & Hlen).
  set (bs' := foldl (fun bs idx =>
                       if (0 <=? idx) && (idx <? Z.of_nat (length (pages d)))
                       then Array_set false bs (Z.to_nat idx) value
                       else bs) bs indices).
  exists (set_fileModTime
            (stamp env (set_bookmarks (asLoaded d (mtime f)) (Some bs'))) (now env)),
    bs', (afterSave env (set_bookmarks (asLoaded d (mtime f)) (Some bs'))
            (withWatermark w (mtime f))).
  split; [| split; [simpl; apply asLoaded_pages | split; [reflexivity | split; [| split]]]].
  - unfold setBookmarks. erewrite run_bind by exact Hload. cbv beta iota zeta.
    assert (Hneed : bookmarksNeedInit (asLoaded d (mtime f)) = false).
    { unfold bookmarksNeedInit. rewrite asLoaded_bookmarks, asLoaded_pages, Hbs.
      apply negb_false_iff, Nat.eqb_eq, Hlen. }
    rewrite Hneed, asLoaded_bookmarks, asLoaded_pages, Hbs. simpl default. fold bs'.
    erewrite run_bind; [reflexivity |].
    apply saveNotes_run. right. now apply noExternalChange_loaded.
  - unfold bs'. rewrite setBookmarks_loop_length by exact Hlen. now symmetry.
  - intros j b Hj. unfold bs'. now apply setBookmarks_loop_lookup.
  - reflexivity.
Qed.
End Bookmarks.

(** In the reference runtime the file of a canonical document holds it. *)
Lemma canonicalFile_holds (d : NotesData) (bs : list bool) (t : Z) :
  version d <> 0 -> version d <> 1 ->
  bookmarks d = Some bs -> length bs = length (pages d) ->
  holds {| content := canonicalFile d; mtime := t |} d bs.
Proof.
  intros Hv0 Hv1 Hbs Hlen. exists (toJson d). split; [reflexivity |]. split.
  - rewrite looksLegacy_toJson. apply orb_false_iff. split; now apply Z.eqb_neq.
  - split; [apply isValidNotesData_toJson |]. split; [apply asNotesData_toJson |]. auto.
Qed.

Lemma toggleBookmark_sets_flag_witness :
  let env := sampleEnv manual 2 T2 in
  let d := sampleDoc editor (ref_toISOString T1) 0 ["p0"; "p1"] (Some [false; false]) in
  let f := {| content := canonicalFile d; mtime := T1 |} in
  let w := sampleWorld (Some (canonicalFile d, T1)) T1 in
  notesFile (disk w) = Some f
  /\ holds f d [false; false]
  /\ 0 <= 0 < Z.of_nat (length (pages d))
  /\ exists d' w',
       toggleBookmark env 1 0 None w = (Return (Some d'), w')
       /\ pages d' = ["p0"; "p1"]
       /\ bookmarks d' = Some [true; false].
Proof.
  intros env d f w.
  assert (H1 : notesFile (disk w) = Some f) by reflexivity.
  assert (H2 : holds f d [false; false])
    by (apply canonicalFile_holds; [discriminate | discriminate | reflexivity | reflexivity]).
  assert (H3 : 0 <= 0 < Z.of_nat (length (pages d))) by (simpl; lia).
  repeat (split; [assumption |]).
  destruct (toggleBookmark_sets_flag env 1 0 None w f d [false; false] H1 H2 H3)
    as (d' & w' & Hrun & Hp & Hb & _).
  exists d', w'. auto.
Defined.

Lemma toggleBookmark_twice_witness :
  let env1 := sampleEnv manual 2 T2 in
  let env2 := sampleEnv manual 2 (T2 + 5) in
  let d := sampleDoc editor (ref_toISOString T1) 0 ["p0"; "p1"] (Some [false; false]) in
  let f := {| content := canonicalFile d; mtime := T1 |} in
  let w := sampleWorld (Some (canonicalFile d, T1)) T1 in
  (forall v, JSON_parse (JSON_stringify v) = Some v)
  /\ notesFile (disk w) = Some f
  /\ holds f d [false; false]
  /\ 0 <= 0 < Z.of_nat (length (pages d))
  /\ version d <> 0 /\ version d <> 1
  /\ exists d1 w1 d2 w2,
       toggleBookmark env1 1 0 None w = (Return (Some d1), w1)
       /\ bookmarks d1 = Some [true; false]
       /\ toggleBookmark env2 1 0 None w1 = (Return (Some d2), w2)
       /\ bookmarks d2 = Some [false; false].
Proof.
  intros env1 env2 d f w.
  assert (H0 : forall v, @JSON_parse refRuntime (JSON_stringify v) = Some v)
    by (intros v; reflexivity).
  assert (H1 : notesFile (disk w) = Some f) by reflexivity.
  assert (H2 : holds f d [false; false])
    by (apply canonicalFile_holds; [discriminate | discriminate | reflexivity | reflexivity]).
  assert (H3 : 0 <= 0 < Z.of_nat (length (pages d))) by (simpl; lia).
  assert (H4 : version d <> 0) by discriminate.
  assert (H5 : version d <> 1) by discriminate.
  repeat (split; [assumption |]).
  destruct (toggleBookmark_twice env1 env2 1 0 w f d [false; false] H0 H1 H2 H3 H4 H5)
    as (d1 & w1 & d2 & w2 & flag & Hflag & Hrun1 & Hb1 & Hrun2 & Hb2 & _).
  injection Hflag as <-.
  exists d1, w1, d2, w2. auto.
Defined.

Lemma setBookmarks_sets_flags_witness :
  let env := sampleEnv manual 2 T2 in
  let d := sampleDoc editor (ref_toISOString T1) 0 ["p0"; "p1"; "p2"]
             (Some [false; true; false]) in
  let f := {| content := canonicalFile d; mtime := T1 |} in
  let w := sampleWorld (Some (canonicalFile d, T1)) T1 in
  notesFile (disk w) = Some f
  /\ holds f d [false; true; false]
  /\ exists d' bs' w',
       setBookmarks env 1 [2; 7; -1] true w = (Return (Some d'), w')
       /\ bookmarks d' = Some bs'
       /\ bs' !! 0%nat = Some false /\ bs' !! 2%nat = Some true.
Proof.
  intros env d f w.
  assert (H1 : notesFile (disk w) = Some f) by reflexivity.
  assert (H2 : holds f d [false; true; false])
    by (apply canonicalFile_holds; [discriminate | discriminate | reflexivity | reflexivity]).
  repeat (split; [assumption |]).
  destruct (setBookmarks_sets_flags env 1 [2; 7; -1] true w f d [false; true; false] H1 H2)
    as (d' & bs' & w' & Hrun & _ & Hb & _ & Hflags & _).
  exists d', bs', w'. repeat split; try assumption.
  - rewrite (Hflags 0%nat false eq_refl). reflexivity.
  - rewrite (Hflags 2%nat false eq_refl). reflexivity.
Defined.

(** ** Backups: names, listing, what a save keeps *)

Lemma substring_all (s : string) : String.substring 0 (String.length s) s = s.
Proof. induction s as [| c s IH]; simpl; [reflexivity | now rewrite IH]. Qed.

Lemma append_cons (x : Ascii.ascii) (a b : string) : String x a +:+ b = String x (a +:+ b).
Proof. reflexivity. Qed.

Lemma substring_append_r (a b : string) :
  String.substring (String.length a) (String.length b) (a +:+ b) = b.
Proof.
  induction a as [| c a IH]; [apply substring_all |].
  rewrite append_cons. exact IH.
Qed.

Lemma length_append (a b : string) :
  String.length (a +:+ b) = (String.length a + String.length b)%nat.
Proof.
  induction a as [| c a IH]; [reflexivity |].
  rewrite append_cons. simpl. now rewrite IH.
Qed.

Lemma endsWith_append (a b : string) : endsWith (a +:+ b) b = true.
Proof.
  unfold endsWith. rewrite length_append. apply andb_true_iff. split.
  - apply Nat.leb_le. lia.
  - replace (String.length a + String.length b - String.length b)%nat
      with (String.length a) by lia.
    rewrite substring_append_r. apply String.eqb_refl.
Qed.

Lemma append_assoc (a b c : string) : (a +:+ b) +:+ c = a +:+ (b +:+ c).
Proof.
  induction a as [| x a IH]; [reflexivity |].
  rewrite !append_cons. f_equal. exact IH.
Qed.

Lemma prefix_append (a b : string) : String.prefix a (a +:+ b) = true.
Proof.
  induction a as [| c a IH].
  - now destruct b.
  - rewrite append_cons. simpl. destruct (Ascii.ascii_dec c c); [exact IH | contradiction].
Qed.

Section Names.
Context `{R : Runtime}.

(** The file [createBackup] writes is one the rotation and the listing
    recognise; the backup of a migration is not. *)
Lemma isBackupName_backupFileName (env : Env) : isBackupName (backupFileName env) = true.
Proof.
  unfold isBackupName, backupFileName. apply andb_true_iff. split.
  - apply prefix_append.
  - rewrite <- (append_assoc "backup-" _ ".json"). apply endsWith_append.
Qed.

Lemma isBackupName_preMigrationFileName (env : Env) :
  isBackupName (preMigrationFileName env) = false.
Proof.
  unfold isBackupName, preMigrationFileName, startsWith. rewrite !append_cons.
  apply andb_false_iff. left. vm_compute. reflexivity.
Qed.
End Names.

Section Backups.
Context `{R : Runtime}.

Lemma getBackupList_run (w : World) :
  getBackupList w
  = (Return (match backupDir (disk w) with
             | Some dir => Array_sort newestFirst (backupEntries dir)
             | None => []
             end), w).
Proof.
  unfold getBackupList. destruct (backupDir (disk w)) as [dir |] eqn:Hdir.
  - apply run_try.
    erewrite run_bind by (rewrite readdir_backup_run, Hdir; reflexivity).
    erewrite run_bind; cycle 1.
    { apply (stat_all w dir); [exact Hdir |].
      intros name Hname. apply list_elem_of_filter in Hname as [_ Hname].
      apply list_elem_of_fmap in Hname as ([k f] & -> & Hkf).
      apply elem_of_map_to_list in Hkf. eauto. }
    reflexivity.
  - erewrite run_catch
      by (erewrite run_bind_throw;
          [reflexivity | rewrite readdir_backup_run, Hdir; reflexivity]).
    reflexivity.
Qed.

(** X6.  [getBackupList] changes nothing and never rejects.  It lists each file
    of the backup folder named [backup-*.json] once, with the time of its
    last modification, newest first, and nothing else; without a backup
    folder the list is empty. *)
Theorem getBackupList_lists (w : World) :
  exists l,
    getBackupList w = (Return l, w)
    /\ StronglySorted notOlder l
    /\ NoDup l.*1
    /\ (forall name t,
           (name, t) ∈ l <->
           isBackupName name = true
           /\ exists dir f, backupDir (disk w) = Some dir
                            /\ dir !! name = Some f /\ t = mtime f)
    /\ (backupDir (disk w) = None -> l = []).
Proof.
  eexists. split; [apply getBackupList_run |].
  destruct (backupDir (disk w)) as [dir |].
  - split; [apply newestFirst_sorted |]. split; [| split].
    + rewrite Array_sort_Permutation. apply backupEntries_NoDup.
    + intros name t. rewrite Array_sort_Permutation, elem_of_backupEntries. simpl.
      split.
      * intros (Hb & f & Hf & Ht). eauto 10.
      * intros (Hb & dir' & f & [= <-] & Hf & Ht). eauto.
    + discriminate.
  - split; [constructor |]. split; [constructor |]. split; [| reflexivity].
    intros name t. split; [intros Hin; inversion Hin |].
    intros (_ & dir & f & Hdir & _). discriminate.
Qed.

(** The newest backup, when strictly newer than every other one, stays as
    soon as one backup may stay. *)
Lemma pruneBackups_keeps_newest (max : Z) (dir : gmap string file)
    (name : string) (f : file) :
  1 <= max ->
  isBackupName name = true -> dir !! name = Some f ->
  (forall name' f', name' <> name -> isBackupName name' = true ->
                    dir !! name' = Some f' -> mtime f' < mtime f) ->
  pruneBackups max dir !! name = Some f.
Proof.
  intros Hmax Hname Hf Hnewest. rewrite lookup_pruneBackups.
  destruct (decide (name ∈ (filesToDelete max dir).*1)) as [Hdel | _]; [| exact Hf].
  exfalso.
  apply list_elem_of_fmap in Hdel as (e & He1 & He).
  pose proof (filesToDelete_sub _ _ _ He) as Hentry.
  apply elem_of_backupEntries in Hentry as (_ & f0 & Hf0 & Hm).
  rewrite <- He1, Hf in Hf0. injection Hf0 as <-.
  assert (H0 : 0 <= max) by lia.
  pose proof (newestFirst_sorted (backupEntries dir)) as Hsorted.
  pose proof (backupEntries_NoDup dir) as Hnd.
  rewrite <- (Array_sort_Permutation newestFirst) in Hnd.
  unfold filesToDelete in He. rewrite Array_slice_drop in He by exact H0.
  rewrite <- (take_drop (Z.to_nat max) (Array_sort newestFirst (backupEntries dir)))
    in Hsorted, Hnd.
  destruct (take (Z.to_nat max) (Array_sort newestFirst (backupEntries dir)))
    as [| e0 kept] eqn:Htake.
  - apply (f_equal length) in Htake. rewrite length_take in Htake. simpl in Htake.
    apply list_elem_of_lookup in He as [i Hi]. apply lookup_lt_Some in Hi.
    rewrite length_drop in Hi. lia.
  - assert (Hin0 : e0 ∈ e0 :: kept) by left.
    pose proof (StronglySorted_app_1_elem_of _ _ _ _ _ Hsorted Hin0 He) as Hle.
    unfold notOlder in Hle.
    assert (He0 : e0 ∈ backupEntries dir).
    { rewrite <- (Array_sort_Permutation newestFirst),
        <- (take_drop (Z.to_nat max) (Array_sort newestFirst (backupEntries dir))), Htake.
      apply elem_of_app. left. left. }
    apply elem_of_backupEntries in He0 as (Hb0 & g & Hg & Hm0).
    assert (Hne : e0.1 <> name).
    { intros Heq. rewrite fmap_app in Hnd. apply NoDup_app in Hnd as (_ & Hdisj & _).
      apply (Hdisj e0.1).
      - apply list_elem_of_fmap. exists e0. split; [reflexivity | left].
      - apply list_elem_of_fmap. exists e. split; [congruence | exact He]. }
    pose proof (Hnewest _ _ Hne Hb0 Hg). lia.
Qed.

(** The backup folder a save leaves holds the text the save replaced. *)
Lemma afterSave_keeps_previous (env : Env) (d : NotesData) (w : World) (f : file) :
  enabled (backup (config env)) = true ->
  1 <= maxBackups (backup (config env)) ->
  notesFile (disk w) = Some f ->
  (forall dir name g, backupDir (disk w) = Some dir -> dir !! name = Some g ->
                      isBackupName name = true -> mtime g < now env) ->
  exists dir',
    backupDir (disk (afterSave env d w)) = Some dir'
    /\ dir' !! backupFileName env = Some {| content := content f; mtime := now env |}.
Proof.
  intros Hen Hmax Hf Hold.
  destruct (ensureStorageDirectory_run w) as (w1 & Hensure & _ & Hnf1 & Hbd1 & _).
  unfold afterSave. rewrite Hensure. simpl snd.
  rewrite createBackup_run, Hen, Hnf1, Hf. simpl snd.
  eexists. simpl backupDir.
  split; [reflexivity |]. rewrite Hbd1.
  apply pruneBackups_keeps_newest.
  - exact Hmax.
  - apply isBackupName_backupFileName.
  - apply lookup_insert_eq.
  - intros name' g Hne Hb Hg. rewrite lookup_insert_ne in Hg by congruence. simpl.
    destruct (backupDir (disk w)) as [dir |] eqn:Hdir; simpl in Hg.
    + eapply Hold; eauto.
    + rewrite lookup_empty in Hg. discriminate.
Qed.

(** X7.  A save that goes through leaves the text it replaces in the backup
    folder, provided backups are enabled, at least one may stay and every
    backup already there is older than the save. *)
Theorem saveNotes_keeps_previous (env : Env) (fuel : nat) (d : NotesData)
    (skip : bool) (w : World) (f : file) :
  enabled (backup (config env)) = true ->
  1 <= maxBackups (backup (config env)) ->
  notesFile (disk w) = Some f ->
  skip = true \/ noExternalChange w ->
  (forall dir name g, backupDir (disk w) = Some dir -> dir !! name = Some g ->
                      isBackupName name = true -> mtime g < now env) ->
  exists saved w' dir',
    saveNotes env fuel d skip w = (Return saved, w')
    /\ backupDir (disk w') = Some dir'
    /\ dir' !! backupFileName env = Some {| content := content f; mtime := now env |}.
Proof.
  intros Hen Hmax Hf Hquiet Hold.
  destruct (afterSave_keeps_previous env d w f Hen Hmax Hf Hold) as (dir' & Hdir & Hkept).
  exists (set_fileModTime (stamp env d) (now env)), (afterSave env d w), dir'.
  split; [now apply saveNotes_run | split; assumption].
Qed.

(** X8.  With a maximum count of zero [createBackup] hands out the name of a
    backup it has already removed: no backup is left at all. *)
Theorem createBackup_zero_keeps_nothing (env : Env) (w w' : World) (path : string) :
  maxBackups (backup (config env)) = 0 ->
  createBackup env w = (Return (Some path), w') ->
  exists after,
    backupDir (disk w') = Some after
    /\ after !! path = None
    /\ (forall name, isBackupName name = true -> after !! name = None).
Proof.
  intros Hzero Hrun. rewrite createBackup_run in Hrun.
  destruct (enabled (backup (config env))); [| discriminate].
  destruct (notesFile (disk w)) as [f |]; [| discriminate].
  injection Hrun as <- <-. eexists. split; [reflexivity |].
  assert (Hnone : forall name, isBackupName name = true ->
            pruneBackups (maxBackups (backup (config env)))
              (<[backupFileName env := {| content := content f; mtime := now env |}]>
                 (default ∅ (backupDir (disk w)))) !! name = None).
  { intros name Hb.
    match goal with |- ?m !! name = None => destruct (m !! name) as [g |] eqn:Hg end;
      [| reflexivity].
    exfalso.
    pose proof (pruneBackups_count (maxBackups (backup (config env)))
                  (<[backupFileName env := {| content := content f; mtime := now env |}]>
                     (default ∅ (backupDir (disk w))))) as Hcount.
    rewrite Hzero in Hcount, Hg. specialize (Hcount (Z.le_refl 0)).
    assert (Hin : (name, mtime g) ∈ backupEntries
              (pruneBackups 0
                 (<[backupFileName env := {| content := content f; mtime := now env |}]>
                    (default ∅ (backupDir (disk w))))))
      by (apply elem_of_backupEntries; simpl; eauto).
    destruct (backupEntries _); [inversion Hin | simpl in Hcount; lia]. }
  split; [apply Hnone, isBackupName_backupFileName | exact Hnone].
Qed.

(** X9.  Whatever is not named [backup-*.json] outlives every [createBackup]:
    the backup of a migration among them. *)
Theorem createBackup_spares_other_files (env env0 : Env) (w w' : World)
    (r : option string) (dir : gmap string file) :
  backupDir (disk w) = Some dir ->
  createBackup env w = (Return r, w') ->
  exists dir',
    backupDir (disk w') = Some dir'
    /\ (forall name, isBackupName name = false -> dir' !! name = dir !! name)
    /\ dir' !! preMigrationFileName env0 = dir !! preMigrationFileName env0.
Proof.
  intros Hdir Hrun. rewrite createBackup_run in Hrun.
  assert (Hname0 : isBackupName (preMigrationFileName env0) = false)
    by apply isBackupName_preMigrationFileName.
  destruct (enabled (backup (config env))) eqn:Hen;
    [destruct (notesFile (disk w)) as [f |] eqn:Hf |];
    injection Hrun as <- <-; try (exists dir; split; [exact Hdir |]; split; reflexivity).
  simpl backupDir. rewrite Hdir. simpl default. eexists. split; [reflexivity |].
  assert (Hother : forall name, isBackupName name = false ->
            pruneBackups (maxBackups (backup (config env)))
              (<[backupFileName env := {| content := content f; mtime := now env |}]> dir)
              !! name = dir !! name).
  { intros name Hname. rewrite pruneBackups_other by exact Hname.
    apply lookup_insert_ne. intros Heq.
    rewrite <- Heq, isBackupName_backupFileName in Hname. discriminate. }
  split; [exact Hother | apply Hother, Hname0].
Qed.
End Backups.

Lemma getBackupList_lists_witness :
  let w := threeBackups T1 (T1 + 1000) (T1 + 2000) in
  exists l,
    getBackupList w = (Return l, w)
    /\ StronglySorted notOlder l
    /\ NoDup l.*1
    /\ (forall name t,
           (name, t) ∈ l <->
           isBackupName name = true
           /\ exists dir f, backupDir (disk w) = Some dir
                            /\ dir !! name = Some f /\ t = mtime f)
    /\ (backupDir (disk w) = None -> l = []).
Proof. intros w. exact (getBackupList_lists w). Defined.

Lemma saveNotes_keeps_previous_witness :
  let env := sampleEnv manual 2 T2 in
  let old := sampleDoc editor (ref_toISOString T1) 0 ["A"] (Some [false]) in
  let d := sampleDoc editor (ref_toISOString T1) 0 ["A"; "B"] (Some [false; false]) in
  let f := {| content := canonicalFile old; mtime := T1 |} in
  let w := sampleWorld (Some (canonicalFile old, T1)) T1 in
  enabled (backup (config env)) = true
  /\ 1 <= maxBackups (backup (config env))
  /\ notesFile (disk w) = Some f
  /\ noExternalChange w
  /\ (forall dir name g, backupDir (disk w) = Some dir -> dir !! name = Some g ->
                         isBackupName name = true -> mtime g < now env)
  /\ exists saved w' dir',
       saveNotes env 1 d false w = (Return saved, w')
       /\ backupDir (disk w') = Some dir'
       /\ dir' !! backupFileName env = Some {| content := canonicalFile old; mtime := T2 |}.
Proof.
  intros env old d f w.
  assert (H1 : enabled (backup (config env)) = true) by reflexivity.
  assert (H2 : 1 <= maxBackups (backup (config env))) by (simpl; lia).
  assert (H3 : notesFile (disk w) = Some f) by reflexivity.
  assert (H4 : noExternalChange w) by (right; simpl; lia).
  assert (H5 : forall dir name g, backupDir (disk w) = Some dir -> dir !! name = Some g ->
                                  isBackupName name = true -> mtime g < now env)
    by (intros dir name g Hdir; discriminate Hdir).
  repeat (split; [assumption |]).
  exact (saveNotes_keeps_previous env 1 d false w f H1 H2 H3 (or_intror H4) H5).
Defined.

Lemma createBackup_zero_keeps_nothing_witness :
  let env := sampleEnv manual 0 T2 in
  let old := sampleDoc editor (ref_toISOString T1) 0 ["A"] (Some [false]) in
  let f := {| content := canonicalFile old; mtime := T1 |} in
  let w := sampleWorld (Some (canonicalFile old, T1)) T1 in
  maxBackups (backup (config env)) = 0
  /\ createBackup env w = (Return (Some (backupFileName env)), afterBackup env w f)
  /\ exists after,
       backupDir (disk (afterBackup env w f)) = Some after
       /\ after !! backupFileName env = None
       /\ (forall name, isBackupName name = true -> after !! name = None).
Proof.
  intros env old f w.
  assert (H1 : maxBackups (backup (config env)) = 0) by reflexivity.
  assert (H2 : createBackup env w
               = (Return (Some (backupFileName env)), afterBackup env w f))
    by (rewrite createBackup_run; reflexivity).
  repeat (split; [assumption |]).
  exact (createBackup_zero_keeps_nothing env w _ _ H1 H2).
Defined.

Lemma createBackup_spares_other_files_witness :
  let env := sampleEnv manual 0 T2 in
  let old := sampleDoc editor (ref_toISOString T1) 0 ["A"] (Some [false]) in
  let f := {| content := canonicalFile old; mtime := T1 |} in
  let w := withBackups (sampleWorld (Some (canonicalFile old, T1)) T1)
             [(preMigrationFileName (sampleEnv manual 0 T1), (legacyFile, T1))] in
  let dir := list_to_map [(preMigrationFileName (sampleEnv manual 0 T1),
                           {| content := legacyFile; mtime := T1 |})] in
  backupDir (disk w) = Some dir
  /\ createBackup env w = (Return (Some (backupFileName env)), afterBackup env w f)
  /\ exists dir',
       backupDir (disk (afterBackup env w f)) = Some dir'
       /\ (forall name, isBackupName name = false -> dir' !! name = dir !! name)
       /\ dir' !! preMigrationFileName (sampleEnv manual 0 T1)
          = dir !! preMigrationFileName (sampleEnv manual 0 T1).
Proof.
  intros env old f w dir.
  assert (H1 : backupDir (disk w) = Some dir) by reflexivity.
  assert (H2 : createBackup env w
               = (Return (Some (backupFileName env)), afterBackup env w f))
    by (rewrite createBackup_run; reflexivity).
  repeat (split; [assumption |]).
  exact (createBackup_spares_other_files env (sampleEnv manual 0 T1) w _ _ dir H1 H2).
Defined.

(** ** Conflicts and the watermark *)

Section Watermark.
Context `{R : Runtime}.

(** Whatever the way through the conflict check, a save that resolves has
    written the stamped document and moved the watermark to the time of the
    write. *)
Lemma saveNotes_Return_world (env : Env) (fuel : nat) (d : NotesData) (skip : bool)
    (w : World) (d' : NotesData) (w' : World) :
  saveNotes env fuel d skip w = (Return d', w') ->
  notesFile (disk w')
  = Some {| content := JSON_stringify (toJson (stamp env d)); mtime := now env |}
  /\ lastKnownModTime w' = now env.
Proof.
  rewrite saveNotes_unfold. unfold saveNotes_body. intros H.
  apply bind_Return in H as (? & w1 & _ & H).
  apply bind_Return in H as (? & w2 & _ & H).
  apply bind_Return in H as (? & w3 & _ & H).
  apply bind_Return in H as (r & w4 & _ & H).
  apply bind_Return in H as (? & w5 & Hwrite & H).
  apply bind_Return in H as (t & w6 & Hstat & H).
  apply bind_Return in H as (? & w7 & Hset & H).
  apply ret_Return in H as [<- <-].
  unfold writeFile_notes, bind, getWorld, putDisk, throw in Hwrite.
  destruct (storageDir (disk w4)); [| discriminate]. injection Hwrite as _ <-.
  unfold stat_notes, bind, getWorld, ret in Hstat. simpl in Hstat. injection Hstat as <- <-.
  unfold set_lastKnownModTime in Hset. injection Hset as _ <-. simpl.
  split; reflexivity.
Qed.

Lemma onDidChange_run (w : World) :
  onDidChange w
  = if suppressFileWatcherEvents w then (Return false, w)
    else match notesFile (disk w) with
         | Some f => if lastKnownModTime w <? mtime f
                     then (Return true, withWatermark w (mtime f))
                     else (Return false, w)
         | None => (Return false, w)
         end.
Proof.
  unfold onDidChange. erewrite run_bind by reflexivity.
  destruct (suppressFileWatcherEvents w); [reflexivity |].
  destruct w as [[sd nf bd] lk sup mig].
  destruct nf as [f |]; [| reflexivity].
  cbv [try_catch bind ret getWorld stat_notes set_lastKnownModTime withWatermark
       disk notesFile lastKnownModTime suppressFileWatcherEvents migrationCompleted].
  destruct (lk <? mtime f); reflexivity.
Qed.

(** X10.  The service does not take its own write for an external change: after
    a save that resolved, a change event of the watcher calls nothing and
    leaves the world as it is. *)
Theorem onDidChange_after_save (env : Env) (fuel : nat) (d : NotesData) (skip : bool)
    (w : World) (d' : NotesData) (w' : World) :
  saveNotes env fuel d skip w = (Return d', w') ->
  onDidChange w' = (Return false, w').
Proof.
  intros Hsave. apply saveNotes_Return_world in Hsave as [Hfile Hmark].
  rewrite onDidChange_run, Hfile, Hmark. simpl mtime.
  rewrite Z.ltb_irrefl. now destruct (suppressFileWatcherEvents w').
Qed.

(** X11.  An external write is reported once.  The first change event after it
    calls [onExternalChange] and moves the watermark to the time of that
    write; a second event calls nothing; and from then on a save finds no
    conflict, whatever the policy, and overwrites the external text. *)
Theorem onDidChange_reports_once (env : Env) (fuel : nat) (d : NotesData)
    (w : World) (f : file) :
  suppressFileWatcherEvents w = false ->
  notesFile (disk w) = Some f ->
  lastKnownModTime w < mtime f ->
  let w1 := withWatermark w (mtime f) in
  onDidChange w = (Return true, w1)
  /\ onDidChange w1 = (Return false, w1)
  /\ exists saved w2,
       saveNotes env fuel d false w1 = (Return saved, w2)
       /\ notesFile (disk w2)
          = Some {| content := JSON_stringify (toJson (stamp env d)); mtime := now env |}.
Proof.
  intros Hsup Hfile Hnewer w1. split; [| split].
  - rewrite onDidChange_run, Hsup, Hfile.
    now rewrite (proj2 (Z.ltb_lt _ _) Hnewer).
  - rewrite onDidChange_run. unfold w1. simpl. rewrite Hsup, Hfile.
    now rewrite Z.ltb_irrefl.
  - do 2 eexists. split.
    + apply saveNotes_run. right. now apply noExternalChange_loaded.
    + reflexivity.
Qed.

(** While the suppression flag is set no handler of the watcher calls
    [onExternalChange]; a create or delete event calls it otherwise, without
    looking at the file. *)
Theorem watcher_suppressed (w : World) :
  (suppressFileWatcherEvents w = true ->
   onDidChange w = (Return false, w)
   /\ onDidCreate w = (Return false, w)
   /\ onDidDelete w = (Return false, w))
  /\ (suppressFileWatcherEvents w = false ->
      onDidCreate w = (Return true, w) /\ onDidDelete w = (Return true, w)).
Proof.
  split; intros Hsup.
  - rewrite onDidChange_run. unfold onDidCreate, onDidDelete.
    erewrite !run_bind by reflexivity. rewrite Hsup. auto.
  - unfold onDidCreate, onDidDelete. erewrite !run_bind by reflexivity.
    rewrite Hsup. auto.
Qed.

(** [loadNotes], whatever the [saveNotes] it is given, on a stored canonical
    document whose bookmark flags match its pages. *)
Lemma loadNotes_body_holds (env : Env) (save : NotesData -> M NotesData) (w : World)
    (f : file) (d : NotesData) (bs : list bool) :
  notesFile (disk w) = Some f -> holds f d bs ->
  loadNotes_body env save w
  = (Return (Some (asLoaded d (mtime f))), withWatermark w (mtime f)).
Proof.
  intros Hfile (parsed & Hparse & Hlooks & Hvalid & Hcast & Hbs & Hlen).
  destruct w as [[sd nf bd] lk sup mig]. simpl in Hfile. subst nf.
  cbv [loadNotes_body bind ret throw try_catch getWorld putDisk
       readFile_notes stat_notes liftValid set_lastKnownModTime negb
       disk storageDir notesFile backupDir lastKnownModTime].
  rewrite Hparse, Hlooks, Hvalid, Hcast.
  assert (Hneed : bookmarksNeedInit d = false).
  { unfold bookmarksNeedInit. rewrite Hbs. apply negb_false_iff, Nat.eqb_eq, Hlen. }
  unfold asLoaded. destruct (fileModTimeMissing d).
  - change (bookmarksNeedInit (set_fileModTime d (mtime f))) with (bookmarksNeedInit d).
    rewrite Hneed. reflexivity.
  - rewrite Hneed. reflexivity.
Qed.

(** X12.  Under the policy [timestamp], with the watermark set and the notes
    file modified after it, an external version that [loadNotes] takes as
    it is (valid, not in the legacy format, one bookmark flag per page) and
    that has a strictly later [lastModified] stops the save with
    [CONFLICT_EXTERNAL_NEWER] and nothing is written.  The load made for the
    comparison has moved the watermark to the external write, though: the
    same save, repeated, goes through and replaces the newer external
    version. *)
Theorem saveNotes_external_newer_once (env env2 : Env) (fuel : nat) (d : NotesData)
    (w : World) (f : file) (ext : NotesData) (bs : list bool) (a b : Z) :
  conflictResolution (sync (config env)) = timestamp ->
  0 < lastKnownModTime w ->
  notesFile (disk w) = Some f ->
  lastKnownModTime w < mtime f ->
  holds f ext bs ->
  Date_getTime (lastModified ext) = Some a ->
  Date_getTime (lastModified d) = Some b ->
  b < a ->
  exists w1 saved w2,
    saveNotes env fuel d false w = (Throw (Error "CONFLICT_EXTERNAL_NEWER"), w1)
    /\ notesFile (disk w1) = Some f
    /\ backupDir (disk w1) = backupDir (disk w)
    /\ lastKnownModTime w1 = mtime f
    /\ saveNotes env2 fuel d false w1 = (Return saved, w2)
    /\ notesFile (disk w2)
       = Some {| content := JSON_stringify (toJson (stamp env2 d)); mtime := now env2 |}.
Proof.
  intros Hpolicy Hset Hfile Hnewer Hholds Ha Hb Hlt.
  destruct (ensureStorageDirectory_run w)
    as (w0 & Hensure & _ & Hnf0 & Hbd0 & Hlk0 & _ & _).
  exists (withWatermark w0 (mtime f)). do 2 eexists.
  assert (Hrun : saveNotes env fuel d false w
                 = (Throw (Error "CONFLICT_EXTERNAL_NEWER"), withWatermark w0 (mtime f))).
  { rewrite saveNotes_unfold. unfold saveNotes_body.
    erewrite run_bind by exact Hensure. erewrite run_bind by reflexivity.
    rewrite Hlk0, (proj2 (Z.ltb_lt _ _) Hset). simpl negb. simpl andb. cbv iota.
    erewrite run_bind_throw; [reflexivity |].
    erewrite run_catch; cycle 1.
    { erewrite run_bind by (unfold stat_notes; erewrite run_bind by reflexivity;
                            rewrite Hnf0, Hfile; reflexivity).
      erewrite run_bind by reflexivity.
      rewrite Hlk0, (proj2 (Z.ltb_lt _ _) Hnewer), Hpolicy.
      erewrite run_bind
        by (apply (loadNotes_body_holds env _ w0 f ext bs); [congruence | exact Hholds]).
      cbv beta iota.
      replace (lastModified (asLoaded ext (mtime f))) with (lastModified ext)
        by (unfold asLoaded; now destruct (fileModTimeMissing ext)).
      rewrite Ha, Hb. unfold js_gt. rewrite bool_decide_eq_true_2 by exact Hlt.
      reflexivity. }
    reflexivity. }
  split; [exact Hrun |]. split; [simpl; congruence |]. split; [simpl; congruence |].
  split; [reflexivity |]. split.
  - apply saveNotes_run. right. apply noExternalChange_loaded. congruence.
  - reflexivity.
Qed.
End Watermark.

Lemma onDidChange_after_save_witness :
  let env := sampleEnv manual 2 T2 in
  let d := sampleDoc editor (ref_toISOString T1) 0 ["A"] (Some [false]) in
  let w := sampleWorld None 0 in
  saveNotes env 1 d false w
  = (Return (set_fileModTime (stamp env d) (now env)), afterSave env d w)
  /\ onDidChange (afterSave env d w) = (Return false, afterSave env d w).
Proof.
  intros env d w.
  assert (H1 : saveNotes env 1 d false w
               = (Return (set_fileModTime (stamp env d) (now env)), afterSave env d w))
    by (apply saveNotes_run; right; left; simpl; lia).
  split; [exact H1 |].
  exact (onDidChange_after_save env 1 d false w _ _ H1).
Defined.

Lemma onDidChange_reports_once_witness :
  let env := sampleEnv manual 2 T2 in
  let d := sampleDoc editor (ref_toISOString T1) 0 ["mine"] (Some [false]) in
  let theirs := sampleDoc editor (ref_toISOString T1) 0 ["theirs"] (Some [false]) in
  let f := {| content := canonicalFile theirs; mtime := T1 + 5 |} in
  let w := sampleWorld (Some (canonicalFile theirs, T1 + 5)) T1 in
  let w1 := withWatermark w (mtime f) in
  suppressFileWatcherEvents w = false
  /\ notesFile (disk w) = Some f
  /\ lastKnownModTime w < mtime f
  /\ onDidChange w = (Return true, w1)
  /\ onDidChange w1 = (Return false, w1)
  /\ exists saved w2,
       saveNotes env 1 d false w1 = (Return saved, w2)
       /\ notesFile (disk w2)
          = Some {| content := JSON_stringify (toJson (stamp env d)); mtime := now env |}.
Proof.
  intros env d theirs f w w1.
  assert (H1 : suppressFileWatcherEvents w = false) by reflexivity.
  assert (H2 : notesFile (disk w) = Some f) by reflexivity.
  assert (H3 : lastKnownModTime w < mtime f) by (simpl; lia).
  repeat (split; [assumption |]).
  exact (onDidChange_reports_once env 1 d w f H1 H2 H3).
Defined.

Lemma watcher_suppressed_witness :
  let w := (setSuppressFileWatcher true (sampleWorld None 0)).2 in
  suppressFileWatcherEvents w = true
  /\ onDidChange w = (Return false, w)
  /\ onDidCreate w = (Return false, w)
  /\ onDidDelete w = (Return false, w).
Proof.
  intros w.
  assert (H1 : suppressFileWatcherEvents w = true) by reflexivity.
  split; [exact H1 |].
  exact (proj1 (watcher_suppressed w) H1).
Defined.

Lemma saveNotes_external_newer_once_witness :
  let env := sampleEnv timestamp 2 T2 in
  let env2 := sampleEnv timestamp 2 (T2 + 1000) in
  let d := sampleDoc editor (ref_toISOString T1) 0 ["mine"] (Some [false]) in
  let ext := sampleDoc editor (ref_toISOString (T1 + 7)) 0 ["theirs"] (Some [false]) in
  let f := {| content := canonicalFile ext; mtime := T1 + 9 |} in
  let w := sampleWorld (Some (canonicalFile ext, T1 + 9)) T1 in
  conflictResolution (sync (config env)) = timestamp
  /\ 0 < lastKnownModTime w
  /\ notesFile (disk w) = Some f
  /\ lastKnownModTime w < mtime f
  /\ holds f ext [false]
  /\ Date_getTime (lastModified ext) = Some (T1 + 7)
  /\ Date_getTime (lastModified d) = Some T1
  /\ T1 < T1 + 7
  /\ exists w1 saved w2,
       saveNotes env 1 d false w = (Throw (Error "CONFLICT_EXTERNAL_NEWER"), w1)
       /\ notesFile (disk w1) = Some f
       /\ backupDir (disk w1) = backupDir (disk w)
       /\ lastKnownModTime w1 = mtime f
       /\ saveNotes env2 1 d false w1 = (Return saved, w2)
       /\ notesFile (disk w2)
          = Some {| content := JSON_stringify (toJson (stamp env2 d)); mtime := now env2 |}.
Proof.
  intros env env2 d ext f w.
  assert (H1 : conflictResolution (sync (config env)) = timestamp) by reflexivity.
  assert (H2 : 0 < lastKnownModTime w) by (vm_compute; reflexivity).
  assert (H3 : notesFile (disk w) = Some f) by reflexivity.
  assert (H4 : lastKnownModTime w < mtime f) by (simpl; lia).
  assert (H5 : holds f ext [false])
    by (apply canonicalFile_holds; [discriminate | discriminate | reflexivity | reflexivity]).
  assert (H6 : Date_getTime (lastModified ext) = Some (T1 + 7)) by (vm_compute; reflexivity).
  assert (H7 : Date_getTime (lastModified d) = Some T1) by (vm_compute; reflexivity).
  assert (H8 : T1 < T1 + 7) by lia.
  repeat (split; [assumption |]).
  exact (saveNotes_external_newer_once env env2 1 d w f ext [false] (T1 + 7) T1
           H1 H2 H3 H4 H5 H6 H7 H8).
Defined.

(** ** How deep [saveNotes] and [loadNotes] call each other *)

Section Nesting.
Context `{R : Runtime}.
Variable env : Env.

Lemma run_bind_halt {A B} (c : M A) (k : A -> M B) (w w1 : World) (s : Stuck) :
  c w = (Halt s, w1) -> bind c k w = (Halt s, w1).
Proof. unfold bind. now intros ->. Qed.

Lemma try_catch_unfold {A} (c : M A) (h : Err -> M A) (w : World) :
  try_catch c h w = match c w with
                    | (Throw e, w') => h e w'
                    | r => r
                    end.
Proof. reflexivity. Qed.

Lemma readFile_notes_run (w : World) (f : file) :
  notesFile (disk w) = Some f -> readFile_notes w = (Return (content f), w).
Proof. intros H. unfold readFile_notes, bind, getWorld. now rewrite H. Qed.

Lemma stat_notes_run (w : World) (f : file) :
  notesFile (disk w) = Some f -> stat_notes w = (Return (mtime f), w).
Proof. intros H. unfold stat_notes, bind, getWorld. now rewrite H. Qed.

(** The attempt of [loadNotes] to migrate a legacy file: it yields the
    migrated document, or nothing with the notes file as it was. *)
Lemma migration_attempt (parsed : json) (w : World) (f : file) :
  notesFile (disk w) = Some f ->
  exists r w',
    try_catch
      (ensureBackupDirectory ;;;
       copyFile_notes_to_backup (now env) (preMigrationFileName env) ;;;
       migrated <- convertLegacyParsed env parsed ;;
       writeFile_notes (now env) (JSON_stringify (toJson migrated)) ;;;
       ret (Some migrated))
      (fun _ => ret None) w = (r, w')
    /\ (r = Halt IllTyped
        \/ (exists m, r = Return (Some m))
        \/ (r = Return None /\ notesFile (disk w') = Some f)).
Proof.
  destruct w as [[sd nf bd] lk sup mig]. simpl. intros ->.
  cbv [try_catch bind ret throw halt getWorld putDisk ensureBackupDirectory
       copyFile_notes_to_backup writeFile_notes convertLegacyParsed
       disk storageDir notesFile backupDir lastKnownModTime
       suppressFileWatcherEvents migrationCompleted].
  destruct bd as [dir |];
    (destruct (prop parsed "pages") as [[] |];
     [..| do 2 eexists; split; [reflexivity | right; right; split; reflexivity]]);
    try (do 2 eexists; split; [reflexivity | right; right; split; reflexivity]);
    (destruct (asLegacyNotesData parsed) as [l |];
     [| do 2 eexists; split; [reflexivity | left; reflexivity]]);
    try (destruct sd);
    do 2 eexists; (split; [reflexivity |]); eauto.
Qed.

Ltac outer_try :=
  repeat match goal with
         | |- try_catch ?c ?h ?w = _ => rewrite (try_catch_unfold c h w)
         | |- _ = try_catch ?c ?h ?w => rewrite (try_catch_unfold c h w)
         end.

(** [loadNotes] either does not call [saveNotes] at all, or calls it once,
    as the last thing it does, in a world where the watermark is the
    modification time of the notes file. *)
Lemma loadNotes_body_shape (w : World) :
  (exists r, (forall save, loadNotes_body env save w = r) /\ r.1 <> Halt OutOfFuel)
  \/ (exists d w',
        noExternalChange w'
        /\ forall save,
             loadNotes_body env save w
             = try_catch (saved <- save d ;; ret (Some saved))
                 (fun error => match error with
                               | ENOENT => ret None
                               | _ => throw error
                               end) w').
Proof.
  destruct (notesFile (disk w)) as [f |] eqn:Hfile.
  2: { left. exists (Return None, w). split; [intros save | discriminate].
       unfold loadNotes_body. outer_try.
       erewrite run_bind_throw
         by (unfold readFile_notes; erewrite run_bind by reflexivity;
             rewrite Hfile; reflexivity).
       reflexivity. }
  assert (Hread := readFile_notes_run w f Hfile).
  assert (Hstat := stat_notes_run w f Hfile).
  destruct (JSON_parse (content f)) as [parsed |] eqn:Hparse.
  2: { left. exists (Throw SyntaxError, w). split; [intros save | discriminate].
       unfold loadNotes_body. outer_try.
       erewrite run_bind by exact Hread. erewrite run_bind by exact Hstat.
       rewrite Hparse. reflexivity. }
  (* the world after the attempt to migrate, when the load goes on *)
  assert (Hmig : (exists r w1, (forall save, loadNotes_body env save w = (r, w1))
                               /\ r <> Halt OutOfFuel)
                 \/ exists w1,
                      notesFile (disk w1) = Some f
                      /\ forall save,
                           loadNotes_body env save w
                           = try_catch
                               (valid <- liftValid (isValidNotesData parsed) ;;
                                if negb valid then throw (Error "Invalid notes data format")
                                else
                                  match asNotesData parsed with
                                  | None => halt IllTyped
                                  | Some notesData =>
                                      set_lastKnownModTime (mtime f) ;;;
                                      let notesData :=
                                        if fileModTimeMissing notesData
                                        then set_fileModTime notesData (mtime f)
                                        else notesData in
                                      if bookmarksNeedInit notesData then
                                        saved <- save (initBookmarks notesData) ;;
                                        ret (Some saved)
                                      else ret (Some notesData)
                                  end)
                               (fun error => match error with
                                             | ENOENT => ret None
                                             | _ => throw error
                                             end) w1).
  { destruct (looksLegacy parsed) eqn:Hlooks.
    - destruct (migration_attempt parsed w f Hfile) as (r & w1 & Hrun & Hcases).
      destruct Hcases as [-> | [[m ->] | [-> Hfile1]]].
      + left. exists (Halt IllTyped), w1. split; [intros save | discriminate].
        unfold loadNotes_body. outer_try.
        erewrite run_bind by exact Hread. erewrite run_bind by exact Hstat.
        rewrite Hparse, Hlooks. cbv beta iota.
        erewrite run_bind_halt by exact Hrun. reflexivity.
      + left. exists (Return (Some m)), w1. split; [intros save | discriminate].
        unfold loadNotes_body. outer_try.
        erewrite run_bind by exact Hread. erewrite run_bind by exact Hstat.
        rewrite Hparse, Hlooks. cbv beta iota.
        erewrite run_bind by exact Hrun. reflexivity.
      + right. exists w1. split; [exact Hfile1 | intros save].
        unfold loadNotes_body. outer_try.
        erewrite run_bind by exact Hread. erewrite run_bind by exact Hstat.
        rewrite Hparse, Hlooks. cbv beta iota.
        erewrite run_bind by exact Hrun. reflexivity.
    - right. exists w. split; [exact Hfile | intros save].
      unfold loadNotes_body. outer_try.
      erewrite run_bind by exact Hread. erewrite run_bind by exact Hstat.
      rewrite Hparse, Hlooks. cbv beta iota.
      erewrite run_bind by reflexivity. reflexivity. }
  destruct Hmig as [(r & w1 & Hrun & Hr) | (w1 & Hfile1 & Hrun)].
  { left. exists (r, w1). split; [exact Hrun | exact Hr]. }
  destruct (isValidNotesData parsed) as [e | valid] eqn:Hvalid.
  { left. exists (match e with ENOENT => (Return None, w1) | _ => (Throw e, w1) end).
    split; [intros save | now destruct e].
    rewrite Hrun. outer_try. cbv [liftValid]. erewrite run_bind_throw by reflexivity.
    now destruct e. }
  destruct valid.
  2: { left. exists (Throw (Error "Invalid notes data format"), w1).
       split; [intros save | discriminate].
       rewrite Hrun. outer_try. cbv [liftValid]. erewrite run_bind by reflexivity.
       reflexivity. }
  destruct (asNotesData parsed) as [nd |] eqn:Hcast.
  2: { left. exists (Halt IllTyped, w1). split; [intros save | discriminate].
       rewrite Hrun. outer_try. cbv [liftValid]. erewrite run_bind by reflexivity.
       reflexivity. }
  destruct (bookmarksNeedInit
              (if fileModTimeMissing nd then set_fileModTime nd (mtime f) else nd))
    eqn:Hneed.
  - right.
    exists (initBookmarks
              (if fileModTimeMissing nd then set_fileModTime nd (mtime f) else nd)),
      (withWatermark w1 (mtime f)).
    split; [now apply noExternalChange_loaded | intros save].
    rewrite Hrun. outer_try. cbv [liftValid].
    erewrite (run_bind (ret true)) by reflexivity. cbv beta iota.
    change (negb true) with false. cbv iota.
    erewrite (run_bind (set_lastKnownModTime _)) by reflexivity. cbv beta iota zeta.
    rewrite Hneed. reflexivity.
  - left.
    exists (Return (Some (if fileModTimeMissing nd
                          then set_fileModTime nd (mtime f) else nd)),
            withWatermark w1 (mtime f)).
    split; [intros save | discriminate].
    rewrite Hrun. outer_try. cbv [liftValid].
    erewrite (run_bind (ret true)) by reflexivity. cbv beta iota.
    change (negb true) with false. cbv iota.
    erewrite (run_bind (set_lastKnownModTime _)) by reflexivity. cbv beta iota zeta.
    rewrite Hneed. reflexivity.
Qed.

Lemma loadNotes_body_ext (save save' : NotesData -> M NotesData) (w : World) :
  (forall d w', noExternalChange w' -> save d w' = save' d w') ->
  loadNotes_body env save w = loadNotes_body env save' w.
Proof.
  intros Hsame.
  destruct (loadNotes_body_shape w) as [(r & Hr & _) | (d & w' & Hq & Hr)].
  - now rewrite !Hr.
  - rewrite !Hr. unfold try_catch, bind. now rewrite (Hsame d w' Hq).
Qed.

Lemma loadNotes_body_finishes (save : NotesData -> M NotesData) (w : World) :
  (forall d w', noExternalChange w' -> (save d w').1 <> Halt OutOfFuel) ->
  (loadNotes_body env save w).1 <> Halt OutOfFuel.
Proof.
  intros Hfin.
  destruct (loadNotes_body_shape w) as [(r & Hr & Hne) | (d & w' & Hq & Hr)].
  - now rewrite Hr.
  - rewrite Hr. unfold try_catch, bind. specialize (Hfin d w' Hq).
    destruct (save d w') as [[a | e | s] w'']; simpl in *;
      [discriminate | destruct e; discriminate | congruence].
Qed.

Lemma bind_congr {A B} (c c' : M A) (k : A -> M B) (w : World) :
  c w = c' w -> bind c k w = bind c' k w.
Proof. unfold bind. now intros ->. Qed.

Lemma try_catch_congr {A} (c c' : M A) (h : Err -> M A) (w : World) :
  c w = c' w -> try_catch c h w = try_catch c' h w.
Proof. unfold try_catch. now intros ->. Qed.

Lemma bind_finishes {A B} (c : M A) (k : A -> M B) (w : World) :
  (c w).1 <> Halt OutOfFuel ->
  (forall a w1, c w = (Return a, w1) -> (k a w1).1 <> Halt OutOfFuel) ->
  (bind c k w).1 <> Halt OutOfFuel.
Proof.
  unfold bind. destruct (c w) as [[a | e | s] w1]; simpl; intros H1 H2;
    [now apply (H2 a w1) | discriminate | intros [= ->]; now apply H1].
Qed.

Lemma try_catch_finishes {A} (c : M A) (h : Err -> M A) (w : World) :
  (c w).1 <> Halt OutOfFuel ->
  (forall e w1, (h e w1).1 <> Halt OutOfFuel) ->
  (try_catch c h w).1 <> Halt OutOfFuel.
Proof.
  unfold try_catch. destruct (c w) as [[a | e | s] w1]; simpl; intros H1 H2;
    [discriminate | apply H2 | exact H1].
Qed.

(** [saveNotes] uses the [loadNotes] it is given through its results only. *)
Lemma saveNotes_body_ext (load load' : M (option NotesData)) (d : NotesData)
    (skip : bool) (w : World) :
  (forall w', load w' = load' w') ->
  saveNotes_body env load d skip w = saveNotes_body env load' d skip w.
Proof.
  intros Hload. unfold saveNotes_body.
  destruct (ensureStorageDirectory_run w) as (w1 & Hensure & _).
  erewrite !(run_bind ensureStorageDirectory) by exact Hensure.
  erewrite !(run_bind getWorld) by reflexivity. cbv beta.
  apply bind_congr.
  destruct (negb skip && (0 <? lastKnownModTime w1)); [| reflexivity].
  apply try_catch_congr.
  destruct (notesFile (disk w1)) as [f |] eqn:Hfile.
  - erewrite !(run_bind stat_notes) by (apply stat_notes_run; exact Hfile).
    erewrite !(run_bind getWorld) by reflexivity. cbv beta.
    destruct (lastKnownModTime w1 <? mtime f); [| reflexivity].
    destruct (conflictResolution (sync (config env))); [| reflexivity].
    apply bind_congr, Hload.
  - assert (Hstat : stat_notes w1 = (Throw ENOENT, w1))
      by (unfold stat_notes, bind, getWorld; now rewrite Hfile).
    erewrite !(run_bind_throw stat_notes) by exact Hstat. reflexivity.
Qed.

Ltac finishes := solve [simpl; discriminate | cbv; discriminate].

Lemma saveNotes_body_finishes (load : M (option NotesData)) (d : NotesData)
    (skip : bool) (w : World) :
  (forall w', (load w').1 <> Halt OutOfFuel) ->
  (saveNotes_body env load d skip w).1 <> Halt OutOfFuel.
Proof.
  intros Hload. unfold saveNotes_body.
  apply bind_finishes.
  { destruct (ensureStorageDirectory_run w) as (wa & -> & _). finishes. }
  intros _ wa _. apply bind_finishes; [finishes |]. intros wb wb' _.
  apply bind_finishes.
  { destruct (negb skip && (0 <? lastKnownModTime wb)); [| finishes].
    apply try_catch_finishes; [| intros e we; destruct e; finishes].
    apply bind_finishes.
    { unfold stat_notes, bind, getWorld. destruct (notesFile (disk _)); finishes. }
    intros t wc _. apply bind_finishes; [finishes |]. intros wd wd' _.
    destruct (lastKnownModTime wd <? t); [| finishes].
    destruct (conflictResolution (sync (config env))); [| finishes].
    apply bind_finishes; [apply Hload |].
    intros [ext |] wf _; [| finishes].
    destruct (js_gt _ _); finishes. }
  intros _ wg _. apply bind_finishes.
  { destruct (createBackup_keeps env wg) as (r & wh & -> & _). finishes. }
  intros _ wh _. apply bind_finishes.
  { unfold writeFile_notes, bind, getWorld. destruct (storageDir (disk _)); finishes. }
  intros _ wi _. apply bind_finishes.
  { unfold stat_notes, bind, getWorld. destruct (notesFile (disk _)); finishes. }
  intros t wj _. apply bind_finishes; finishes.
Qed.

(** X14.  The calls between [saveNotes] and [loadNotes] nest at most three deep
    (a save that compares with the external version loads it, and a load
    that repairs the bookmark flags saves them): the save made by a load
    finds the watermark the load has just set and loads nothing.  One unit
    of fuel for [saveNotes] and none for [loadNotes] is as good as any
    amount, and neither ever runs out of it. *)
Theorem saveNotes_loadNotes_nesting (fuel : nat) (d : NotesData) (skip : bool)
    (w : World) :
  saveNotes env (S fuel) d skip w = saveNotes env 1 d skip w
  /\ loadNotes env fuel w = loadNotes env 0 w
  /\ (saveNotes env 1 d skip w).1 <> Halt OutOfFuel
  /\ (loadNotes env 0 w).1 <> Halt OutOfFuel.
Proof.
  assert (Hsame : forall n m d0 w0, noExternalChange w0 ->
                    saveNotes env n d0 false w0 = saveNotes env m d0 false w0)
    by (intros; rewrite !saveNotes_run by (right; assumption); reflexivity).
  assert (Hfin : forall n d0 w0, noExternalChange w0 ->
                   (saveNotes env n d0 false w0).1 <> Halt OutOfFuel)
    by (intros; rewrite saveNotes_run by (right; assumption); discriminate).
  repeat split.
  - rewrite (saveNotes_unfold env (S fuel)), (saveNotes_unfold env 1).
    apply saveNotes_body_ext. intros w'.
    apply loadNotes_body_ext. intros d0 w0 Hq. now apply Hsame.
  - unfold loadNotes. apply loadNotes_body_ext. intros d0 w0 Hq. now apply Hsame.
  - rewrite (saveNotes_unfold env 1). apply saveNotes_body_finishes. intros w'.
    apply loadNotes_body_finishes. intros d0 w0 Hq. now apply Hfin.
  - unfold loadNotes. apply loadNotes_body_finishes. intros d0 w0 Hq. now apply Hfin.
Qed.
End Nesting.

(** ** [restoreFromBackup] *)

Section Restoring.
Context `{R : Runtime}.

Lemma readFile_backup_run (w : World) (name : string) (bf : file) :
  backupDir (disk w) ≫= (fun dir => dir !! name) = Some bf ->
  readFile_backup name w = (Return (content bf), w).
Proof. intros H. unfold readFile_backup, bind, getWorld. now rewrite H. Qed.

Lemma restoreFromBackup_run (env : Env) (fuel : nat) (name : string) (w : World)
    (bf : file) (parsed : json) (d : NotesData) :
  backupDir (disk w) ≫= (fun dir => dir !! name) = Some bf ->
  JSON_parse (content bf) = Some parsed ->
  isValidNotesData parsed = inr true ->
  asNotesData parsed = Some d ->
  restoreFromBackup env fuel name w = saveNotes env fuel d false w.
Proof.
  intros Hbf Hparse Hvalid Hcast. unfold restoreFromBackup.
  erewrite run_bind by (apply readFile_backup_run; exact Hbf).
  rewrite Hparse, Hvalid. unfold liftValid.
  erewrite run_bind by reflexivity. cbv beta. change (negb true) with false. cbv iota.
  now rewrite Hcast.
Qed.

(** X15.  Restoring the backup a save has made undoes that save: the notes file
    holds the document it held before the save, stamped anew, and the
    document handed out has the pages, the bookmark flags, the view state
    and the current page of the one before. *)
Theorem restoreFromBackup_undoes_save (env env2 : Env) (fuel : nat)
    (d d1 : NotesData) (skip : bool) (w : World) (f : file) (parsed : json) :
  enabled (backup (config env)) = true ->
  1 <= maxBackups (backup (config env)) ->
  notesFile (disk w) = Some f ->
  JSON_parse (content f) = Some parsed ->
  isValidNotesData parsed = inr true ->
  asNotesData parsed = Some d1 ->
  skip = true \/ noExternalChange w ->
  (forall dir name g, backupDir (disk w) = Some dir -> dir !! name = Some g ->
                      isBackupName name = true -> mtime g < now env) ->
  exists saved w1 restored w2,
    saveNotes env fuel d skip w = (Return saved, w1)
    /\ restoreFromBackup env2 fuel (backupFileName env) w1 = (Return restored, w2)
    /\ notesFile (disk w2)
       = Some {| content := JSON_stringify (toJson (stamp env2 d1)); mtime := now env2 |}
    /\ pages restored = pages d1
    /\ bookmarks restored = bookmarks d1
    /\ state restored = state d1
    /\ currentPage restored = currentPage d1.
Proof.
  intros Hon Hmax Hfile Hparse Hvalid Hcast Hquiet Holder.
  destruct (afterSave_keeps_previous env d w f Hon Hmax Hfile Holder)
    as (dir' & Hdir & Hkept).
  pose proof (saveNotes_run env fuel d skip w Hquiet) as Hsave.
  exists (set_fileModTime (stamp env d) (now env)), (afterSave env d w),
    (set_fileModTime (stamp env2 d1) (now env2)), (afterSave env2 d1 (afterSave env d w)).
  split; [exact Hsave |]. split.
  - rewrite (restoreFromBackup_run env2 fuel (backupFileName env) (afterSave env d w)
               {| content := content f; mtime := now env |} parsed d1);
      [| rewrite Hdir; exact Hkept | exact Hparse | exact Hvalid | exact Hcast].
    apply saveNotes_run. right. right. simpl. lia.
  - repeat split.
Qed.

(** X16.  A backup that is missing, that is no JSON text or that
    [isValidNotesData] does not accept is not restored: the call rejects
    and nothing is written. *)
Theorem restoreFromBackup_invalid_writes_nothing (env : Env) (fuel : nat)
    (name : string) (w : World) :
  (forall bf parsed,
      backupDir (disk w) ≫= (fun dir => dir !! name) = Some bf ->
      JSON_parse (content bf) = Some parsed ->
      isValidNotesData parsed <> inr true) ->
  exists e, restoreFromBackup env fuel name w = (Throw e, w).
Proof.
  intros Hbad. unfold restoreFromBackup.
  destruct (backupDir (disk w) ≫= (fun dir => dir !! name)) as [bf |] eqn:Hbf.
  - erewrite run_bind by (apply readFile_backup_run; exact Hbf).
    destruct (JSON_parse (content bf)) as [parsed |] eqn:Hparse; [| now exists SyntaxError].
    specialize (Hbad bf parsed eq_refl Hparse).
    destruct (isValidNotesData parsed) as [e | [|]]; [now exists e | congruence |].
    now exists (Error "Invalid backup data format").
  - exists ENOENT. unfold readFile_backup. erewrite run_bind_throw; [reflexivity |].
    erewrite run_bind by reflexivity. now rewrite Hbf.
Qed.
End Restoring.

(** ** [loadNotes] repairs the bookmark flags *)

Section Repair.
Context `{R : Runtime}.

Lemma loadNotes_missing (env : Env) (fuel : nat) (w : World) :
  notesFile (disk w) = None -> loadNotes env fuel w = (Return None, w).
Proof.
  intros Hfile. unfold loadNotes, loadNotes_body.
  assert (Hread : readFile_notes w = (Throw ENOENT, w))
    by (unfold readFile_notes, bind, getWorld; now rewrite Hfile).
  erewrite run_catch by (erewrite run_bind_throw by exact Hread; reflexivity).
  reflexivity.
Qed.

Lemma loadNotes_repair_run (env : Env) (fuel : nat) (w : World) (f : file)
    (parsed : json) (d : NotesData) :
  notesFile (disk w) = Some f ->
  JSON_parse (content f) = Some parsed ->
  looksLegacy parsed = false ->
  isValidNotesData parsed = inr true ->
  asNotesData parsed = Some d ->
  bookmarksNeedInit d = true ->
  let repaired := initBookmarks (asLoaded d (mtime f)) in
  loadNotes env fuel w
  = (Return (Some (set_fileModTime (stamp env repaired) (now env))),
     afterSave env repaired (withWatermark w (mtime f))).
Proof.
  intros Hfile Hparse Hlooks Hvalid Hcast Hneed repaired.
  assert (Hsave : saveNotes env fuel repaired false (withWatermark w (mtime f))
                  = (Return (set_fileModTime (stamp env repaired) (now env)),
                     afterSave env repaired (withWatermark w (mtime f))))
    by (apply saveNotes_run; right; now apply noExternalChange_loaded).
  unfold loadNotes, loadNotes_body.
  erewrite run_try; [reflexivity |].
  erewrite run_bind by (apply readFile_notes_run; exact Hfile).
  erewrite run_bind by (apply stat_notes_run; exact Hfile).
  rewrite Hparse, Hlooks. cbv beta iota.
  erewrite run_bind by reflexivity. cbv beta iota.
  rewrite Hvalid. unfold liftValid.
  erewrite run_bind by reflexivity. cbv beta.
  change (negb true) with false. cbv iota. rewrite Hcast.
  erewrite run_bind by reflexivity. cbv beta zeta.
  fold (asLoaded d (mtime f)).
  replace (bookmarksNeedInit (asLoaded d (mtime f))) with true
    by (unfold asLoaded; destruct (fileModTimeMissing d); now rewrite <- Hneed).
  fold repaired.
  erewrite run_bind by exact Hsave. reflexivity.
Qed.

(** X17.  A stored document whose bookmark flags are missing, or are not one per
    page, is handed out with one flag per page, all of them [false] (the
    flags of a list of the wrong length are dropped, not padded), and is
    written back at once in that form. *)
Theorem loadNotes_repairs_bookmarks (env : Env) (fuel : nat) (w : World) (f : file)
    (parsed : json) (d : NotesData) :
  notesFile (disk w) = Some f ->
  JSON_parse (content f) = Some parsed ->
  looksLegacy parsed = false ->
  isValidNotesData parsed = inr true ->
  asNotesData parsed = Some d ->
  ~ bookmarksMatchPages d ->
  exists loaded w',
    loadNotes env fuel w = (Return (Some loaded), w')
    /\ pages loaded = pages d
    /\ bookmarks loaded = Some (replicate (length (pages d)) false)
    /\ notesFile (disk w')
       = Some {| content :=
                   JSON_stringify
                     (toJson (stamp env (initBookmarks (asLoaded d (mtime f)))));
                 mtime := now env |}.
Proof.
  intros Hfile Hparse Hlooks Hvalid Hcast Hbad.
  assert (Hneed : bookmarksNeedInit d = true).
  { unfold bookmarksNeedInit. destruct (bookmarks d) as [bs |] eqn:Hbs; [| reflexivity].
    apply negb_true_iff, Nat.eqb_neq. intros Hlen. apply Hbad. now exists bs. }
  do 2 eexists. split.
  - apply (loadNotes_repair_run env fuel w f parsed d); assumption.
  - simpl. rewrite asLoaded_pages. repeat split.
Qed.
End Repair.

(** ** [checkForConflicts] *)

Section ConflictCheck.
Context `{R : Runtime}.

Lemma loadNotes_after_save (env env' : Env) (fuel' : nat) (d : NotesData) (w : World) :
  JSON_parse (JSON_stringify (toJson (stamp env d))) = Some (toJson (stamp env d)) ->
  version d <> 0 -> version d <> 1 ->
  bookmarksMatchPages d ->
  loadNotes env' fuel' (afterSave env d w)
  = (Return (Some (asLoaded (stamp env d) (now env))), afterSave env d w).
Proof.
  intros Hparse Hv0 Hv1 Hbm.
  rewrite (loadNotes_canonical R env' fuel' (afterSave env d w)
             {| content := JSON_stringify (toJson (stamp env d)); mtime := now env |}
             (toJson (stamp env d)) (stamp env d)).
  - reflexivity.
  - reflexivity.
  - exact Hparse.
  - rewrite looksLegacy_toJson. apply orb_false_iff. split; now apply Z.eqb_neq.
  - apply isValidNotesData_toJson.
  - apply asNotesData_toJson.
  - apply bookmarksNeedInit_false. destruct Hbm as (bs & Hbs & Hlen). now exists bs.
Qed.

(** X19.  After a save of a document of version other than 0 and 1 with one
    bookmark flag per page, in a runtime whose [JSON.parse] reads back what
    the save wrote, [checkForConflicts] writes nothing and reports a
    conflict exactly when it runs under another device id than the save;
    the document it then hands out as the remote one is the stored
    document. *)
Theorem checkForConflicts_after_save (env env' : Env) (fuel fuel' : nat)
    (d : NotesData) (skip : bool) (w : World) :
  JSON_parse (JSON_stringify (toJson (stamp env d))) = Some (toJson (stamp env d)) ->
  version d <> 0 -> version d <> 1 ->
  bookmarksMatchPages d ->
  skip = true \/ noExternalChange w ->
  exists saved w' r,
    saveNotes env fuel d skip w = (Return saved, w')
    /\ checkForConflicts env' fuel' w' = (Return r, w')
    /\ (hasConflict r = true <-> this_deviceId env <> this_deviceId env')
    /\ (hasConflict r = true ->
        exists ext, remoteData r = Some ext
                    /\ pages ext = pages d /\ deviceId ext = this_deviceId env).
Proof.
  intros Hparse Hv0 Hv1 Hbm Hquiet.
  pose proof (saveNotes_run env fuel d skip w Hquiet) as Hsave.
  pose proof (loadNotes_after_save env env' fuel' d w Hparse Hv0 Hv1 Hbm) as Hload.
  assert (Hdev : deviceId (asLoaded (stamp env d) (now env)) = this_deviceId env)
    by (unfold asLoaded; now destruct (fileModTimeMissing (stamp env d))).
  assert (Hpages : pages (asLoaded (stamp env d) (now env)) = pages d)
    by (rewrite asLoaded_pages; reflexivity).
  unfold checkForConflicts.
  destruct (String.eqb (this_deviceId env) (this_deviceId env')) eqn:Heq.
  - exists (set_fileModTime (stamp env d) (now env)), (afterSave env d w),
      {| hasConflict := false; remoteData := None |}.
    split; [exact Hsave |]. split.
    + erewrite run_bind by exact Hload. cbv beta iota. rewrite Hdev, Heq. reflexivity.
    + apply String.eqb_eq in Heq. split; [| discriminate].
      split; [discriminate | intros Hne; now destruct Hne].
  - exists (set_fileModTime (stamp env d) (now env)), (afterSave env d w),
      {| hasConflict := true; remoteData := Some (asLoaded (stamp env d) (now env)) |}.
    split; [exact Hsave |]. split.
    + erewrite run_bind by exact Hload. cbv beta iota. rewrite Hdev, Heq. reflexivity.
    + apply String.eqb_neq in Heq. split; [split; auto |].
      intros _. eexists. split; [reflexivity |]. split; assumption.
Qed.
End ConflictCheck.

(** ** Migrating *)

Section Migrating.
Context `{R : Runtime}.

(** X20.  Notes that are stored win over legacy data: when the notes file
    holds a document that [loadNotes] takes as it is (valid, not in the
    legacy format, one bookmark flag per page), [forceMigration] hands out
    the stored document and marks the migration as done; the legacy data it
    was given is dropped and the disk is left as it is. *)
Theorem forceMigration_keeps_existing (env : Env) (fuel : nat)
    (legacyData : LegacyNotesData) (w : World) (f : file) (d : NotesData)
    (bs : list bool) :
  notesFile (disk w) = Some f -> holds f d bs ->
  exists w',
    forceMigration env fuel legacyData w = (Return (asLoaded d (mtime f)), w')
    /\ disk w' = disk w
    /\ migrationCompleted w' = true.
Proof.
  intros Hfile Hholds.
  unfold forceMigration. erewrite run_bind by reflexivity.
  unfold migrateLegacyData.
  eexists. split.
  - erewrite run_try; [reflexivity |].
    erewrite run_bind
      by (apply (loadNotes_holds env fuel _ f d bs); [exact Hfile | exact Hholds]).
    cbv beta iota. erewrite run_bind by reflexivity. reflexivity.
  - split; reflexivity.
Qed.

(** X21.  Without a notes file [forceMigration] writes the legacy data as a
    document of version 2: the pages, the view state and the current page
    are those of the legacy data, no page is bookmarked, the migration is
    marked as done and the file watcher is still suppressed when the call
    resolves.  A load that follows hands out the same pages and flags
    without writing again. *)
Theorem forceMigration_writes_legacy (env env' : Env) (fuel fuel' : nat)
    (legacyData : LegacyNotesData) (w : World) :
  let converted := stamp env (convertLegacyData env legacyData) in
  notesFile (disk w) = None ->
  JSON_parse (JSON_stringify (toJson converted)) = Some (toJson converted) ->
  exists saved w' loaded,
    forceMigration env fuel legacyData w = (Return saved, w')
    /\ version saved = 2
    /\ pages saved = legacy_pages legacyData
    /\ state saved = legacy_state legacyData
    /\ currentPage saved = legacy_currentPage legacyData
    /\ bookmarks saved = Some (replicate (length (legacy_pages legacyData)) false)
    /\ notesFile (disk w')
       = Some {| content := JSON_stringify (toJson converted); mtime := now env |}
    /\ migrationCompleted w' = true
    /\ suppressFileWatcherEvents w' = true
    /\ loadNotes env' fuel' w' = (Return (Some loaded), w')
    /\ pages loaded = legacy_pages legacyData
    /\ bookmarks loaded = Some (replicate (length (legacy_pages legacyData)) false).
Proof.
  intros converted Hfile Hparse.
  set (w0 := (set_migrationCompleted false w).2).
  set (ws := (setSuppressFileWatcher true w0).2).
  assert (Hload0 : loadNotes env fuel w0 = (Return None, w0))
    by (apply loadNotes_missing; exact Hfile).
  assert (Hsave : saveNotes env fuel (convertLegacyData env legacyData) false ws
                  = (Return (set_fileModTime converted (now env)),
                     afterSave env (convertLegacyData env legacyData) ws)).
  { apply saveNotes_run. right. right. simpl. now rewrite Hfile. }
  set (w' := (set_migrationCompleted true
                (afterSave env (convertLegacyData env legacyData) ws)).2).
  exists (set_fileModTime converted (now env)), w', (asLoaded converted (now env)).
  split.
  { unfold forceMigration. erewrite run_bind by reflexivity. fold w0.
    unfold migrateLegacyData. erewrite run_try; [reflexivity |].
    erewrite run_bind by exact Hload0. cbv beta iota zeta.
    erewrite run_bind by reflexivity. fold ws.
    erewrite run_bind by exact Hsave.
    erewrite run_bind by reflexivity. reflexivity. }
  do 8 (split; [reflexivity |]).
  split.
  - rewrite (loadNotes_canonical R env' fuel' w'
               {| content := JSON_stringify (toJson converted); mtime := now env |}
               (toJson converted) converted).
    + reflexivity.
    + reflexivity.
    + exact Hparse.
    + rewrite looksLegacy_toJson. reflexivity.
    + apply isValidNotesData_toJson.
    + apply asNotesData_toJson.
    + unfold bookmarksNeedInit. simpl. unfold Array_fill_false.
      rewrite length_replicate. apply negb_false_iff, Nat.eqb_refl.
  - rewrite asLoaded_pages, asLoaded_bookmarks. split; reflexivity.
Qed.

(** X22.  The first start on a folder without a notes file: [checkAndMigrate]
    writes a document with one empty page and no bookmark flags, whatever
    the migration flag says; the next load adds the flag of that page and
    writes the document again. *)
Theorem checkAndMigrate_first_start (env env' : Env) (fuel fuel' : nat) (w : World) :
  let first := stamp env (createDefaultNotes env) in
  notesFile (disk w) = None ->
  JSON_parse (JSON_stringify (toJson first)) = Some (toJson first) ->
  exists saved w1 loaded w2,
    checkAndMigrate env fuel w = (Return saved, w1)
    /\ pages saved = [""%string]
    /\ bookmarks saved = None
    /\ notesFile (disk w1)
       = Some {| content := JSON_stringify (toJson first); mtime := now env |}
    /\ migrationCompleted w1 = true
    /\ loadNotes env' fuel' w1 = (Return (Some loaded), w2)
    /\ pages loaded = [""%string]
    /\ bookmarks loaded = Some [false]
    /\ notesFile (disk w2)
       = Some {| content :=
                   JSON_stringify
                     (toJson (stamp env' (initBookmarks (asLoaded first (now env)))));
                 mtime := now env' |}.
Proof.
  intros first Hfile Hparse.
  set (ws := (setSuppressFileWatcher true w).2).
  assert (Hload0 : loadNotes env fuel w = (Return None, w))
    by (apply loadNotes_missing; exact Hfile).
  assert (Hsave : saveNotes env fuel (createDefaultNotes env) false ws
                  = (Return (set_fileModTime first (now env)),
                     afterSave env (createDefaultNotes env) ws)).
  { apply saveNotes_run. right. right. simpl. now rewrite Hfile. }
  set (w1 := (set_migrationCompleted true (afterSave env (createDefaultNotes env) ws)).2).
  assert (Hmig : migrateLegacyData env fuel None w = (Return (set_fileModTime first (now env)), w1)).
  { unfold migrateLegacyData. erewrite run_try; [reflexivity |].
    erewrite run_bind by exact Hload0. cbv beta iota zeta.
    erewrite run_bind by reflexivity. fold ws.
    erewrite run_bind by exact Hsave.
    erewrite run_bind by reflexivity. reflexivity. }
  exists (set_fileModTime first (now env)), w1.
  do 2 eexists. split.
  { unfold checkAndMigrate. erewrite run_bind by reflexivity.
    destruct (migrationCompleted w).
    - erewrite run_bind by exact Hload0. exact Hmig.
    - erewrite run_bind by reflexivity. exact Hmig. }
  do 4 (split; [reflexivity |]).
  split.
  - apply (loadNotes_repair_run env' fuel' w1
             {| content := JSON_stringify (toJson first); mtime := now env |}
             (toJson first) first).
    + reflexivity.
    + exact Hparse.
    + rewrite looksLegacy_toJson. reflexivity.
    + apply isValidNotesData_toJson.
    + apply asNotesData_toJson.
    + reflexivity.
  - repeat split.
Qed.
End Migrating.

(** ** Backups of the legacy data *)

Section PreMigrationBackups.
Context `{R : Runtime}.

(** X23.  [createPreMigrationBackup] keeps the five most recent backups, the new
    one last: the new one restores to the legacy data that was backed up,
    the ones before it are the latest of those there were, in their order,
    and an index outside the list is rejected with [Invalid backup index]. *)
Theorem createPreMigrationBackup_keeps_last_five (env : Env)
    (legacyData : LegacyNotesData) (backups : list PreMigrationBackup) :
  let backups' := createPreMigrationBackup env legacyData backups in
  let dropped := (length backups + 1 - length backups')%nat in
  length backups' = Nat.min 5 (length backups + 1)
  /\ restoreFromPreMigrationBackup (Z.of_nat (length backups') - 1) backups'
     = inr legacyData
  /\ (forall i, 0 <= i < Z.of_nat (length backups') - 1 ->
                restoreFromPreMigrationBackup i backups'
                = restoreFromPreMigrationBackup (i + Z.of_nat dropped) backups)
  /\ (forall i, i < 0 \/ Z.of_nat (length backups') <= i ->
                restoreFromPreMigrationBackup i backups'
                = inl (Error "Invalid backup index")).
Proof.
  intros backups' dropped.
  set (b := {| backup_legacyData := legacyData; backupType := "pre-migration";
               backupDate := toISOString (now env) |}).
  set (k := Z.to_nat (Z.max (Z.of_nat (length (backups ++ [b])) + -5) 0)).
  assert (Hdef : backups' = drop k (backups ++ [b])) by reflexivity.
  assert (Hlenb : length (backups ++ [b]) = (length backups + 1)%nat)
    by (rewrite length_app; reflexivity).
  assert (Hk : k = (length backups + 1 - 5)%nat) by (unfold k; rewrite Hlenb; lia).
  assert (Hlen : length backups' = Nat.min 5 (length backups + 1))
    by (rewrite Hdef, length_drop, Hlenb; lia).
  assert (Hdropped : dropped = k) by (unfold dropped; lia).
  split; [exact Hlen |]. split; [| split].
  - unfold restoreFromPreMigrationBackup.
    replace ((Z.of_nat (length backups') - 1 <? 0)
             || (Z.of_nat (length backups') <=? Z.of_nat (length backups') - 1))
      with false by (symmetry; apply orb_false_iff; split; lia).
    rewrite Hdef at 2. rewrite lookup_drop.
    replace (k + Z.to_nat (Z.of_nat (length backups') - 1))%nat with (length backups) by lia.
    rewrite lookup_app_r by lia. now rewrite Nat.sub_diag.
  - intros i Hi. unfold restoreFromPreMigrationBackup.
    replace ((i <? 0) || (Z.of_nat (length backups') <=? i))
      with false by (symmetry; apply orb_false_iff; split; lia).
    replace ((i + Z.of_nat dropped <? 0)
             || (Z.of_nat (length backups) <=? i + Z.of_nat dropped))
      with false by (symmetry; apply orb_false_iff; split; lia).
    rewrite Hdef, lookup_drop, lookup_app_l by lia.
    now replace (Z.to_nat (i + Z.of_nat dropped)) with (k + Z.to_nat i)%nat by lia.
  - intros i Hi. unfold restoreFromPreMigrationBackup.
    replace ((i <? 0) || (Z.of_nat (length backups') <=? i)) with true; [reflexivity |].
    symmetry. apply orb_true_iff. lia.
Qed.
End PreMigrationBackups.

Lemma restoreFromBackup_undoes_save_witness :
  let env := sampleEnv manual 2 T2 in
  let env2 := sampleEnv manual 2 (T2 + 5000) in
  let d := sampleDoc editor (ref_toISOString T1) 0 ["new"] (Some [false]) in
  let d1 := sampleDoc render (ref_toISOString T1) 1 ["old"; "pages"] (Some [true; false]) in
  let f := {| content := canonicalFile d1; mtime := T1 |} in
  let w := sampleWorld (Some (canonicalFile d1, T1)) T1 in
  enabled (backup (config env)) = true
  /\ 1 <= maxBackups (backup (config env))
  /\ notesFile (disk w) = Some f
  /\ JSON_parse (content f) = Some (toJson d1)
  /\ isValidNotesData (toJson d1) = inr true
  /\ asNotesData (toJson d1) = Some d1
  /\ noExternalChange w
  /\ exists saved w1 restored w2,
       saveNotes env 1 d false w = (Return saved, w1)
       /\ restoreFromBackup env2 1 (backupFileName env) w1 = (Return restored, w2)
       /\ notesFile (disk w2)
          = Some {| content := JSON_stringify (toJson (stamp env2 d1)); mtime := now env2 |}
       /\ pages restored = pages d1
       /\ bookmarks restored = bookmarks d1
       /\ state restored = state d1
       /\ currentPage restored = currentPage d1.
Proof.
  intros env env2 d d1 f w.
  assert (H1 : enabled (backup (config env)) = true) by reflexivity.
  assert (H2 : 1 <= maxBackups (backup (config env))) by (simpl; lia).
  assert (H3 : notesFile (disk w) = Some f) by reflexivity.
  assert (H4 : JSON_parse (content f) = Some (toJson d1)) by reflexivity.
  assert (H5 : isValidNotesData (toJson d1) = inr true) by apply isValidNotesData_toJson.
  assert (H6 : asNotesData (toJson d1) = Some d1) by apply asNotesData_toJson.
  assert (H7 : noExternalChange w) by (right; simpl; lia).
  assert (H8 : forall dir name g, backupDir (disk w) = Some dir -> dir !! name = Some g ->
                                  isBackupName name = true -> mtime g < now env)
    by (intros dir name g Hdir; discriminate Hdir).
  repeat (split; [assumption |]).
  exact (restoreFromBackup_undoes_save env env2 1 d d1 false w f (toJson d1)
           H1 H2 H3 H4 H5 H6 (or_intror H7) H8).
Defined.

Lemma restoreFromBackup_invalid_writes_nothing_witness :
  let env := sampleEnv manual 2 T2 in
  let w := sampleWorld (Some (PlainText "notes", T1)) T1 in
  (forall bf parsed,
      backupDir (disk w) ≫= (fun dir => dir !! "backup-2025-11-05T09-54-56.json") = Some bf ->
      JSON_parse (content bf) = Some parsed ->
      isValidNotesData parsed <> inr true)
  /\ exists e, restoreFromBackup env 1 "backup-2025-11-05T09-54-56.json" w = (Throw e, w).
Proof.
  intros env w.
  assert (H1 : forall bf parsed,
             backupDir (disk w) ≫= (fun dir => dir !! "backup-2025-11-05T09-54-56.json")
             = Some bf ->
             JSON_parse (content bf) = Some parsed ->
             isValidNotesData parsed <> inr true)
    by (intros bf parsed Hbf; discriminate Hbf).
  split; [exact H1 |].
  exact (restoreFromBackup_invalid_writes_nothing env 1 "backup-2025-11-05T09-54-56.json" w H1).
Defined.

Lemma loadNotes_repairs_bookmarks_witness :
  let env := sampleEnv manual 2 T2 in
  let d := sampleDoc editor (ref_toISOString T1) 0 ["A"; "B"] (Some [true]) in
  let f := {| content := canonicalFile d; mtime := T1 |} in
  let w := sampleWorld (Some (canonicalFile d, T1)) 0 in
  notesFile (disk w) = Some f
  /\ JSON_parse (content f) = Some (toJson d)
  /\ looksLegacy (toJson d) = false
  /\ isValidNotesData (toJson d) = inr true
  /\ asNotesData (toJson d) = Some d
  /\ ~ bookmarksMatchPages d
  /\ exists loaded w',
       loadNotes env 1 w = (Return (Some loaded), w')
       /\ pages loaded = pages d
       /\ bookmarks loaded = Some (replicate (length (pages d)) false)
       /\ notesFile (disk w')
          = Some {| content :=
                      JSON_stringify
                        (toJson (stamp env (initBookmarks (asLoaded d (mtime f)))));
                    mtime := now env |}.
Proof.
  intros env d f w.
  assert (H1 : notesFile (disk w) = Some f) by reflexivity.
  assert (H2 : JSON_parse (content f) = Some (toJson d)) by reflexivity.
  assert (H3 : looksLegacy (toJson d) = false) by (rewrite looksLegacy_toJson; reflexivity).
  assert (H4 : isValidNotesData (toJson d) = inr true) by apply isValidNotesData_toJson.
  assert (H5 : asNotesData (toJson d) = Some d) by apply asNotesData_toJson.
  assert (H6 : ~ bookmarksMatchPages d)
    by (intros (bs & Hbs & Hlen); injection Hbs as <-; discriminate Hlen).
  repeat (split; [assumption |]).
  exact (loadNotes_repairs_bookmarks env 1 w f (toJson d) d H1 H2 H3 H4 H5 H6).
Defined.

Lemma checkForConflicts_after_save_witness :
  let env := sampleEnv manual 2 T2 in
  let env' := {| config := config env; this_deviceId := "device-9"; now := T2 + 1 |} in
  let d := sampleDoc editor (ref_toISOString T1) 0 ["A"] (Some [false]) in
  let w := sampleWorld None 0 in
  JSON_parse (JSON_stringify (toJson (stamp env d))) = Some (toJson (stamp env d))
  /\ version d <> 0 /\ version d <> 1
  /\ bookmarksMatchPages d
  /\ noExternalChange w
  /\ exists saved w' r,
       saveNotes env 1 d false w = (Return saved, w')
       /\ checkForConflicts env' 1 w' = (Return r, w')
       /\ (hasConflict r = true <-> this_deviceId env <> this_deviceId env')
       /\ (hasConflict r = true ->
           exists ext, remoteData r = Some ext
                       /\ pages ext = pages d /\ deviceId ext = this_deviceId env).
Proof.
  intros env env' d w.
  assert (H1 : JSON_parse (JSON_stringify (toJson (stamp env d)))
               = Some (toJson (stamp env d))) by reflexivity.
  assert (H2 : version d <> 0) by discriminate.
  assert (H3 : version d <> 1) by discriminate.
  assert (H4 : bookmarksMatchPages d) by (exists [false]; split; reflexivity).
  assert (H5 : noExternalChange w) by (left; simpl; lia).
  repeat (split; [assumption |]).
  exact (checkForConflicts_after_save env env' 1 1 d false w H1 H2 H3 H4 (or_intror H5)).
Defined.

Lemma forceMigration_keeps_existing_witness :
  let env := sampleEnv manual 2 T2 in
  let d := sampleDoc editor (ref_toISOString T1) 0 ["kept"] (Some [true]) in
  let legacyData := {| legacy_state := render; legacy_currentPage := 0;
                       legacy_pages := ["legacy"]; legacy_version := None |} in
  let f := {| content := canonicalFile d; mtime := T1 |} in
  let w := sampleWorld (Some (canonicalFile d, T1)) 0 in
  notesFile (disk w) = Some f
  /\ holds f d [true]
  /\ exists w',
       forceMigration env 1 legacyData w = (Return (asLoaded d (mtime f)), w')
       /\ disk w' = disk w
       /\ migrationCompleted w' = true.
Proof.
  intros env d legacyData f w.
  assert (H1 : notesFile (disk w) = Some f) by reflexivity.
  assert (H2 : holds f d [true])
    by (apply canonicalFile_holds; [discriminate | discriminate | reflexivity | reflexivity]).
  repeat (split; [assumption |]).
  exact (forceMigration_keeps_existing env 1 legacyData w f d [true] H1 H2).
Defined.

Lemma forceMigration_writes_legacy_witness :
  let env := sampleEnv manual 2 T2 in
  let legacyData := {| legacy_state := render; legacy_currentPage := 1;
                       legacy_pages := ["one"; "two"]; legacy_version := Some 1 |} in
  let converted := stamp env (convertLegacyData env legacyData) in
  let w := sampleWorld None 0 in
  notesFile (disk w) = None
  /\ JSON_parse (JSON_stringify (toJson converted)) = Some (toJson converted)
  /\ exists saved w' loaded,
       forceMigration env 1 legacyData w = (Return saved, w')
       /\ version saved = 2
       /\ pages saved = legacy_pages legacyData
       /\ state saved = legacy_state legacyData
       /\ currentPage saved = legacy_currentPage legacyData
       /\ bookmarks saved = Some (replicate (length (legacy_pages legacyData)) false)
       /\ notesFile (disk w')
          = Some {| content := JSON_stringify (toJson converted); mtime := now env |}
       /\ migrationCompleted w' = true
       /\ suppressFileWatcherEvents w' = true
       /\ loadNotes env 1 w' = (Return (Some loaded), w')
       /\ pages loaded = legacy_pages legacyData
       /\ bookmarks loaded = Some (replicate (length (legacy_pages legacyData)) false).
Proof.
  intros env legacyData converted w.
  assert (H1 : notesFile (disk w) = None) by reflexivity.
  assert (H2 : JSON_parse (JSON_stringify (toJson converted)) = Some (toJson converted))
    by reflexivity.
  repeat (split; [assumption |]).
  exact (forceMigration_writes_legacy env env 1 1 legacyData w H1 H2).
Defined.

Lemma checkAndMigrate_first_start_witness :
  let env := sampleEnv manual 2 T1 in
  let env' := sampleEnv manual 2 T2 in
  let first := stamp env (createDefaultNotes env) in
  let w := sampleWorld None 0 in
  notesFile (disk w) = None
  /\ JSON_parse (JSON_stringify (toJson first)) = Some (toJson first)
  /\ exists saved w1 loaded w2,
       checkAndMigrate env 1 w = (Return saved, w1)
       /\ pages saved = [""%string]
       /\ bookmarks saved = None
       /\ notesFile (disk w1)
          = Some {| content := JSON_stringify (toJson first); mtime := now env |}
       /\ migrationCompleted w1 = true
       /\ loadNotes env' 1 w1 = (Return (Some loaded), w2)
       /\ pages loaded = [""%string]
       /\ bookmarks loaded = Some [false]
       /\ notesFile (disk w2)
          = Some {| content :=
                      JSON_stringify
                        (toJson (stamp env' (initBookmarks (asLoaded first (now env)))));
                    mtime := now env' |}.
Proof.
  intros env env' first w.
  assert (H1 : notesFile (disk w) = None) by reflexivity.
  assert (H2 : JSON_parse (JSON_stringify (toJson first)) = Some (toJson first))
    by reflexivity.
  repeat (split; [assumption |]).
  exact (checkAndMigrate_first_start env env' 1 1 w H1 H2).
Defined.

(** ** [captureBalancedJson] *)

Section Capture.
Variables openChar closeChar : ascii.

(** The index the loop starts from is an offset of its answer. *)
Lemma captureLoop_offset (rest : list ascii) (depth : Z) (inString isEscaped : bool)
    (i : nat) :
  captureLoop openChar closeChar depth inString isEscaped rest i
  = (fun n => (n + i)%nat)
      <$> captureLoop openChar closeChar depth inString isEscaped rest 0.
Proof.
  revert depth inString isEscaped i.
  induction rest as [| char rest IH]; intros depth inString isEscaped i; [reflexivity |].
  simpl captureLoop.
  destruct inString.
  - destruct isEscaped; [| destruct (Ascii.eqb char "\"); [| destruct (Ascii.eqb char "034")]];
      rewrite (IH _ _ _ (S i)), (IH _ _ _ 1%nat); rewrite <- !option_fmap_compose;
      apply option_fmap_ext; intros n; simpl; lia.
  - cbv zeta. match goal with |- context [?d =? 0] => destruct (d =? 0) end.
    + reflexivity.
    + rewrite (IH _ _ _ (S i)), (IH _ _ _ 1%nat). rewrite <- !option_fmap_compose.
      apply option_fmap_ext. intros n. simpl. lia.
Qed.

(** What the loop reads: the characters up to the closing one, which is the
    last it reads; the text after it does not matter, and the loop does not
    stop before. *)
Lemma captureLoop_Some (rest : list ascii) (depth : Z) (inString isEscaped : bool)
    (n : nat) :
  1 <= depth ->
  captureLoop openChar closeChar depth inString isEscaped rest 0 = Some n ->
  (1 <= n <= length rest)%nat
  /\ rest !! (n - 1)%nat = Some closeChar
  /\ (forall more,
         captureLoop openChar closeChar depth inString isEscaped (take n rest ++ more) 0
         = Some n)
  /\ (forall m, (m < n)%nat ->
         captureLoop openChar closeChar depth inString isEscaped (take m rest) 0 = None).
Proof.
  revert depth inString isEscaped n.
  induction rest as [| char rest IH]; intros depth inString isEscaped n Hdepth Hrun;
    [discriminate |].
  simpl captureLoop in Hrun.
  assert (Hstep : forall depth' inString' isEscaped',
             1 <= depth' ->
             captureLoop openChar closeChar depth' inString' isEscaped' rest 1 = Some n ->
             exists k, n = S k
               /\ (1 <= k <= length rest)%nat
               /\ rest !! (k - 1)%nat = Some closeChar
               /\ (forall more,
                      captureLoop openChar closeChar depth' inString' isEscaped'
                        (take k rest ++ more) 1 = Some n)
               /\ (forall m, (m < k)%nat ->
                      captureLoop openChar closeChar depth' inString' isEscaped'
                        (take m rest) 1 = None)).
  { intros depth' inString' isEscaped' Hd' Hrun'.
    rewrite captureLoop_offset in Hrun'.
    destruct (captureLoop openChar closeChar depth' inString' isEscaped' rest 0)
      as [k |] eqn:Hk; [| discriminate].
    injection Hrun' as <-.
    destruct (IH _ _ _ _ Hd' Hk) as (Hlen & Hlast & Hmore & Hless).
    exists k. split; [lia |]. split; [exact Hlen |]. split; [exact Hlast |]. split.
    - intros more. now rewrite captureLoop_offset, Hmore.
    - intros m Hm. now rewrite captureLoop_offset, (Hless m Hm). }
  assert (Hfinish : forall depth' inString' isEscaped',
             1 <= depth' ->
             captureLoop openChar closeChar depth' inString' isEscaped' rest 1 = Some n ->
             (forall (tail : list ascii),
                 captureLoop openChar closeChar depth inString isEscaped (char :: tail) 0
                 = captureLoop openChar closeChar depth' inString' isEscaped' tail 1) ->
             (1 <= n <= length (char :: rest))%nat
             /\ (char :: rest) !! (n - 1)%nat = Some closeChar
             /\ (forall more,
                    captureLoop openChar closeChar depth inString isEscaped
                      (take n (char :: rest) ++ more) 0 = Some n)
             /\ (forall m, (m < n)%nat ->
                    captureLoop openChar closeChar depth inString isEscaped
                      (take m (char :: rest)) 0 = None)).
  { intros depth' inString' isEscaped' Hd' Hrun' Hhead.
    destruct (Hstep _ _ _ Hd' Hrun') as (k & -> & Hlen & Hlast & Hmore & Hless).
    split; [simpl; lia |]. split.
    - replace (S k - 1)%nat with (S (k - 1)) by lia. exact Hlast.
    - split.
      + intros more. simpl take. simpl app. rewrite Hhead. apply Hmore.
      + intros m Hm. destruct m as [| m]; [reflexivity |].
        simpl take. rewrite Hhead. apply Hless. lia. }
  destruct inString.
  - destruct isEscaped.
    { apply (Hfinish _ _ _ Hdepth Hrun). reflexivity. }
    destruct (Ascii.eqb char "\") eqn:Hbs.
    { apply (Hfinish _ _ _ Hdepth Hrun). intros tail. simpl. now rewrite Hbs. }
    destruct (Ascii.eqb char "034") eqn:Hq.
    { apply (Hfinish _ _ _ Hdepth Hrun). intros tail. simpl. now rewrite Hbs, Hq. }
    apply (Hfinish _ _ _ Hdepth Hrun). intros tail. simpl. now rewrite Hbs, Hq.
  - cbv zeta in Hrun.
    destruct (Ascii.eqb char "034") eqn:Hq.
    { replace (depth =? 0) with false in Hrun by (symmetry; apply Z.eqb_neq; lia).
      apply (Hfinish _ _ _ Hdepth Hrun). intros tail. simpl. rewrite Hq.
      now replace (depth =? 0) with false by (symmetry; apply Z.eqb_neq; lia). }
    destruct (Ascii.eqb char openChar) eqn:Ho.
    { replace (depth + 1 =? 0) with false in Hrun by (symmetry; apply Z.eqb_neq; lia).
      apply (Hfinish (depth + 1) _ _ ltac:(lia) Hrun). intros tail. simpl. rewrite Hq, Ho.
      now replace (depth + 1 =? 0) with false by (symmetry; apply Z.eqb_neq; lia). }
    destruct (Ascii.eqb char closeChar) eqn:Hc.
    { destruct (depth - 1 =? 0) eqn:Hzero.
      - injection Hrun as <-. apply Ascii.eqb_eq in Hc. subst char.
        split; [simpl; lia |]. split; [reflexivity |]. split.
        + intros more. simpl. rewrite Hq, Ho, Ascii.eqb_refl, Hzero. reflexivity.
        + intros m Hm. now replace m with 0%nat by lia.
      - apply Z.eqb_neq in Hzero.
        apply (Hfinish (depth - 1) _ _ ltac:(lia) Hrun). intros tail. simpl.
        rewrite Hq, Ho, Hc.
        now replace (depth - 1 =? 0) with false by (symmetry; apply Z.eqb_neq; lia). }
    replace (depth =? 0) with false in Hrun by (symmetry; apply Z.eqb_neq; lia).
    apply (Hfinish _ _ _ Hdepth Hrun). intros tail. simpl. rewrite Hq, Ho, Hc.
    now replace (depth =? 0) with false by (symmetry; apply Z.eqb_neq; lia).
Qed.
End Capture.

(** A capture, taken apart: the opening character, the closing one, and the
    number [n] of characters the loop has read. *)
Lemma captureBalancedJson_Some (text : list ascii) (start : Z) (s : list ascii) :
  captureBalancedJson text start = Some s ->
  exists openChar closeChar n,
    0 <= start
    /\ text !! Z.to_nat start = Some openChar
    /\ (openChar = "{"%char /\ closeChar = "}"%char
        \/ openChar = "["%char /\ closeChar = "]"%char)
    /\ captureLoop openChar closeChar 1 false false (drop (S (Z.to_nat start)) text) 0
       = Some n
    /\ s = openChar :: take n (drop (S (Z.to_nat start)) text).
Proof.
  unfold captureBalancedJson. intros H.
  destruct (start <? 0) eqn:Hneg; [discriminate |]. apply Z.ltb_ge in Hneg.
  destruct (text !! Z.to_nat start) as [openChar |] eqn:Hopen; [| discriminate].
  destruct (negb (Ascii.eqb openChar "{") && negb (Ascii.eqb openChar "[")) eqn:Hkind;
    [discriminate |].
  cbv zeta in H. rewrite captureLoop_offset in H.
  destruct (captureLoop openChar (if Ascii.eqb openChar "{" then "}"%char else "]"%char)
              1 false false (drop (S (Z.to_nat start)) text) 0) as [n |] eqn:Hloop;
    [| discriminate].
  simpl in H. injection H as <-.
  exists openChar, (if Ascii.eqb openChar "{" then "}"%char else "]"%char), n.
  split; [exact Hneg |]. split; [reflexivity |]. split.
  - destruct (Ascii.eqb openChar "{") eqn:Hbrace.
    + left. apply Ascii.eqb_eq in Hbrace. auto.
    + right. simpl in Hkind. apply negb_false_iff, Ascii.eqb_eq in Hkind. auto.
  - split; [exact Hloop |].
    unfold substring. replace (n + S (Z.to_nat start) - Z.to_nat start)%nat with (S n) by lia.
    now rewrite (drop_S _ _ _ Hopen).
Qed.

Lemma captureBalancedJson_at (pre s' more : list ascii) (openChar closeChar : ascii)
    (n : nat) :
  (openChar = "{"%char /\ closeChar = "}"%char
   \/ openChar = "["%char /\ closeChar = "]"%char) ->
  captureBalancedJson (pre ++ (openChar :: s') ++ more) (Z.of_nat (length pre))
  = (fun stop => substring (pre ++ (openChar :: s') ++ more) (length pre) stop)
      <$> captureLoop openChar closeChar 1 false false (s' ++ more) (S (length pre)).
Proof.
  intros Hkind. unfold captureBalancedJson.
  replace (Z.of_nat (length pre) <? 0) with false by (symmetry; apply Z.ltb_ge; lia).
  rewrite Nat2Z.id.
  rewrite lookup_app_r by lia. rewrite Nat.sub_diag. simpl lookup.
  replace (drop (S (length pre)) (pre ++ (openChar :: s') ++ more)) with (s' ++ more).
  2: { rewrite drop_app_ge by lia.
       replace (S (length pre) - length pre)%nat with 1%nat by lia. reflexivity. }
  destruct Hkind as [[-> ->] | [-> ->]]; simpl;
    match goal with |- context [captureLoop ?o ?c ?d ?a ?b ?r ?i] =>
      destruct (captureLoop o c d a b r i) end; reflexivity.
Qed.

(** X24.  What [captureBalancedJson] hands out is the part of the text that starts
    at [start]: it opens with the brace or bracket found there, closes with
    the matching character and has at least these two characters. *)
Theorem captureBalancedJson_captures (text : list ascii) (start : Z) (s : list ascii) :
  captureBalancedJson text start = Some s ->
  exists openChar closeChar rest,
    0 <= start
    /\ drop (Z.to_nat start) text = s ++ rest
    /\ (openChar = "{"%char /\ closeChar = "}"%char
        \/ openChar = "["%char /\ closeChar = "]"%char)
    /\ head s = Some openChar
    /\ last s = Some closeChar
    /\ (2 <= length s)%nat.
Proof.
  intros H.
  destruct (captureBalancedJson_Some text start s H)
    as (openChar & closeChar & n & Hstart & Hopen & Hkind & Hloop & ->).
  assert (Hdepth : 1 <= 1) by lia.
  destruct (captureLoop_Some openChar closeChar _ 1 false false n Hdepth Hloop)
    as (Hlen & Hlast & _ & _).
  exists openChar, closeChar, (drop n (drop (S (Z.to_nat start)) text)).
  split; [exact Hstart |]. split.
  - rewrite (drop_S _ _ _ Hopen). simpl. now rewrite take_drop.
  - split; [exact Hkind |]. split; [reflexivity |].
    assert (Hn : length (take n (drop (S (Z.to_nat start)) text)) = n)
      by (rewrite length_take; lia).
    split; [| simpl; lia].
    rewrite last_lookup. simpl length. rewrite Hn. simpl.
    destruct n as [| n]; [lia |]. simpl.
    rewrite lookup_take_lt by lia.
    now replace (S n - 1)%nat with n in Hlast by lia.
Qed.

(** X25.  The capture is the shortest balanced part and depends on nothing else:
    wherever the captured part stands in a text, whatever follows it,
    capturing at its first character gives it back (so capturing it again
    changes nothing), and no part of it that stops earlier is captured. *)
Theorem captureBalancedJson_shortest (text : list ascii) (start : Z) (s : list ascii) :
  captureBalancedJson text start = Some s ->
  captureBalancedJson s 0 = Some s
  /\ (forall pre more,
         captureBalancedJson (pre ++ s ++ more) (Z.of_nat (length pre)) = Some s)
  /\ (forall pre m, (m < length s)%nat ->
         captureBalancedJson (pre ++ take m s) (Z.of_nat (length pre)) = None).
Proof.
  intros H.
  destruct (captureBalancedJson_Some text start s H)
    as (openChar & closeChar & n & Hstart & Hopen & Hkind & Hloop & ->).
  assert (Hdepth : 1 <= 1) by lia.
  destruct (captureLoop_Some openChar closeChar _ 1 false false n Hdepth Hloop)
    as (Hlen & _ & Hmore & Hless).
  set (r := drop (S (Z.to_nat start)) text) in *.
  assert (Hn : length (take n r) = n) by (rewrite length_take; lia).
  assert (Hanywhere : forall pre more,
             captureBalancedJson (pre ++ (openChar :: take n r) ++ more)
               (Z.of_nat (length pre)) = Some (openChar :: take n r)).
  { intros pre more.
    rewrite (captureBalancedJson_at pre (take n r) more openChar closeChar n Hkind).
    rewrite captureLoop_offset, Hmore. simpl. f_equal.
    unfold substring. replace (n + S (length pre) - length pre)%nat with (S n) by lia.
    rewrite drop_app_length. simpl. f_equal.
    rewrite take_app_le by lia. now rewrite take_ge by lia. }
  split; [| split].
  - specialize (Hanywhere [] []). simpl in Hanywhere. now rewrite app_nil_r in Hanywhere.
  - exact Hanywhere.
  - intros pre m Hm. simpl in Hm. destruct m as [| m].
    + simpl take. rewrite app_nil_r. unfold captureBalancedJson.
      replace (Z.of_nat (length pre) <? 0) with false by (symmetry; apply Z.ltb_ge; lia).
      rewrite Nat2Z.id. now rewrite lookup_ge_None_2 by lia.
    + simpl take. rewrite take_take.
      replace (m `min` n)%nat with m by lia.
      pose proof (captureBalancedJson_at pre (take m r) [] openChar closeChar n Hkind)
        as Hat.
      rewrite !app_nil_r in Hat. simpl app in Hat. rewrite Hat.
      rewrite captureLoop_offset, Hless by lia. reflexivity.
Qed.

Lemma captureBalancedJson_captures_witness :
  let text := ["x"; "{"; "a"; "["; "}"; "]"; "034"; "}"; "034"; "}"; "y"]%char in
  let s := ["{"; "a"; "["; "}"]%char in
  captureBalancedJson text 1 = Some s
  /\ exists openChar closeChar rest,
       0 <= 1
       /\ drop (Z.to_nat 1) text = s ++ rest
       /\ (openChar = "{"%char /\ closeChar = "}"%char
           \/ openChar = "["%char /\ closeChar = "]"%char)
       /\ head s = Some openChar
       /\ last s = Some closeChar
       /\ (2 <= length s)%nat.
Proof.
  intros text s.
  assert (H : captureBalancedJson text 1 = Some s) by reflexivity.
  split; [exact H |].
  exact (captureBalancedJson_captures text 1 s H).
Defined.

Lemma captureBalancedJson_shortest_witness :
  let text := ["["; "034"; "]"; "\"; "034"; "034"; "["; "]"; "]"; "]"]%char in
  let s := ["["; "034"; "]"; "\"; "034"; "034"; "["; "]"; "]"]%char in
  captureBalancedJson text 0 = Some s
  /\ captureBalancedJson s 0 = Some s
  /\ (forall pre more,
         captureBalancedJson (pre ++ s ++ more) (Z.of_nat (length pre)) = Some s)
  /\ (forall pre m, (m < length s)%nat ->
         captureBalancedJson (pre ++ take m s) (Z.of_nat (length pre)) = None).
Proof.
  intros text s.
  assert (H : captureBalancedJson text 0 = Some s) by reflexivity.
  split; [exact H |].
  exact (captureBalancedJson_shortest text 0 s H).
Defined.

(** ** Files [loadNotes] does not accept *)

Section BadFiles.
Context `{R : Runtime}.

Lemma isValidNotesData_throws (data : json) (e : Err) :
  isValidNotesData data = inl e -> e = TypeError.
Proof.
  unfold isValidNotesData. intros H.
  repeat match type of H with
         | (if ?c then _ else _) = _ => destruct c; [discriminate |]
         | (if ?c then _ else _) = _ => destruct c; [| discriminate]
         | match ?x with _ => _ end = _ => destruct x; try discriminate
         end;
    congruence.
Qed.

(** X18.  A notes file that is no JSON text, or whose JSON is neither taken for
    the legacy format nor accepted by [isValidNotesData], makes [loadNotes]
    reject; it is not taken for a missing file, and nothing is written or
    moved. *)
Theorem loadNotes_rejects_bad_file (env : Env) (fuel : nat) (w : World) (f : file) :
  notesFile (disk w) = Some f ->
  (forall parsed, JSON_parse (content f) = Some parsed ->
                  looksLegacy parsed = false /\ isValidNotesData parsed <> inr true) ->
  exists e, loadNotes env fuel w = (Throw e, w) /\ e <> ENOENT.
Proof.
  intros Hfile Hbad. unfold loadNotes, loadNotes_body.
  assert (Hread := readFile_notes_run w f Hfile).
  assert (Hstat := stat_notes_run w f Hfile).
  destruct (JSON_parse (content f)) as [parsed |] eqn:Hparse.
  - destruct (Hbad parsed eq_refl) as [Hlooks Hinvalid].
    destruct (isValidNotesData parsed) as [e | valid] eqn:Hvalid.
    + pose proof (isValidNotesData_throws parsed e Hvalid) as ->.
      exists TypeError. split; [| discriminate].
      erewrite run_catch
        by (erewrite run_bind by exact Hread; erewrite run_bind by exact Hstat;
            rewrite Hparse, Hlooks; cbv beta iota;
            erewrite run_bind by reflexivity; cbv beta iota; rewrite Hvalid;
            apply run_bind_throw; reflexivity).
      reflexivity.
    + destruct valid; [congruence |].
      exists (Error "Invalid notes data format"). split; [| discriminate].
      erewrite run_catch
        by (erewrite run_bind by exact Hread; erewrite run_bind by exact Hstat;
            rewrite Hparse, Hlooks; cbv beta iota;
            erewrite run_bind by reflexivity; cbv beta iota; rewrite Hvalid;
            unfold liftValid; erewrite run_bind by reflexivity; reflexivity).
      reflexivity.
  - exists SyntaxError. split; [| discriminate].
    erewrite run_catch
      by (erewrite run_bind by exact Hread; erewrite run_bind by exact Hstat;
          rewrite Hparse; reflexivity).
    reflexivity.
Qed.
End BadFiles.

(** ** The policy [timestamp] when the stored version is not later *)

Section LocalWins.
Context `{R : Runtime}.

Lemma ensureStorageDirectory_id (w : World) :
  storageDir (disk w) = true -> ensureStorageDirectory w = (Return tt, w).
Proof.
  intros H. unfold ensureStorageDirectory. erewrite run_bind by reflexivity.
  now rewrite H.
Qed.

(** X13.  Under the policy [timestamp], with the watermark set and the notes
    file modified after it, a save that finds an external version that
    [loadNotes] takes as it is (valid, not in the legacy format, one
    bookmark flag per page) goes through unless that version has a strictly
    later [lastModified]: on a tie, on an older external version and
    whenever one of the two timestamps cannot be read, the external version
    is overwritten. *)
Theorem saveNotes_timestamp_local_wins (env : Env) (fuel : nat) (d : NotesData)
    (w : World) (f : file) (ext : NotesData) (bs : list bool) :
  conflictResolution (sync (config env)) = timestamp ->
  0 < lastKnownModTime w ->
  notesFile (disk w) = Some f ->
  lastKnownModTime w < mtime f ->
  holds f ext bs ->
  js_gt (Date_getTime (lastModified ext)) (Date_getTime (lastModified d)) = false ->
  exists saved w',
    saveNotes env fuel d false w = (Return saved, w')
    /\ pages saved = pages d
    /\ notesFile (disk w')
       = Some {| content := JSON_stringify (toJson (stamp env d)); mtime := now env |}
    /\ lastKnownModTime w' = now env.
Proof.
  intros Hpolicy Hset Hfile Hnewer Hholds Hnot.
  destruct (ensureStorageDirectory_run w)
    as (w0 & Hensure & Hsd0 & Hnf0 & _ & Hlk0 & _ & _).
  set (w1 := withWatermark w0 (mtime f)).
  exists (set_fileModTime (stamp env d) (now env)), (afterSave env d w1).
  split; [| repeat split].
  rewrite saveNotes_unfold.
  set (load := loadNotes_body env
                 (fun d0 => match fuel with
                            | O => halt OutOfFuel
                            | S n => saveNotes env n d0 false
                            end)).
  rewrite <- (saveNotes_write env load d w1).
  unfold saveNotes_body.
  erewrite (run_bind ensureStorageDirectory _ w) by exact Hensure.
  erewrite (run_bind ensureStorageDirectory _ w1)
    by (apply ensureStorageDirectory_id; exact Hsd0).
  erewrite !(run_bind getWorld) by reflexivity.
  rewrite Hlk0, (proj2 (Z.ltb_lt _ _) Hset). simpl negb. simpl andb. cbv iota.
  erewrite (run_bind (ret tt)) by reflexivity.
  erewrite run_bind; [reflexivity |].
  apply run_try.
  erewrite run_bind by (apply stat_notes_run; rewrite Hnf0; exact Hfile).
  erewrite run_bind by reflexivity.
  rewrite Hlk0, (proj2 (Z.ltb_lt _ _) Hnewer), Hpolicy.
  erewrite run_bind
    by (apply (loadNotes_body_holds env _ w0 f ext bs); [congruence | exact Hholds]).
  cbv beta iota.
  replace (lastModified (asLoaded ext (mtime f))) with (lastModified ext)
    by (unfold asLoaded; now destruct (fileModTimeMissing ext)).
  rewrite Hnot. reflexivity.
Qed.
End LocalWins.

Lemma loadNotes_rejects_bad_file_witness :
  let env := sampleEnv manual 2 T2 in
  let f := {| content := JsonText JNull; mtime := T1 |} in
  let w := sampleWorld (Some (JsonText JNull, T1)) 0 in
  notesFile (disk w) = Some f
  /\ (forall parsed, JSON_parse (content f) = Some parsed ->
                     looksLegacy parsed = false /\ isValidNotesData parsed <> inr true)
  /\ exists e, loadNotes env 1 w = (Throw e, w) /\ e <> ENOENT.
Proof.
  intros env f w.
  assert (H1 : notesFile (disk w) = Some f) by reflexivity.
  assert (H2 : forall parsed, JSON_parse (content f) = Some parsed ->
                 looksLegacy parsed = false /\ isValidNotesData parsed <> inr true)
    by (intros parsed [= <-]; split; [reflexivity | discriminate]).
  repeat (split; [assumption |]).
  exact (loadNotes_rejects_bad_file env 1 w f H1 H2).
Defined.

Lemma saveNotes_timestamp_local_wins_witness :
  let env := sampleEnv timestamp 2 T2 in
  let d := sampleDoc editor (ref_toISOString T1) 0 ["mine"] (Some [false]) in
  let ext := sampleDoc editor (ref_toISOString T1) 0 ["theirs"] (Some [false]) in
  let f := {| content := canonicalFile ext; mtime := T1 + 9 |} in
  let w := sampleWorld (Some (canonicalFile ext, T1 + 9)) T1 in
  conflictResolution (sync (config env)) = timestamp
  /\ 0 < lastKnownModTime w
  /\ notesFile (disk w) = Some f
  /\ lastKnownModTime w < mtime f
  /\ holds f ext [false]
  /\ js_gt (Date_getTime (lastModified ext)) (Date_getTime (lastModified d)) = false
  /\ exists saved w',
       saveNotes env 1 d false w = (Return saved, w')
       /\ pages saved = pages d
       /\ notesFile (disk w')
          = Some {| content := JSON_stringify (toJson (stamp env d)); mtime := now env |}
       /\ lastKnownModTime w' = now env.
Proof.
  intros env d ext f w.
  assert (H1 : conflictResolution (sync (config env)) = timestamp) by reflexivity.
  assert (H2 : 0 < lastKnownModTime w) by (vm_compute; reflexivity).
  assert (H3 : notesFile (disk w) = Some f) by reflexivity.
  assert (H4 : lastKnownModTime w < mtime f) by (simpl; lia).
  assert (H5 : holds f ext [false])
    by (apply canonicalFile_holds; [discriminate | discriminate | reflexivity | reflexivity]).
  assert (H6 : js_gt (Date_getTime (lastModified ext)) (Date_getTime (lastModified d))
               = false) by (vm_compute; reflexivity).
  repeat (split; [assumption |]).
  exact (saveNotes_timestamp_local_wins env 1 d w f ext [false] H1 H2 H3 H4 H5 H6).
Defined.
